(** * Base media sets: manifest loading and the set registry

    A shallow embedding of [src/base_media_func.h]: the manifest reader
    [BaseSet::FillSetDetails], the registry mutators [BaseMedia::AddFile] and
    [BaseMedia::SetSet], the enumeration functions and the content matcher
    [TryGetBaseSetFile] / [BaseMedia::HasSet].

    Conventions.
    - A [const char *] is an [option string]: [None] is the null pointer.
      A string stands for the characters before the terminating NUL and
      holds no NUL itself.
    - [uint], [uint32] are 32-bit unsigned integers, kept in [Z] with the
      wrap-around written as [wrap32].
    - Objects of type [Tbase_set] live in a heap, a finite map from addresses
      to records; the intrusive [next] field links them into the two lists
      of the registry.
    - A computation that dereferences a null or dangling pointer, hands a
      null pointer to [strcmp] or to [xstrdup], or does not leave a loop
      within the number of allocated objects, has no result: the functions
      return [None] there. *)

From Stdlib Require Import ZArith Ascii String List Lia Bool.
From stdpp Require Import base option list gmap strings numbers.

Open Scope string_scope.
Open Scope list_scope.
Open Scope Z_scope.

(** ** Strings as the code reads them *)

(** The byte at the head of a C string; the terminating NUL at its end. *)
Definition peek (c : string) : Z :=
  match c with
  | EmptyString => 0
  | String ch _ => Z.of_N (N_of_ascii ch)
  end.

(** [c++] on a pointer into a string. *)
Definition advance (c : string) : string :=
  match c with
  | EmptyString => EmptyString
  | String _ rest => rest
  end.

(** Modelled from the spec: [StrEmpty] is declared in [string.h], not part
    of the sources; a field that is "missing/empty" is a null pointer or a
    string that starts with NUL. *)
Definition StrEmpty (s : option string) : bool :=
  match s with
  | None => true
  | Some c => peek c =? 0
  end.

(** [strcmp (a, b) == 0]; undefined on a null pointer. *)
Definition strcmp_eq (a b : option string) : option bool :=
  match a, b with
  | Some x, Some y => Some (bool_decide (x = y))
  | _, _ => None
  end.

(** [xstrdup] is declared outside the sources.  It returns a copy of the
    string that it is given, which it reads up to the NUL: on a null pointer
    there is no result. *)
Definition xstrdup (s : option string) : option string := s.

(** [strncmp (p, s, n) == 0] for a literal [p] of exactly [n] characters. *)
Definition has_prefix (p s : string) : bool := String.prefix p s.

Definition wrap32 (z : Z) : Z := z mod 2 ^ 32.

(** Truncation to [uint8]. *)
Definition wrap8 (z : Z) : Z := z mod 2 ^ 8.

(** ** The manifest *)

(** Modelled from the spec: [ini_type.h] is not part of the sources.  The
    spec gives the parser as a capability, "find group by name" and "find
    item by key returning an optional string value"; an item's value is a
    [char *] that the code tests against [NULL]. *)
Record IniItem := mkItem { item_name : string; value : option string }.

(** Modelled from the spec: a group of [ini_type.h], its name and its items
    in the order of the file. *)
Record IniGroup := mkGroup { group_name : string; items : list IniItem }.

(** Modelled from the spec: the manifest of [ini_type.h] as [LoadFromDisk]
    leaves it, its groups in the order of the file. *)
Definition IniFile := list IniGroup.

(** Modelled from the spec: [IniGroup::find] of [ini_type.h], "find item by
    key": the first item of that name, or [NULL]. *)
Definition group_find (g : IniGroup) (key : string) : option IniItem :=
  find (fun it => bool_decide (item_name it = key)) (items g).

(** Modelled from the spec: [IniFile::find] of [ini_type.h], "find group by
    name": the first group of that name, or [NULL]. *)
Definition ini_find (ini : IniFile) (key : string) : option IniGroup :=
  find (fun g => bool_decide (group_name g = key)) ini.

(** Modelled from the spec: [IniFile::get_group] of [ini_type.h]; as
    [find], with an empty group made when there is none, so that a key of a
    group that the manifest lacks is a missing key. *)
Definition get_group (ini : IniFile) (key : string) : IniGroup :=
  default (mkGroup key []) (ini_find ini key).

(** [fetch_metadata]: the item, unless it is absent or has an empty value. *)
Definition fetch_metadata (metadata : IniGroup) (key : string) : option IniItem :=
  match group_find metadata key with
  | None => None
  | Some item => if StrEmpty (value item) then None else Some item
  end.

(** ** Files and sets *)

(** The results of [CheckMD5] that the switch of lines 154-168 tells
    apart. *)
Inductive ChecksumResult := CR_MATCH | CR_MISMATCH | CR_NO_FILE.

(** Modelled from the spec: [sizeof (file->hash)], the sixteen bytes of an
    MD5 digest ([MD5File] is declared outside the sources; lines 309-316
    read sixteen bytes of each hash). *)
Definition MD5_HASH_BYTES : nat := 16.

(** A file of a set, with the fields that the functions here write and
    read. *)
Record MD5File := mkMD5File {
  filename : option string;
  hash : list Z;
  missing_warning : option string
}.

(** The address of a set in the heap. *)
Definition addr := positive.

(** A pointer to a set: [None] is [NULL]. *)
Definition ptr := option addr.

(** A set, with the fields that the functions here write and read; the
    array [files] is a list of [Tnum_files] files.  The container of
    [description] is declared in [base_media_base.h], not part of the
    sources: the field holds the assignments [description[key] = text] that
    the code makes, in the order in which it makes them, and nothing is
    assumed of how the container compares keys. *)
Record BaseSet := mkBaseSet {
  name : option string;
  description : list (string * string);
  shortname : Z;
  version : Z;
  fallback : bool;
  files : list MD5File;
  found_files : Z;
  valid_files : Z;
  next : ptr
}.

Definition with_name (s : BaseSet) (v : option string) : BaseSet :=
  mkBaseSet v (description s) (shortname s) (version s) (fallback s)
            (files s) (found_files s) (valid_files s) (next s).

Definition with_description (s : BaseSet) (v : list (string * string)) : BaseSet :=
  mkBaseSet (name s) v (shortname s) (version s) (fallback s)
            (files s) (found_files s) (valid_files s) (next s).

Definition with_shortname (s : BaseSet) (v : Z) : BaseSet :=
  mkBaseSet (name s) (description s) v (version s) (fallback s)
            (files s) (found_files s) (valid_files s) (next s).

Definition with_version (s : BaseSet) (v : Z) : BaseSet :=
  mkBaseSet (name s) (description s) (shortname s) v (fallback s)
            (files s) (found_files s) (valid_files s) (next s).

Definition with_fallback (s : BaseSet) (v : bool) : BaseSet :=
  mkBaseSet (name s) (description s) (shortname s) (version s) v
            (files s) (found_files s) (valid_files s) (next s).

Definition with_files (s : BaseSet) (v : list MD5File) : BaseSet :=
  mkBaseSet (name s) (description s) (shortname s) (version s) (fallback s)
            v (found_files s) (valid_files s) (next s).

Definition with_found_files (s : BaseSet) (v : Z) : BaseSet :=
  mkBaseSet (name s) (description s) (shortname s) (version s) (fallback s)
            (files s) v (valid_files s) (next s).

Definition with_valid_files (s : BaseSet) (v : Z) : BaseSet :=
  mkBaseSet (name s) (description s) (shortname s) (version s) (fallback s)
            (files s) (found_files s) v (next s).

Definition with_next (s : BaseSet) (v : ptr) : BaseSet :=
  mkBaseSet (name s) (description s) (shortname s) (version s) (fallback s)
            (files s) (found_files s) (valid_files s) v.

(** ** The checksum decoder (the loop at lines 124-142) *)

(** The value of a hexadecimal digit, or [None] for any other byte, the
    terminating NUL among them. *)
Definition hex_digit (c : Z) : option Z :=
  if (48 <=? c) && (c <=? 57) then Some (c - 48)
  else if (97 <=? c) && (c <=? 102) then Some (c - 97 + 10)
  else if (65 <=? c) && (c <=? 70) then Some (c - 65 + 10)
  else None.

(** [n] iterations are left, [i] is the loop counter, [c] the read pointer.
    The result is [false] with the digest as far as it was written when a
    byte is no digit. *)
Fixpoint decode_loop (n i : nat) (c : string) (h : list Z) : bool * list Z :=
  match n with
  | O => (true, h)
  | S n' =>
    match hex_digit (peek c) with
    | None => (false, h)
    | Some j =>
      let h' :=
        if (i mod 2 =? 0)%nat
        then <[(i / 2)%nat := wrap8 (Z.shiftl j 4)]> h
        else <[(i / 2)%nat := wrap8 (Z.lor (nth (i / 2) h 0) j)]> h in
      decode_loop n' (S i) (advance c) h'
    end
  end.

(** Decoding into a digest of [nbytes] bytes that starts zeroed. *)
Definition decode_hash (nbytes : nat) (c : string) : bool * list Z :=
  decode_loop (nbytes * 2) 0 c (replicate nbytes 0).

(** ** [BaseSet::FillSetDetails] *)

Section Model.

(** What the set type [T] and the C library supply: the number of files of a
    set and the key of each in the [files] group ([file_names]), the
    integrity check of a file on disk ([T::CheckMD5] with [BASESET_DIR]),
    and [atoi]. *)
Variable Tnum_files : nat.
Variable file_names : nat -> string.
Variable CheckMD5 : MD5File -> ChecksumResult.
Variable atoi : string -> Z.

(** An object after the [memset] of line 55: every field zero. *)
Definition blank_file : MD5File :=
  mkMD5File None (replicate MD5_HASH_BYTES 0) None.

Definition blank_set : BaseSet :=
  mkBaseSet None [] 0 0 false (replicate Tnum_files blank_file) 0 0 None.

(** One turn of the loop over the metadata items (lines 75-79): a key that
    starts with [description.] gives the text for the language after the
    dot.  Line 78 hands the value of the item to [xstrdup] as it is. *)
Definition add_translation (d : list (string * string)) (item : IniItem)
  : option (list (string * string)) :=
  if has_prefix "description." (item_name item)
  then
    match xstrdup (value item) with
    | None => None
    | Some text =>
      Some (d ++ [(String.substring 12 (String.length (item_name item) - 12)
                     (item_name item), text)])
    end
  else Some d.

(** The loop itself, over the items in the order of the manifest. *)
Fixpoint add_translations (l : list IniItem) (d : list (string * string))
  : option (list (string * string)) :=
  match l with
  | [] => Some d
  | item :: l' =>
    match add_translation d item with
    | None => None
    | Some d' => add_translations l' d'
    end
  end.

(** The loop at lines 83-85: byte [i] of the short name goes to bits
    [8 i .. 8 i + 7]; [n] iterations are left. *)
Fixpoint shortname_loop (n : nat) (i : Z) (c : string) (acc : Z) : Z :=
  match n with
  | O => acc
  | S n' =>
    if peek c =? 0 then acc
    else shortname_loop n' (i + 1) (advance c)
           (wrap32 (Z.lor acc (Z.shiftl (peek c) (i * 8))))
  end.

(** Line 92. [strcmp] is reached with the value of the item as soon as the
    item is there. *)
Definition read_fallback (metadata : IniGroup) : option bool :=
  match group_find metadata "fallback" with
  | None => Some false
  | Some item =>
    match strcmp_eq (value item) (Some "0") with
    | None => None
    | Some true => Some false
    | Some false =>
      match strcmp_eq (value item) (Some "false") with
      | None => None
      | Some e => Some (negb e)
      end
    end
  end.

Definition get_file (this : BaseSet) (i : nat) : MD5File :=
  nth i (files this) blank_file.

Definition set_file (this : BaseSet) (i : nat) (f : MD5File) : BaseSet :=
  with_files this (<[i := f]> (files this)).

(** [valid_files++] and [found_files++] on the [uint] counters. *)
Definition incr_valid (this : BaseSet) : BaseSet :=
  with_valid_files this (wrap32 (valid_files this + 1)).

Definition incr_found (this : BaseSet) : BaseSet :=
  with_found_files this (wrap32 (found_files this + 1)).

(** Lines 144-152: the warning for the file, from the item of the file in
    the [origin] group or else from the item [default]; [None] when
    [xstrdup] is handed a null value. *)
Definition read_warning (origin : IniGroup) (fname : string) : option string :=
  let item :=
    match group_find origin fname with
    | Some item => Some item
    | None => group_find origin "default"
    end in
  match item with
  | None => xstrdup (Some EmptyString)
  | Some item => xstrdup (value item)
  end.

(** One turn of the loop over the files (lines 99-168).  The boolean is
    [false] when the turn ends in [return false]; there is no result when
    line 151 hands a null value to [xstrdup]. *)
Definition fill_file (gfiles md5s origin : IniGroup) (path : string)
    (allow_empty_filename : bool) (i : nat) (this : BaseSet)
  : option (bool * BaseSet) :=
  match group_find gfiles (file_names i) with
  | None => Some (false, this)
  | Some item =>
    match value item with
    | None =>
      if allow_empty_filename then
        let file := get_file this i in
        let this := set_file this i
                      (mkMD5File None (hash file) (missing_warning file)) in
        Some (true, incr_found (incr_valid this))
      else Some (false, this)
    | Some fname =>
      let file := get_file this i in
      let file := mkMD5File (Some (path +:+ fname)) (hash file) (missing_warning file) in
      let this := set_file this i file in
      match group_find md5s fname with
      | None => Some (false, this)
      | Some item =>
        match value item with
        | None => Some (false, this)
        | Some c =>
          let '(ok, h) := decode_loop (MD5_HASH_BYTES * 2) 0 c (hash file) in
          let file := mkMD5File (filename file) h (missing_warning file) in
          let this := set_file this i file in
          if ok then
            match read_warning origin fname with
            | None => None
            | Some warning =>
              let file := mkMD5File (filename file) (hash file) (Some warning) in
              let this := set_file this i file in
              match CheckMD5 file with
              | CR_MATCH => Some (true, incr_found (incr_valid this))
              | CR_MISMATCH => Some (true, incr_found this)
              | CR_NO_FILE => Some (true, this)
              end
            end
          else Some (false, this)
        end
      end
    end
  end.

(** The loop [for (uint i = 0; i < Tnum_files; i++)] with [n] turns left. *)
Fixpoint fill_files (gfiles md5s origin : IniGroup) (path : string)
    (allow_empty_filename : bool) (n i : nat) (this : BaseSet)
  : option (bool * BaseSet) :=
  match n with
  | O => Some (true, this)
  | S n' =>
    match fill_file gfiles md5s origin path allow_empty_filename i this with
    | None => None
    | Some (ok, this) =>
      if ok
      then fill_files gfiles md5s origin path allow_empty_filename n' (S i) this
      else Some (false, this)
    end
  end.

(** The result is the returned boolean with the object as the call leaves
    it; [None] when line 78 or line 151 hands a null value to [xstrdup], or
    line 92 one to [strcmp].  At lines 68 and 72 the value is not null:
    [fetch_metadata] gave an item with a value that is not empty. *)
Definition FillSetDetails (ini : IniFile) (path full_filename : string)
    (allow_empty_filename : bool) : option (bool * BaseSet) :=
  let this := blank_set in
  match ini_find ini "metadata" with
  | None => Some (false, this)
  | Some metadata =>
  match fetch_metadata metadata "name" with
  | None => Some (false, this)
  | Some item =>
  let this := with_name this (xstrdup (value item)) in
  match fetch_metadata metadata "description" with
  | None => Some (false, this)
  | Some item =>
  match xstrdup (value item) with
  | None => None
  | Some text =>
  let this := with_description this (description this ++ [(EmptyString, text)]) in
  match add_translations (items metadata) (description this) with
  | None => None
  | Some d =>
  let this := with_description this d in
  match fetch_metadata metadata "shortname" with
  | None => Some (false, this)
  | Some item =>
  let this := with_shortname this
                (shortname_loop 4 0 (default EmptyString (value item)) (shortname this)) in
  match fetch_metadata metadata "version" with
  | None => Some (false, this)
  | Some item =>
  let this := with_version this (wrap32 (atoi (default EmptyString (value item)))) in
  match read_fallback metadata with
  | None => None
  | Some b =>
  let this := with_fallback this b in
  fill_files (get_group ini "files") (get_group ini "md5s")
    (get_group ini "origin") path allow_empty_filename Tnum_files 0 this
  end end end end end end end end.

(** ** The registry [BaseMedia<Tbase_set>] *)

(** The static members, with the heap that holds the sets. *)
Record BaseMedia := mkBaseMedia {
  heap : gmap addr BaseSet;
  used_set : ptr;
  available_sets : ptr;
  duplicate_sets : ptr
}.

Definition with_heap (st : BaseMedia) (h : gmap addr BaseSet) : BaseMedia :=
  mkBaseMedia h (used_set st) (available_sets st) (duplicate_sets st).

Definition with_used_set (st : BaseMedia) (p : ptr) : BaseMedia :=
  mkBaseMedia (heap st) p (available_sets st) (duplicate_sets st).

Definition with_available_sets (st : BaseMedia) (p : ptr) : BaseMedia :=
  mkBaseMedia (heap st) (used_set st) p (duplicate_sets st).

Definition with_duplicate_sets (st : BaseMedia) (p : ptr) : BaseMedia :=
  mkBaseMedia (heap st) (used_set st) (available_sets st) p.

(** The registry before the first scan: the statics are zero. *)
Definition empty_media : BaseMedia := mkBaseMedia ∅ None None None.

(** [a->next = p]. *)
Definition set_next (st : BaseMedia) (a : addr) (p : ptr) : option BaseMedia :=
  match heap st !! a with
  | None => None
  | Some s => Some (with_heap st (<[a := with_next s p]> (heap st)))
  end.

(** A [Tbase_set **]: the static [available_sets] or the [next] field of
    a set. *)
Inductive loc := AvailableSets | NextOf (a : addr).

Definition load (st : BaseMedia) (l : loc) : option ptr :=
  match l with
  | AvailableSets => Some (available_sets st)
  | NextOf a => next <$> heap st !! a
  end.

Definition store (st : BaseMedia) (l : loc) (p : ptr) : option BaseMedia :=
  match l with
  | AvailableSets => Some (with_available_sets st p)
  | NextOf a => set_next st a p
  end.

(** Loops over a chain run for at most [fuel] turns; no chain without a
    cycle is longer than the number of objects. *)
Definition fuel_of (st : BaseMedia) : nat := S (size (heap st)).

(** Lines 194-199: the first available set with the name or the short name
    of [set]; [Some None] when the loop ends without one. *)
Fixpoint find_duplicate (fuel : nat) (h : gmap addr BaseSet) (c : ptr)
    (set : BaseSet) : option ptr :=
  match fuel with
  | O => None
  | S fuel' =>
    match c with
    | None => Some None
    | Some a =>
      match h !! a with
      | None => None
      | Some cs =>
        match strcmp_eq (name cs) (name set) with
        | None => None
        | Some e =>
          if e || (shortname cs =? shortname set) then Some (Some a)
          else find_duplicate fuel' h (next cs) set
        end
      end
    end
  end.

(** Line 211: [while ( *prev != duplicate) prev = &( *prev)->next]. *)
Fixpoint find_prev (fuel : nat) (st : BaseMedia) (prev : loc) (duplicate : addr)
  : option loc :=
  match fuel with
  | O => None
  | S fuel' =>
    match load st prev with
    | None => None
    | Some p =>
      if bool_decide (p = Some duplicate) then Some prev
      else match p with
           | None => None
           | Some a => find_prev fuel' st (NextOf a) duplicate
           end
    end
  end.

(** Line 230: [while ( *last != NULL) last = &( *last)->next]. *)
Fixpoint find_last (fuel : nat) (st : BaseMedia) (last : loc) : option loc :=
  match fuel with
  | O => None
  | S fuel' =>
    match load st last with
    | None => None
    | Some None => Some last
    | Some (Some a) => find_last fuel' st (NextOf a)
    end
  end.

(** What the platform and the header supply to [AddFile]: the path
    separator and the default of [allow_empty_filename]. *)
Variable PATHSEPCHAR : ascii.
Variable allow_empty_default : bool.

(** Lines 184-190: the directory of a file name, with its last separator;
    [None] when [strrchr] finds no separator. *)
Fixpoint upto_last_sep (s : string) : option string :=
  match s with
  | EmptyString => None
  | String c rest =>
    match upto_last_sep rest with
    | Some d => Some (String c d)
    | None =>
      if bool_decide (c = PATHSEPCHAR) then Some (String c EmptyString) else None
    end
  end.

Definition set_path (filename : string) (basepath_length : nat) : string :=
  let path := String.substring basepath_length
                (String.length filename - basepath_length) filename in
  default EmptyString (upto_last_sep path).

(** The condition of lines 202-203 on the incumbent [dup] and the new
    [set]. *)
Definition keeps_incumbent (dup set : BaseSet) : bool :=
  ((valid_files dup =? valid_files set) && (version dup >=? version set))
  || (valid_files dup >? valid_files set).

(** [BaseMedia::AddFile].  [ini] is the manifest as [LoadFromDisk] read it.
    The fields of [set] are read from the result of [FillSetDetails]; they
    are not written between that call and the reads. *)
Definition AddFile (st : BaseMedia) (ini : IniFile) (filename : string)
    (basepath_length : nat) : option (bool * BaseMedia) :=
  let pset := fresh (dom (heap st)) in
  let path := set_path filename basepath_length in
  match FillSetDetails ini path filename allow_empty_default with
  | None => None
  | Some (ok, set) =>
    let st := with_heap st (<[pset := set]> (heap st)) in
    if ok then
      match find_duplicate (fuel_of st) (heap st) (available_sets st) set with
      | None => None
      | Some (Some d) =>
        match heap st !! d with
        | None => None
        | Some dup =>
          if keeps_incumbent dup set then
            match set_next st pset (duplicate_sets st) with
            | None => None
            | Some st => Some (false, with_duplicate_sets st (Some pset))
            end
          else
            match find_prev (fuel_of st) st AvailableSets d with
            | None => None
            | Some prev =>
            match store st prev (Some pset) with
            | None => None
            | Some st =>
            match heap st !! d with
            | None => None
            | Some dup =>
            match set_next st pset (next dup) with
            | None => None
            | Some st =>
            let st := if bool_decide (used_set st = Some d)
                      then with_used_set st (Some pset) else st in
            match set_next st d (duplicate_sets st) with
            | None => None
            | Some st => Some (true, with_duplicate_sets st (Some d))
            end end end end end
        end
      | Some None =>
        match find_last (fuel_of st) st AvailableSets with
        | None => None
        | Some last =>
          match store st last (Some pset) with
          | None => None
          | Some st => Some (true, st)
          end
        end
      end
    else Some (false, with_heap st (delete pset (heap st)))
  end.

(** [DetermineBestSet] is defined per set type, outside these sources. *)
Variable DetermineBestSet : BaseMedia -> bool * BaseMedia.

(** Lines 263-269. *)
Fixpoint SetSet_loop (fuel : nat) (st : BaseMedia) (s : ptr) (nm : option string)
  : option (bool * BaseMedia) :=
  match fuel with
  | O => None
  | S fuel' =>
    match s with
    | None => Some (false, st)
    | Some a =>
      match heap st !! a with
      | None => None
      | Some cs =>
        match strcmp_eq nm (name cs) with
        | None => None
        | Some true => Some (true, with_used_set st (Some a))
        | Some false => SetSet_loop fuel' st (next cs) nm
        end
      end
    end
  end.

(** [BaseMedia::SetSet].  [CheckExternalFiles] is a free function that only
    reports on the sets in use; it leaves the registry as it is. *)
Definition SetSet (st : BaseMedia) (nm : option string) : option (bool * BaseMedia) :=
  if StrEmpty nm then
    let '(ok, st) := DetermineBestSet st in
    if negb ok then Some (false, st) else Some (true, st)
  else SetSet_loop (fuel_of st) st (available_sets st) nm.

(** Modelled from the spec: [GetNumMissing] is declared in
    [base_media_base.h], not part of the sources; the spec counts a set's
    missing files as its [totalFiles] less its [foundFiles]. *)
Definition GetNumMissing (s : BaseSet) : Z := Z.of_nat Tnum_files - found_files s.

(** [BaseMedia::GetNumSets], the loop with the counter [n]. *)
Fixpoint GetNumSets_loop (fuel : nat) (st : BaseMedia) (s : ptr) (n : Z) : option Z :=
  match fuel with
  | O => None
  | S fuel' =>
    match s with
    | None => Some n
    | Some a =>
      match heap st !! a with
      | None => None
      | Some cs =>
        if negb (bool_decide (s = used_set st)) && negb (GetNumMissing cs =? 0)
        then GetNumSets_loop fuel' st (next cs) n
        else GetNumSets_loop fuel' st (next cs) (n + 1)
      end
    end
  end.

Definition GetNumSets (st : BaseMedia) : option Z :=
  GetNumSets_loop (fuel_of st) st (available_sets st) 0.

(** [BaseMedia::GetIndexOfUsedSet]. *)
Fixpoint GetIndexOfUsedSet_loop (fuel : nat) (st : BaseMedia) (s : ptr) (n : Z)
  : option Z :=
  match fuel with
  | O => None
  | S fuel' =>
    match s with
    | None => Some (-1)
    | Some a =>
      if bool_decide (s = used_set st) then Some n
      else
        match heap st !! a with
        | None => None
        | Some cs =>
          if negb (GetNumMissing cs =? 0)
          then GetIndexOfUsedSet_loop fuel' st (next cs) n
          else GetIndexOfUsedSet_loop fuel' st (next cs) (n + 1)
        end
    end
  end.

Definition GetIndexOfUsedSet (st : BaseMedia) : option Z :=
  GetIndexOfUsedSet_loop (fuel_of st) st (available_sets st) 0.

(** ** The content matcher *)

(** Modelled from the spec: [ContentInfo] is declared in
    [network/network_content.h], not part of the sources; the query is
    given as [{shortId: uint32, digest: 16 bytes}]. *)
Record ContentInfo := mkContentInfo { unique_id : Z; md5sum : list Z }.

(** Lines 312-314: [md5[j] ^= hash[j]] for the [n] bytes from [j] on. *)
Fixpoint xor_into (n j : nat) (md5 h : list Z) : list Z :=
  match n with
  | O => md5
  | S n' => xor_into n' (S j) (<[j := Z.lxor (nth j md5 0) (nth j h 0)]> md5) h
  end.

(** Lines 311-315: the files [i], [i + 1], ... of the set, [n] of them. *)
Fixpoint md5_loop (n i : nat) (s : BaseSet) (md5 : list Z) : list Z :=
  match n with
  | O => md5
  | S n' => md5_loop n' (S i) s (xor_into 16 0 md5 (hash (get_file s i)))
  end.

Definition combined_md5 (s : BaseSet) : list Z :=
  md5_loop Tnum_files 0 s (replicate 16 0).

(** [memcmp (a, b, 16) == 0]. *)
Definition memcmp16_eq (a b : list Z) : bool :=
  forallb (fun j => nth j a 0 =? nth j b 0) (seq 0 16).

(** [TryGetBaseSetFile] with [ENABLE_NETWORK]. *)
Fixpoint TryGetBaseSetFile (fuel : nat) (h : gmap addr BaseSet) (ci : ContentInfo)
    (md5 : bool) (s : ptr) : option (option string) :=
  match fuel with
  | O => None
  | S fuel' =>
    match s with
    | None => Some None
    | Some a =>
      match h !! a with
      | None => None
      | Some cs =>
        if negb (GetNumMissing cs =? 0) then TryGetBaseSetFile fuel' h ci md5 (next cs)
        else if negb (shortname cs =? unique_id ci)
        then TryGetBaseSetFile fuel' h ci md5 (next cs)
        else if negb md5 then Some (filename (get_file cs 0))
        else if memcmp16_eq (combined_md5 cs) (md5sum ci)
        then Some (filename (get_file cs 0))
        else TryGetBaseSetFile fuel' h ci md5 (next cs)
      end
    end
  end.

(** [BaseMedia::HasSet]: the second search runs only when the first gives
    [NULL]. *)
Definition HasSet (st : BaseMedia) (ci : ContentInfo) (md5 : bool) : option bool :=
  match TryGetBaseSetFile (fuel_of st) (heap st) ci md5 (available_sets st) with
  | None => None
  | Some (Some _) => Some true
  | Some None =>
    match TryGetBaseSetFile (fuel_of st) (heap st) ci md5 (duplicate_sets st) with
    | None => None
    | Some r => Some (bool_decide (r <> None))
    end
  end.

End Model.

(** ** Sample manifests and registries

    Concrete data on which the functions above are run: a set type with two
    files, a disk with three files, and a few manifests. *)

Module Sample.

Definition Tnum_files : nat := 2.

Definition file_names (i : nat) : string := nth i ["base"; "extra"] EmptyString.

Definition digit_of (c : ascii) : option Z :=
  let n := Z.of_N (N_of_ascii c) in
  if (48 <=? n) && (n <=? 57) then Some (n - 48) else None.

Fixpoint atoi_loop (s : string) (acc : Z) : Z :=
  match s with
  | EmptyString => acc
  | String c rest =>
    match digit_of c with
    | Some d => atoi_loop rest (10 * acc + d)
    | None => acc
    end
  end.

(** Decimal digits up to the first other character. *)
Definition atoi (s : string) : Z := atoi_loop s 0.

Definition md5_a : string := "00112233445566778899aabbccddeeff".
Definition md5_b : string := "FFEEDDCCBBAA99887766554433221100".

(** The files on disk with their digests. *)
Definition disk : list (string * list Z) :=
  [ ("a.grf", snd (decode_hash 16 md5_a));
    ("b.grf", snd (decode_hash 16 md5_b));
    ("sub/a.grf", snd (decode_hash 16 md5_b)) ].

Definition CheckMD5 (f : MD5File) : ChecksumResult :=
  match filename f with
  | None => CR_NO_FILE
  | Some fn =>
    match find (fun e => bool_decide (fst e = fn)) disk with
    | None => CR_NO_FILE
    | Some e => if bool_decide (snd e = hash f) then CR_MATCH else CR_MISMATCH
    end
  end.

Definition item (k v : string) : IniItem := mkItem k (Some v).

Definition metadata (nm short ver : string) : IniGroup :=
  mkGroup "metadata"
    [ item "name" nm; item "shortname" short; item "version" ver;
      item "description" "A sample set"; item "description.de_DE" "Ein Beispiel" ].

(** A manifest whose two files are on disk with the digests it lists. *)
Definition manifest (nm short ver : string) : IniFile :=
  [ metadata nm short ver;
    mkGroup "files" [ item "base" "a.grf"; item "extra" "b.grf" ];
    mkGroup "md5s" [ item "a.grf" md5_a; item "b.grf" md5_b ];
    mkGroup "origin" [ item "default" "Get the files from the sample disk." ] ].

(** The same with a second file that is not on disk. *)
Definition manifest_missing (nm short ver : string) : IniFile :=
  [ metadata nm short ver;
    mkGroup "files" [ item "base" "a.grf"; item "extra" "c.grf" ];
    mkGroup "md5s" [ item "a.grf" md5_a; item "c.grf" md5_b ];
    mkGroup "origin" [] ].

(** No [shortname] in the metadata. *)
Definition manifest_no_shortname : IniFile :=
  [ mkGroup "metadata"
      [ item "name" "Orphan"; item "version" "1"; item "description" "No id" ];
    mkGroup "files" [ item "base" "a.grf"; item "extra" "b.grf" ];
    mkGroup "md5s" [ item "a.grf" md5_a; item "b.grf" md5_b ] ].

(** A digest of thirty-two digits followed by more text. *)
Definition manifest_long_md5 : IniFile :=
  [ metadata "Long" "LONG" "1";
    mkGroup "files" [ item "base" "a.grf"; item "extra" "b.grf" ];
    mkGroup "md5s" [ item "a.grf" (md5_a +:+ "zz"); item "b.grf" md5_b ] ].

(** A digest of eight digits only. *)
Definition manifest_short_md5 : IniFile :=
  [ metadata "Short" "SHRT" "1";
    mkGroup "files" [ item "base" "a.grf"; item "extra" "b.grf" ];
    mkGroup "md5s" [ item "a.grf" "00112233"; item "b.grf" md5_b ] ].

Definition PATHSEPCHAR : ascii := "/"%char.

Definition DetermineBestSet (st : BaseMedia) : bool * BaseMedia := (false, st).

Definition fill := FillSetDetails Tnum_files file_names CheckMD5 atoi.

Definition add := AddFile Tnum_files file_names CheckMD5 atoi PATHSEPCHAR true.

(** The state that a call leaves. *)
Definition after (r : option (bool * BaseMedia)) : BaseMedia :=
  match r with
  | Some (_, st) => st
  | None => empty_media
  end.

(** The set that a manifest loads as. *)
Definition loaded (ini : IniFile) : BaseSet :=
  match fill ini EmptyString EmptyString true with
  | Some (_, s) => s
  | None => blank_set Tnum_files
  end.

Definition set_A : BaseSet := loaded (manifest "A" "AAAA" "3").
Definition set_B : BaseSet := loaded (manifest "B" "BBBB" "1").
Definition set_B_missing : BaseSet := loaded (manifest_missing "B" "BBBB" "1").

(** [A] alone; [A] and a [B] with a missing file; the same with [B] in
    use; and that registry after the complete [B] has been added. *)
Definition st_A : BaseMedia :=
  after (add empty_media (manifest "A" "AAAA" "3") "a.obg" 0).

Definition st_AB : BaseMedia :=
  after (add st_A (manifest_missing "B" "BBBB" "1") "b.obg" 0).

Definition st_AB_used : BaseMedia :=
  after (SetSet DetermineBestSet st_AB (Some "B")).

Definition st_win : BaseMedia :=
  after (add st_AB_used (manifest "B" "BBBB" "1") "b.obg" 0).

(** A query for the short name [BBBB] and the combined digest of the
    complete [B]. *)
Definition query_B : ContentInfo := mkContentInfo 1111638594 (replicate 16 255).

End Sample.

(** * What the properties are stated with *)

(** ** The decoder *)

(** The alphabet [0-9a-fA-F] of the specification, written out, and the
    sixteen digits in the order of their values, in small letters and in
    capitals. *)
Definition hex_alphabet : string := "0123456789abcdefABCDEF".
Definition hex_lower : string := "0123456789abcdef".
Definition hex_upper : string := "0123456789ABCDEF".

(** The place of the first [a] in [s], counted from [k]. *)
Fixpoint place (a : ascii) (s : string) (k : Z) : option Z :=
  match s with
  | EmptyString => None
  | String b rest => if Ascii.eqb a b then Some k else place a rest (k + 1)
  end.

(** [a] is a character of the alphabet. *)
Definition is_hex (a : ascii) : bool :=
  match place a hex_alphabet 0 with
  | Some _ => true
  | None => false
  end.

(** The value of a digit: its place among the sixteen, in either case. *)
Definition hex_value (a : ascii) : option Z :=
  match place a hex_lower 0 with
  | Some d => Some d
  | None => place a hex_upper 0
  end.

(** The bytes that [n] pairs of digits at the head of [c] denote, the high
    nibble first; [None] when one of these [2 n] characters is missing or
    is no digit.  What follows the pairs is not looked at. *)
Fixpoint hex_pairs (n : nat) (c : string) : option (list Z) :=
  match n with
  | O => Some []
  | S n' =>
    match c with
    | String a (String b rest) =>
      match hex_value a, hex_value b, hex_pairs n' rest with
      | Some x, Some y, Some l => Some ((16 * x + y) :: l)
      | _, _, _ => None
      end
    | _ => None
    end
  end.

(** Every character of [s] is one of [0-9a-fA-F]. *)
Fixpoint all_hex (s : string) : bool :=
  match s with
  | EmptyString => true
  | String a rest => is_hex a && all_hex rest
  end.

(** [c] starts with [n] characters of [0-9a-fA-F]. *)
Fixpoint hex_prefix (n : nat) (c : string) : bool :=
  match n with
  | O => true
  | S n' =>
    match c with
    | EmptyString => false
    | String a rest => is_hex a && hex_prefix n' rest
    end
  end.

(** ** The manifest *)

(** The manifest data that [FillSetDetails] insists on, as the
    specification lists it: the metadata group; a value that is not empty
    for each of [name], [description], [shortname], [version]; for each
    file an entry in the [files] group, with a value unless empty values
    are allowed, and for a file that is named a checksum in the [md5s]
    group that starts with two characters of [0-9a-fA-F] for each byte of
    the digest. *)
Definition has_field (metadata : IniGroup) (key : string) : bool :=
  match group_find metadata key with
  | None => false
  | Some item => negb (StrEmpty (value item))
  end.

Definition slot_ok (file_names : nat -> string) (ini : IniFile)
    (allow_empty_filename : bool) (i : nat) : bool :=
  match group_find (get_group ini "files") (file_names i) with
  | None => false
  | Some item =>
    match value item with
    | None => allow_empty_filename
    | Some fname =>
      match group_find (get_group ini "md5s") fname with
      | None => false
      | Some item =>
        match value item with
        | None => false
        | Some c => hex_prefix (2 * MD5_HASH_BYTES)%nat c
        end
      end
    end
  end.

Definition no_hard_failure (Tnum_files : nat) (file_names : nat -> string)
    (ini : IniFile) (allow_empty_filename : bool) : bool :=
  match ini_find ini "metadata" with
  | None => false
  | Some metadata =>
    has_field metadata "name" && has_field metadata "description"
    && has_field metadata "shortname" && has_field metadata "version"
    && forallb (slot_ok file_names ini allow_empty_filename) (seq 0 Tnum_files)
  end.

(** The [fallback] item of the metadata, when there is one, has a value, so
    that line 92 compares strings. *)
Definition fallback_defined (ini : IniFile) : Prop :=
  forall metadata item,
    ini_find ini "metadata" = Some metadata ->
    group_find metadata "fallback" = Some item ->
    value item <> None.

(** Every item of the metadata whose key is [description.] followed by a
    language has a value, so that line 78 copies a string. *)
Definition translations_defined (ini : IniFile) : Prop :=
  forall metadata item lang,
    ini_find ini "metadata" = Some metadata ->
    item ∈ items metadata ->
    item_name item = "description." +:+ lang ->
    value item <> None.

(** Every item of the [origin] group has a value, so that line 151 copies
    a string. *)
Definition origin_defined (ini : IniFile) : Prop :=
  forall item, item ∈ items (get_group ini "origin") -> value item <> None.

(** The two together: no call of [xstrdup] is handed a null value. *)
Definition texts_defined (ini : IniFile) : Prop :=
  translations_defined ini /\ origin_defined ini.

(** Two sets that differ in their counters at most. *)
Definition same_but_counters (s s' : BaseSet) : Prop :=
  name s' = name s /\ description s' = description s
  /\ shortname s' = shortname s /\ version s' = version s
  /\ fallback s' = fallback s /\ files s' = files s /\ next s' = next s.

(** The metadata, if any, has no [shortname] item, or one with an empty
    value. *)
Definition lacks_shortname (ini : IniFile) : Prop :=
  forall metadata,
    ini_find ini "metadata" = Some metadata ->
    fetch_metadata metadata "shortname" = None.

(** ** Chains of sets in the heap *)

(** A set without its link. *)
Definition erase_next (s : BaseSet) : BaseSet := with_next s None.

(** [lseg h p L q]: following [next] from [p] leads through the sets of [L]
    in this order and then to [q].  [L] pairs the address of a set with
    its fields, the link erased. *)
Fixpoint lseg (h : gmap addr BaseSet) (p : ptr) (L : list (addr * BaseSet))
    (q : ptr) : Prop :=
  match L with
  | [] => p = q
  | e :: L' =>
    p = Some e.1
    /\ exists s, h !! e.1 = Some s /\ erase_next s = e.2 /\ lseg h (next s) L' q
  end.

(** The location a walk from [prev] along [L] ends at: [prev] itself for
    the empty chain, the [next] field of the last set otherwise. *)
Definition last_loc (prev : loc) (L : list (addr * BaseSet)) : loc :=
  fold_left (fun _ e => NextOf e.1) L prev.

(** The registry holds two disjoint chains that end in [NULL]; the sets of
    the first have a name. *)
Record registry (st : BaseMedia) (La Ld : list (addr * BaseSet)) : Prop := {
  reg_available : lseg (heap st) (available_sets st) La None;
  reg_duplicate : lseg (heap st) (duplicate_sets st) Ld None;
  reg_nodup : NoDup (La.*1 ++ Ld.*1);
  reg_named : Forall (fun e => name e.2 <> None) La
}.

(** [used_set] is null or the address of a set of the chain. *)
Definition used_linked (st : BaseMedia) (La : list (addr * BaseSet)) : Prop :=
  used_set st = None \/ exists a, used_set st = Some a /\ a ∈ La.*1.

(** The test of line 195 on an available set [d]. *)
Definition collides (set d : BaseSet) : bool :=
  bool_decide (name d = name set) || (shortname d =? shortname set).

(** Which sets the enumeration shows: the one in use and those without a
    missing file. *)
Definition visible (Tnum_files : nat) (used : ptr) (e : addr * BaseSet) : bool :=
  bool_decide (used = Some e.1) || (GetNumMissing Tnum_files e.2 =? 0).

(** The test of the content matcher on one set. *)
Definition qualifies (Tnum_files : nat) (ci : ContentInfo) (md5 : bool)
    (d : BaseSet) : bool :=
  (GetNumMissing Tnum_files d =? 0)
  && (shortname d =? unique_id ci)
  && (negb md5 || memcmp16_eq (combined_md5 Tnum_files d) (md5sum ci)).

(** The answer of the matcher on a chain: the first file of the first set
    that passes the test. *)
Definition first_match (Tnum_files : nat) (ci : ContentInfo) (md5 : bool)
    (L : list (addr * BaseSet)) : option string :=
  match find (fun e => qualifies Tnum_files ci md5 e.2) L with
  | Some e => filename (get_file e.2 0)
  | None => None
  end.


(** ** Runs of the registry *)

Section Runs.

Variable Tnum_files : nat.
Variable file_names : nat -> string.
Variable CheckMD5 : MD5File -> ChecksumResult.
Variable atoi : string -> Z.
Variable PATHSEPCHAR : ascii.
Variable allow_empty_default : bool.
Variable DetermineBestSet : BaseMedia -> bool * BaseMedia.

(** The registries that calls of [AddFile] and of [SetSet] with a name lead
    to from the empty one. *)
Inductive reachable : BaseMedia -> Prop :=
| reachable_empty : reachable empty_media
| reachable_AddFile st ini filename basepath_length r st' :
    reachable st ->
    AddFile Tnum_files file_names CheckMD5 atoi PATHSEPCHAR allow_empty_default
      st ini filename basepath_length = Some (r, st') ->
    reachable st'
| reachable_SetSet st nm r st' :
    reachable st ->
    StrEmpty (Some nm) = false ->
    SetSet DetermineBestSet st (Some nm) = Some (r, st') ->
    reachable st'.

End Runs.


(** * The rest of the interface *)

Section Lookup.

Variable Tnum_files : nat.

(** What a call of [GetSet] ends in: the set it returns, or the call of
    [error], which does not return. *)
Inductive GetSet_result := GS_set (a : addr) | GS_error.

(** The least [int]; [index--] has no defined result on it. *)
Definition INT_MIN : Z := - 2 ^ 31.

(** [BaseMedia::GetSet], lines 382-386. *)
Fixpoint GetSet_loop (fuel : nat) (st : BaseMedia) (s : ptr) (index : Z)
  : option GetSet_result :=
  match fuel with
  | O => None
  | S fuel' =>
    match s with
    | None => Some GS_error
    | Some a =>
      match heap st !! a with
      | None => None
      | Some cs =>
        if negb (bool_decide (s = used_set st)) && negb (GetNumMissing Tnum_files cs =? 0)
        then GetSet_loop fuel' st (next cs) index
        else if index =? 0 then Some (GS_set a)
        else if index =? INT_MIN then None
        else GetSet_loop fuel' st (next cs) (index - 1)
      end
    end
  end.

Definition GetSet (st : BaseMedia) (index : Z) : option GetSet_result :=
  GetSet_loop (fuel_of st) st (available_sets st) index.

(** [BaseMedia::GetUsedSet] and [BaseMedia::GetAvailableSets]. *)
Definition GetUsedSet (st : BaseMedia) : ptr := used_set st.

Definition GetAvailableSets (st : BaseMedia) : ptr := available_sets st.

End Lookup.

(** Every set of the chain has a first file with a name. *)
Definition primary_named (L : list (addr * BaseSet)) : Prop :=
  Forall (fun e => filename (get_file e.2 0) <> None) L.

(** No two sets of the chain have the same name or the same short
    name. *)
Fixpoint collision_free (L : list (addr * BaseSet)) : Prop :=
  match L with
  | [] => True
  | e :: L' => Forall (fun x => collides e.2 x.2 = false) L' /\ collision_free L'
  end.

(** ** What a loaded set holds *)

(** The warning of lines 145-152 for the file [fname]. *)
Definition origin_warning (ini : IniFile) (fname : string) : option string :=
  match group_find (get_group ini "origin") fname with
  | Some item => value item
  | None =>
    match group_find (get_group ini "origin") "default" with
    | Some item => value item
    | None => Some EmptyString
    end
  end.

(** File [k] of a set loaded from [ini] is [f]: without a name when the
    manifest gives none, and else with the path before the name, the
    digest that the listed checksum denotes and the warning. *)
Definition slot_loaded (file_names : nat -> string) (ini : IniFile) (path : string)
    (allow_empty_filename : bool) (k : nat) (f : MD5File) : Prop :=
  exists item,
    group_find (get_group ini "files") (file_names k) = Some item
    /\ match value item with
       | None =>
         allow_empty_filename = true
         /\ f = mkMD5File None (replicate MD5_HASH_BYTES 0) None
       | Some fname =>
         exists item' c bytes,
           group_find (get_group ini "md5s") fname = Some item'
           /\ value item' = Some c
           /\ hex_pairs MD5_HASH_BYTES c = Some bytes
           /\ f = mkMD5File (Some (path +:+ fname)) bytes (origin_warning ini fname)
       end.

(** The files that count as valid and as found: those without a name, and
    those that the check finds matching, respectively present. *)
Definition counts_valid (CheckMD5 : MD5File -> ChecksumResult) (f : MD5File) : bool :=
  match filename f with
  | None => true
  | Some _ => match CheckMD5 f with CR_MATCH => true | _ => false end
  end.

Definition counts_found (CheckMD5 : MD5File -> ChecksumResult) (f : MD5File) : bool :=
  match filename f with
  | None => true
  | Some _ => match CheckMD5 f with CR_NO_FILE => false | _ => true end
  end.

(** The bytes of a C string: the codes of its characters up to the
    first NUL. *)
Fixpoint c_bytes (s : string) : list Z :=
  match s with
  | EmptyString => []
  | String _ rest => if peek s =? 0 then [] else peek s :: c_bytes rest
  end.

(** The number with the bytes [l], the least significant first. *)
Definition pack_bytes (l : list Z) : Z :=
  fold_right (fun b acc => b + 256 * acc) 0 l.

(** ** Digests as text *)

(** The digit for a value below sixteen, in capitals or not. *)
Definition hex_char (upper : bool) (d : Z) : ascii :=
  if d <? 10 then ascii_of_N (Z.to_N (48 + d))
  else if upper then ascii_of_N (Z.to_N (65 + d - 10))
  else ascii_of_N (Z.to_N (97 + d - 10)).

(** Two digits for each byte, the high nibble first. *)
Fixpoint hex_of_bytes (upper : bool) (l : list Z) : string :=
  match l with
  | [] => EmptyString
  | b :: rest =>
    String (hex_char upper (b / 16))
      (String (hex_char upper (b mod 16)) (hex_of_bytes upper rest))
  end.

(** ** Paths *)

(** The separator does not occur in [s]. *)
Fixpoint no_separator (sep : ascii) (s : string) : Prop :=
  match s with
  | EmptyString => True
  | String c rest => c <> sep /\ no_separator sep rest
  end.

(** [s] is empty or ends with the separator. *)
Fixpoint closed_by (sep : ascii) (s : string) : Prop :=
  match s with
  | EmptyString => True
  | String c EmptyString => c = sep
  | String _ rest => closed_by sep rest
  end.

(** ** Runs of the registry with the manifests that were added *)

Section History.

Variable Tnum_files : nat.
Variable file_names : nat -> string.
Variable CheckMD5 : MD5File -> ChecksumResult.
Variable atoi : string -> Z.
Variable PATHSEPCHAR : ascii.
Variable allow_empty_default : bool.
Variable DetermineBestSet : BaseMedia -> bool * BaseMedia.

(** The set that [AddFile] loads the manifest of a call as, when
    [FillSetDetails] returns [true] on it: the call is given by the
    manifest, the name of its file and the length of the base path. *)
Definition load_of (c : IniFile * string * nat) : option BaseSet :=
  match FillSetDetails Tnum_files file_names CheckMD5 atoi c.1.1
          (set_path PATHSEPCHAR c.1.2 c.2) c.1.2 allow_empty_default with
  | Some (true, s) => Some s
  | _ => None
  end.

(** [reachable_by calls st]: as [reachable], with the calls of [AddFile]
    that were made, in their order. *)
Inductive reachable_by : list (IniFile * string * nat) -> BaseMedia -> Prop :=
| reachable_by_empty : reachable_by [] empty_media
| reachable_by_AddFile calls st ini filename basepath_length r st' :
    reachable_by calls st ->
    AddFile Tnum_files file_names CheckMD5 atoi PATHSEPCHAR allow_empty_default
      st ini filename basepath_length = Some (r, st') ->
    reachable_by (calls ++ [(ini, filename, basepath_length)]) st'
| reachable_by_SetSet calls st nm r st' :
    reachable_by calls st ->
    StrEmpty (Some nm) = false ->
    SetSet DetermineBestSet st (Some nm) = Some (r, st') ->
    reachable_by calls st'.

End History.

(** * Properties *)

(** ** The checksum decoder *)

Section Decoder.

Lemma hex_digit_range c d : hex_digit c = Some d -> 0 <= d < 16.
Proof.
  unfold hex_digit.
  repeat case_match; intros [= <-]; lia.
Qed.

Lemma peek_nul_no_digit : hex_digit (peek EmptyString) = None.
Proof. reflexivity. Qed.

(** The three tests of lines 127-132 accept the characters of the alphabet
    and give each the value of the digit. *)
Lemma hex_value_peek a rest : hex_value a = hex_digit (peek (String a rest)).
Proof. destruct a as [[] [] [] [] [] [] [] []]; reflexivity. Qed.

Lemma is_hex_value a :
  is_hex a = match hex_value a with Some _ => true | None => false end.
Proof. destruct a as [[] [] [] [] [] [] [] []]; reflexivity. Qed.

Lemma nibbles_byte x y :
  0 <= x < 16 -> 0 <= y < 16 ->
  wrap8 (Z.lor (wrap8 (Z.shiftl x 4)) y) = 16 * x + y.
Proof.
  intros Hx Hy. unfold wrap8.
  assert (Hs : Z.shiftl x 4 = 16 * x) by (rewrite Z.shiftl_mul_pow2; lia).
  rewrite Hs, (Z.mod_small (16 * x)) by lia.
  assert (Hor : Z.lor (16 * x) y = 16 * x + y).
  { assert (Hc : Z.of_nat (Z.to_nat x) = x) by lia.
    assert (Hd : Z.of_nat (Z.to_nat y) = y) by lia.
    rewrite <- Hc, <- Hd.
    assert (Hbx : (Z.to_nat x < 16)%nat) by lia.
    assert (Hby : (Z.to_nat y < 16)%nat) by lia.
    revert Hbx Hby. generalize (Z.to_nat x) (Z.to_nat y). intros a b Ha Hb.
    do 16 (destruct a as [|a]; [do 16 (destruct b as [|b]; [reflexivity|]); lia|]).
    lia. }
  rewrite Hor. apply Z.mod_small. lia.
Qed.

(** Two turns of the loop write one byte. *)
Lemma decode_loop_pair m k a b rest h x y :
  (k < length h)%nat ->
  hex_digit (peek (String a (String b rest))) = Some x ->
  hex_digit (peek (String b rest)) = Some y ->
  decode_loop (S (S m)) (2 * k) (String a (String b rest)) h
  = decode_loop m (2 * S k) rest (<[k := 16 * x + y]> h).
Proof.
  intros Hk Hx Hy.
  assert (E0 : ((2 * k) mod 2 = 0)%nat) by (rewrite Nat.mul_comm; apply Nat.Div0.mod_mul).
  assert (E1 : ((2 * k) / 2 = k)%nat) by (rewrite Nat.mul_comm; apply Nat.div_mul; lia).
  assert (E2 : (S (2 * k) mod 2 = 1)%nat).
  { replace (S (2 * k)) with (1 + k * 2)%nat by lia. by rewrite Nat.Div0.mod_add. }
  assert (E3 : (S (2 * k) / 2 = k)%nat).
  { replace (S (2 * k)) with (1 + k * 2)%nat by lia. by rewrite Nat.div_add by lia. }
  cbn [decode_loop]. rewrite Hx. cbn [advance]. rewrite Hy.
  rewrite E0, E1, E2, E3. cbn [Nat.eqb].
  rewrite list_insert_insert_eq.
  rewrite (nth_lookup_Some _ k 0 (wrap8 (Z.shiftl x 4)))
    by (apply list_lookup_insert_eq; exact Hk).
  rewrite nibbles_byte by eauto using hex_digit_range.
  f_equal. lia.
Qed.

Lemma decode_loop_pairs n : forall k c h,
  length h = (k + n)%nat ->
  match hex_pairs n c with
  | Some bytes => decode_loop (n * 2) (2 * k) c h = (true, take k h ++ bytes)
  | None => fst (decode_loop (n * 2) (2 * k) c h) = false
  end.
Proof.
  induction n as [|n IH]; intros k c h Hlen.
  - cbn. f_equal. rewrite app_nil_r, take_ge; [done | lia].
  - cbn [hex_pairs]. change (S n * 2)%nat with (S (S (n * 2))).
    destruct c as [|a [|b rest]].
    + reflexivity.
    + cbn [decode_loop]. destruct (hex_digit _); [|done]. cbn [advance].
      by rewrite peek_nul_no_digit.
    + rewrite (hex_value_peek a (String b rest)), (hex_value_peek b rest).
      destruct (hex_digit (peek (String a (String b rest)))) as [x|] eqn:Hx;
        [| cbn [decode_loop]; by rewrite Hx ].
      destruct (hex_digit (peek (String b rest))) as [y|] eqn:Hy;
        [| cbn [decode_loop]; rewrite Hx; cbn [advance]; by rewrite Hy ].
      rewrite (decode_loop_pair _ _ _ _ _ _ x y) by (lia || done).
      specialize (IH (S k) rest (<[k := 16 * x + y]> h)).
      rewrite length_insert in IH. specialize (IH ltac:(lia)).
      destruct (hex_pairs n rest) as [l|]; [|exact IH].
      rewrite IH. f_equal.
      rewrite (take_S_r _ _ (16 * x + y)) by (apply list_lookup_insert_eq; lia).
      rewrite take_insert_ge by lia. by rewrite <- app_assoc.
Qed.

Lemma decode_hash_pairs n c :
  match hex_pairs n c with
  | Some bytes => decode_hash n c = (true, bytes)
  | None => fst (decode_hash n c) = false
  end.
Proof.
  unfold decode_hash.
  pose proof (decode_loop_pairs n 0 c (replicate n 0)) as H.
  rewrite length_replicate in H. specialize (H eq_refl).
  by destruct (hex_pairs n c).
Qed.

(** The digest already in the buffer plays no part: every byte is assigned
    before it is or-ed into. *)
Lemma decode_loop_start n c h :
  length h = n ->
  decode_loop (n * 2) 0 c h = decode_hash n c
  \/ (fst (decode_loop (n * 2) 0 c h) = false /\ fst (decode_hash n c) = false).
Proof.
  intros Hlen.
  pose proof (decode_loop_pairs n 0 c h ltac:(lia)) as H1.
  pose proof (decode_hash_pairs n c) as H2.
  destruct (hex_pairs n c); [left | right; done].
  etrans; [exact H1 | symmetry; exact H2].
Qed.

Lemma hex_pairs_length n : forall c bytes,
  hex_pairs n c = Some bytes -> length bytes = n.
Proof.
  induction n as [|n IH]; intros c bytes; cbn [hex_pairs].
  - by intros [= <-].
  - destruct c as [|a [|b rest]]; try done.
    repeat case_match; try done. intros [= <-]. cbn. f_equal. eauto.
Qed.

(** Decoding succeeds exactly on the strings that start with [2 n]
    digits. *)
Lemma hex_pairs_Some n : forall c,
  is_Some (hex_pairs n c) <->
  exists pre rest, c = (pre +:+ rest) /\ String.length pre = (2 * n)%nat
                   /\ all_hex pre = true.
Proof.
  induction n as [|n IH]; intros c.
  - split; [intros _; by exists EmptyString, c | intros _; by eexists].
  - cbn [hex_pairs]. split.
    + destruct c as [|a [|b rest]]; try by intros [? [=]].
      destruct (hex_value a) as [x|] eqn:Hx; [| by intros [? [=]]].
      destruct (hex_value b) as [y|] eqn:Hy; [| by intros [? [=]]].
      destruct (hex_pairs n rest) as [l|] eqn:Hl; [| by intros [? [=]]].
      intros _. destruct (proj1 (IH rest)) as (pre & rest' & -> & Hlen & Hall);
        [by rewrite Hl|].
      exists (String a (String b pre)), rest'. split; [done|]. split; [cbn; lia|].
      cbn [all_hex]. by rewrite !is_hex_value, Hx, Hy, Hall.
    + intros (pre & rest & -> & Hlen & Hall).
      destruct pre as [|a [|b pre]]; cbn in Hlen; try lia.
      cbn [all_hex] in Hall.
      apply andb_prop in Hall as [Ha Hall]. apply andb_prop in Hall as [Hb Hall].
      rewrite is_hex_value in Ha, Hb.
      change (String a (String b pre) +:+ rest) with (String a (String b (pre +:+ rest))).
      cbn [hex_pairs].
      destruct (hex_value a); [|done].
      destruct (hex_value b); [|done].
      destruct (proj2 (IH (pre +:+ rest))) as [l ->]; [|by eexists].
      exists pre, rest. repeat split; [lia | done].
Qed.

(** The decoder succeeds exactly on the strings that start with [2 n]
    characters of the alphabet. *)
Lemma hex_prefix_pairs n : forall c,
  hex_prefix (2 * n) c = match hex_pairs n c with Some _ => true | None => false end.
Proof.
  induction n as [|n IH]; intros c; [done|].
  replace (2 * S n)%nat with (S (S (2 * n))) by lia. cbn [hex_prefix hex_pairs].
  destruct c as [|a [|b rest]]; [done | by rewrite andb_false_r |].
  rewrite IH, !is_hex_value.
  by destruct (hex_value a), (hex_value b), (hex_pairs n rest).
Qed.

Lemma decode_hash_hex_prefix n c : fst (decode_hash n c) = hex_prefix (2 * n) c.
Proof.
  rewrite hex_prefix_pairs. pose proof (decode_hash_pairs n c) as H.
  destruct (hex_pairs n c); [by rewrite H | done].
Qed.

Lemma hex_prefix_all_hex n : forall c,
  hex_prefix n c = true <->
  exists pre rest, c = (pre +:+ rest) /\ String.length pre = n /\ all_hex pre = true.
Proof.
  induction n as [|n IH]; intros c; cbn [hex_prefix].
  - split; [intros _; by exists EmptyString, c | done].
  - destruct c as [|a c].
    + split; [done|]. intros (pre & rest & Hc & Hlen & _).
      destruct pre; [done | discriminate Hc].
    + rewrite andb_true_iff, IH. split.
      * intros (Ha & pre & rest & -> & <- & Hall).
        exists (String a pre), rest. split; [done|]. split; [done|].
        cbn [all_hex]. by rewrite Ha, Hall.
      * intros (pre & rest & Hc & Hlen & Hall).
        destruct pre as [|a' pre]; [done|].
        injection Hc as <- ->. injection Hlen as <-. cbn [all_hex] in Hall.
        apply andb_prop in Hall as [Ha Hall]. split; [done|]. by exists pre, rest.
Qed.

End Decoder.

(** ** Texts *)

Section Strings.

Lemma substring_all s : String.substring 0 (String.length s) s = s.
Proof. induction s as [|c s IH]; cbn; [done | by rewrite IH]. Qed.

Lemma prefix_split p : forall s,
  String.prefix p s = true ->
  s = p +:+ String.substring (String.length p) (String.length s - String.length p) s.
Proof.
  induction p as [|a p IH]; intros s; cbn [String.prefix String.length String.append].
  - intros _. by rewrite Nat.sub_0_r, substring_all.
  - destruct s as [|b s]; cbn [String.prefix]; [done|].
    destruct (ascii_dec a b) as [-> | ?]; [|done].
    intros Hp. exact (f_equal (String b) (IH s Hp)).
Qed.


Lemma substring_append p s :
  String.substring (String.length p)
    (String.length (p +:+ s) - String.length p) (p +:+ s) = s.
Proof.
  induction p as [|a p IH].
  - change (EmptyString +:+ s) with s. cbn [String.length].
    by rewrite Nat.sub_0_r, substring_all.
  - exact IH.
Qed.

End Strings.

(** ** The manifest reader *)

Section Reader.

Variable file_names : nat -> string.

Lemma fetch_metadata_has_field metadata key :
  has_field metadata key = bool_decide (fetch_metadata metadata key <> None).
Proof.
  unfold has_field, fetch_metadata.
  destruct (group_find metadata key) as [item|]; [|done].
  by destruct (StrEmpty (value item)).
Qed.

(** An item that [fetch_metadata] returns has a value. *)
Lemma fetch_metadata_value metadata key item :
  fetch_metadata metadata key = Some item -> exists v, value item = Some v.
Proof.
  unfold fetch_metadata. destruct (group_find metadata key) as [it|]; [|done].
  destruct (StrEmpty (value it)) eqn:He; [done|]. intros [= <-].
  destruct (value it) as [v|]; [by exists v | done].
Qed.

(** Whether the decoder succeeds is a matter of the characters alone. *)
Lemma decode_loop_fst n : forall i i' c h h',
  fst (decode_loop n i c h) = fst (decode_loop n i' c h').
Proof.
  induction n as [|n IH]; intros i i' c h h'; cbn [decode_loop]; [done|].
  destruct (hex_digit (peek c)); [apply IH | done].
Qed.

(** The loop over the metadata items comes to its end when every
    translation has a value. *)
Lemma add_translations_defined l :
  (forall item lang,
     item ∈ l -> item_name item = "description." +:+ lang -> value item <> None) ->
  forall d, is_Some (add_translations l d).
Proof.
  induction l as [|item l IH]; intros Hl d; cbn [add_translations]; [by eexists|].
  assert (Hd : is_Some (add_translation d item)).
  { unfold add_translation, has_prefix, xstrdup.
    destruct (String.prefix "description." (item_name item)) eqn:Hp; [|by eexists].
    apply prefix_split in Hp.
    destruct (value item) as [v|] eqn:Hv; [by eexists|].
    exfalso. eapply (Hl item); [apply elem_of_cons; by left | exact Hp | exact Hv]. }
  destruct Hd as [d' ->]. apply IH. intros it lang Hin. apply Hl.
  apply elem_of_cons. by right.
Qed.

Lemma read_warning_defined ini fname :
  origin_defined ini -> is_Some (read_warning (get_group ini "origin") fname).
Proof.
  intros Ho. unfold read_warning, xstrdup.
  assert (Hv : forall key item,
            group_find (get_group ini "origin") key = Some item ->
            is_Some (value item)).
  { intros key item Hf. unfold group_find in Hf. apply find_some in Hf as [Hin _].
    apply list_elem_of_In in Hin. specialize (Ho item Hin).
    destruct (value item); [by eexists | done]. }
  destruct (group_find (get_group ini "origin") fname) as [item|] eqn:H1;
    [by eapply Hv|].
  destruct (group_find (get_group ini "origin") "default") as [item|] eqn:H2;
    [by eapply Hv | by eexists].
Qed.

(** The turn for file [i] ends in [return false] exactly when the manifest
    data of that file is not in order, whatever is on disk. *)
Lemma fill_file_fst CheckMD5 ini path allow i this :
  origin_defined ini ->
  fst <$> fill_file file_names CheckMD5 (get_group ini "files") (get_group ini "md5s")
            (get_group ini "origin") path allow i this
  = Some (slot_ok file_names ini allow i).
Proof.
  intros Ho. unfold fill_file, slot_ok.
  destruct (group_find _ (file_names i)) as [item|]; [|done].
  destruct (value item) as [fname|]; [|by destruct allow].
  destruct (group_find _ fname) as [item'|]; [|done].
  destruct (value item') as [c|]; [|done].
  rewrite <- decode_hash_hex_prefix. unfold decode_hash.
  rewrite (decode_loop_fst _ 0 0 c (replicate MD5_HASH_BYTES 0)
             (hash (mkMD5File (Some (path +:+ fname)) (hash (get_file this i))
                              (missing_warning (get_file this i))))).
  destruct (decode_loop _ _ _ _) as [[|] h]; [|done].
  destruct (read_warning_defined ini fname Ho) as [w ->].
  cbn [fst]. by destruct (CheckMD5 _).
Qed.

Lemma fill_files_fst CheckMD5 ini path allow n : forall i this,
  origin_defined ini ->
  fst <$> fill_files file_names CheckMD5 (get_group ini "files") (get_group ini "md5s")
            (get_group ini "origin") path allow n i this
  = Some (forallb (slot_ok file_names ini allow) (seq i n)).
Proof.
  induction n as [|n IH]; intros i this Ho; cbn [fill_files seq forallb]; [done|].
  pose proof (fill_file_fst CheckMD5 ini path allow i this Ho) as Hf.
  destruct (fill_file _ _ _ _ _ _ _ _ _) as [[ok this']|]; [|done].
  cbn in Hf. injection Hf as Hf. rewrite <- Hf.
  destruct ok; [by apply IH | done].
Qed.

(** A turn leaves the counters alone, counts a file as found, or counts it
    as found and valid. *)
Lemma fill_file_counters CheckMD5 gfiles md5s origin path allow i this ok this' :
  fill_file file_names CheckMD5 gfiles md5s origin path allow i this
  = Some (ok, this') ->
  (valid_files this' = valid_files this /\ found_files this' = found_files this)
  \/ (valid_files this' = valid_files this
      /\ found_files this' = wrap32 (found_files this + 1))
  \/ (valid_files this' = wrap32 (valid_files this + 1)
      /\ found_files this' = wrap32 (found_files this + 1)).
Proof.
  unfold fill_file.
  destruct (group_find gfiles (file_names i)) as [item|]; [|intros [= <- <-]; by left].
  destruct (value item) as [fname|].
  - destruct (group_find md5s fname) as [item'|]; [|intros [= <- <-]; by left].
    destruct (value item') as [c|]; [|intros [= <- <-]; by left].
    destruct (decode_loop _ _ _ _) as [[|] h]; [|intros [= <- <-]; by left].
    destruct (read_warning origin fname) as [w|]; [|done].
    destruct (CheckMD5 _); intros [= <- <-]; cbn; auto.
  - destruct allow; intros [= <- <-]; cbn; auto.
Qed.

Lemma fill_files_counters CheckMD5 gfiles md5s origin path allow n :
  forall i this ok this',
  Z.of_nat (i + n) < 2 ^ 32 ->
  0 <= valid_files this <= found_files this ->
  found_files this <= Z.of_nat i ->
  fill_files file_names CheckMD5 gfiles md5s origin path allow n i this
  = Some (ok, this') ->
  0 <= valid_files this' <= found_files this'
  /\ found_files this' <= Z.of_nat (i + n).
Proof.
  induction n as [|n IH]; intros i this ok this' Hn Hv Hf; cbn [fill_files].
  - intros [= <- <-]. split; [done | lia].
  - destruct (fill_file _ _ _ _ _ _ _ _ _) as [[ok1 this1]|] eqn:Hstep; [|done].
    pose proof (fill_file_counters _ _ _ _ _ _ _ _ _ _ Hstep) as Hc.
    assert (H1 : 0 <= valid_files this1 <= found_files this1
                 /\ found_files this1 <= Z.of_nat (S i)).
    { unfold wrap32 in Hc.
      destruct Hc as [[-> ->] | [[-> ->] | [-> ->]]];
        rewrite ?Z.mod_small by lia; lia. }
    destruct ok1.
    + intros Hrest. replace (i + S n)%nat with (S i + n)%nat by lia.
      eapply IH; [| | | exact Hrest]; [| tauto | tauto].
      replace (S i + n)%nat with (i + S n)%nat by lia. done.
    + intros [= <- <-]. split; [tauto | lia].
Qed.

(** The loop over the files leaves the fields before it alone. *)
Lemma fill_file_fallback CheckMD5 gfiles md5s origin path allow i this ok this' :
  fill_file file_names CheckMD5 gfiles md5s origin path allow i this
  = Some (ok, this') ->
  fallback this' = fallback this /\ name this' = name this /\ next this' = next this.
Proof.
  unfold fill_file.
  destruct (group_find gfiles (file_names i)) as [item|]; [|by intros [= <- <-]].
  destruct (value item) as [fname|].
  - destruct (group_find md5s fname) as [item'|]; [|by intros [= <- <-]].
    destruct (value item') as [c|]; [|by intros [= <- <-]].
    destruct (decode_loop _ _ _ _) as [[|] h]; [|by intros [= <- <-]].
    destruct (read_warning origin fname) as [w|]; [|done].
    by destruct (CheckMD5 _); intros [= <- <-].
  - by destruct allow; intros [= <- <-].
Qed.

Lemma fill_files_fallback CheckMD5 gfiles md5s origin path allow n :
  forall i this ok this',
  fill_files file_names CheckMD5 gfiles md5s origin path allow n i this
  = Some (ok, this') ->
  fallback this' = fallback this /\ name this' = name this /\ next this' = next this.
Proof.
  induction n as [|n IH]; intros i this ok this'; cbn [fill_files];
    [by intros [= <- <-]|].
  destruct (fill_file _ _ _ _ _ _ _ _ _) as [[ok1 this1]|] eqn:Hstep; [|done].
  destruct (fill_file_fallback _ _ _ _ _ _ _ _ _ _ Hstep) as (<- & <- & <-).
  destruct ok1; [apply IH | by intros [= <- <-]].
Qed.

(** What the integrity check finds plays a part in the counters only: with
    another check the turn ends in the same way and leaves the same set but
    for them. *)
Lemma fill_file_check CheckMD5 CheckMD5' gfiles md5s origin path allow i
    this1 this2 ok this1' :
  same_but_counters this1 this2 ->
  fill_file file_names CheckMD5 gfiles md5s origin path allow i this1
  = Some (ok, this1') ->
  exists this2',
    fill_file file_names CheckMD5' gfiles md5s origin path allow i this2
    = Some (ok, this2')
    /\ same_but_counters this1' this2'.
Proof.
  intros (H1 & H2 & H3 & H4 & H5 & H6 & H7).
  unfold fill_file, get_file, set_file. rewrite H6.
  destruct (group_find gfiles (file_names i)) as [item|];
    [|intros [= <- <-]; eexists; split; [done|]; by split_and!].
  destruct (value item) as [fname|].
  - destruct (group_find md5s fname) as [item'|];
      [|intros [= <- <-]; eexists; split; [done|]; by split_and!].
    destruct (value item') as [c|];
      [|intros [= <- <-]; eexists; split; [done|]; by split_and!].
    cbn [hash filename missing_warning].
    destruct (decode_loop _ _ _ _) as [[|] h];
      [|intros [= <- <-]; eexists; split; [done|]; by split_and!].
    destruct (read_warning origin fname) as [w|]; [|done].
    cbn [files with_files].
    destruct (CheckMD5 _); intros [= <- <-];
      destruct (CheckMD5' _); eexists; (split; [done|]); by split_and!.
  - destruct allow; intros [= <- <-]; eexists; (split; [done|]); by split_and!.
Qed.

Lemma fill_files_check CheckMD5 CheckMD5' gfiles md5s origin path allow n :
  forall i this1 this2 ok this1',
  same_but_counters this1 this2 ->
  fill_files file_names CheckMD5 gfiles md5s origin path allow n i this1
  = Some (ok, this1') ->
  exists this2',
    fill_files file_names CheckMD5' gfiles md5s origin path allow n i this2
    = Some (ok, this2')
    /\ same_but_counters this1' this2'.
Proof.
  induction n as [|n IH]; intros i this1 this2 ok this1' Hs; cbn [fill_files].
  - intros [= <- <-]. by exists this2.
  - destruct (fill_file _ CheckMD5 _ _ _ _ _ _ this1) as [[ok1 s1]|] eqn:Hstep; [|done].
    destruct (fill_file_check CheckMD5 CheckMD5' _ _ _ _ _ _ _ _ _ _ Hs Hstep)
      as (s2 & -> & Hs').
    destruct ok1; [by apply IH|]. intros [= <- <-]. by exists s2.
Qed.

Lemma read_fallback_defined ini metadata :
  fallback_defined ini ->
  ini_find ini "metadata" = Some metadata ->
  is_Some (read_fallback metadata).
Proof.
  intros Hd Hm. unfold read_fallback.
  destruct (group_find metadata "fallback") as [item|] eqn:Hi; [|by eexists].
  destruct (value item) as [v|] eqn:Hv; [|by destruct (Hd _ _ Hm Hi)].
  cbn. destruct (bool_decide (v = "0")); by eexists.
Qed.

End Reader.

(** When no null value reaches [xstrdup] or [strcmp], the call returns, and
    what it returns is a matter of the manifest alone. *)
Lemma FillSetDetails_fst
    (Tnum_files : nat) (file_names : nat -> string)
    (CheckMD5 : MD5File -> ChecksumResult) (atoi : string -> Z)
    (ini : IniFile) (path full_filename : string) (allow_empty_filename : bool) :
  fallback_defined ini -> texts_defined ini ->
  fst <$> FillSetDetails Tnum_files file_names CheckMD5 atoi ini path full_filename
            allow_empty_filename
  = Some (no_hard_failure Tnum_files file_names ini allow_empty_filename).
Proof.
  intros Hd [Ht Ho]. unfold FillSetDetails, no_hard_failure.
  destruct (ini_find ini "metadata") as [metadata|] eqn:Hm; [|done].
  rewrite !fetch_metadata_has_field.
  destruct (fetch_metadata metadata "name") as [i1|];
    [| by rewrite bool_decide_eq_false_2 by (by intros H) ].
  destruct (fetch_metadata metadata "description") as [i2|] eqn:H2;
    [| rewrite (bool_decide_eq_false_2 (None <> None)) by (by intros H);
       by rewrite andb_false_r ].
  destruct (fetch_metadata_value _ _ _ H2) as [text ->]. cbn [xstrdup].
  destruct (add_translations_defined (items metadata)
              (fun item lang Hin => Ht metadata item lang Hm Hin)
              (description (with_description
                 (with_name (blank_set Tnum_files) (xstrdup (value i1)))
                 (description (with_name (blank_set Tnum_files) (xstrdup (value i1)))
                  ++ [(EmptyString, text)])))) as [d ->].
  destruct (fetch_metadata metadata "shortname") as [i3|];
    [| rewrite (bool_decide_eq_false_2 (None <> None)) by (by intros H);
       by rewrite andb_false_r ].
  destruct (fetch_metadata metadata "version") as [i4|];
    [| rewrite (bool_decide_eq_false_2 (None <> None)) by (by intros H);
       by rewrite andb_false_r ].
  rewrite !bool_decide_eq_true_2 by done. cbn [andb].
  destruct (read_fallback_defined ini metadata Hd Hm) as [fb ->].
  by apply fill_files_fst.
Qed.

(** Without a [shortname] the call returns [false], before line 92. *)
Lemma FillSetDetails_lacks_shortname
    (Tnum_files : nat) (file_names : nat -> string)
    (CheckMD5 : MD5File -> ChecksumResult) (atoi : string -> Z)
    (ini : IniFile) (path full_filename : string) (allow_empty_filename : bool) :
  lacks_shortname ini -> translations_defined ini ->
  exists s,
    FillSetDetails Tnum_files file_names CheckMD5 atoi ini path full_filename
      allow_empty_filename = Some (false, s).
Proof.
  intros Hl Ht. unfold FillSetDetails.
  destruct (ini_find ini "metadata") as [metadata|] eqn:Hm; [|by eexists].
  destruct (fetch_metadata metadata "name") as [i1|]; [|by eexists].
  destruct (fetch_metadata metadata "description") as [i2|] eqn:H2; [|by eexists].
  destruct (fetch_metadata_value _ _ _ H2) as [text ->]. cbn [xstrdup].
  destruct (add_translations_defined (items metadata)
              (fun item lang Hin => Ht metadata item lang Hm Hin)
              (description (with_description
                 (with_name (blank_set Tnum_files) (xstrdup (value i1)))
                 (description (with_name (blank_set Tnum_files) (xstrdup (value i1)))
                  ++ [(EmptyString, text)])))) as [d ->].
  rewrite (Hl metadata Hm). by eexists.
Qed.

(** The set that the call leaves is, but for the counters, a matter of the
    manifest alone as well. *)
Lemma FillSetDetails_check
    (Tnum_files : nat) (file_names : nat -> string)
    (CheckMD5 CheckMD5' : MD5File -> ChecksumResult) (atoi : string -> Z)
    (ini : IniFile) (path full_filename : string) (allow_empty_filename : bool)
    (b : bool) (s : BaseSet) :
  FillSetDetails Tnum_files file_names CheckMD5 atoi ini path full_filename
    allow_empty_filename = Some (b, s) ->
  exists s',
    FillSetDetails Tnum_files file_names CheckMD5' atoi ini path full_filename
      allow_empty_filename = Some (b, s')
    /\ same_but_counters s s'.
Proof.
  unfold FillSetDetails.
  destruct (ini_find ini "metadata") as [metadata|];
    [|intros [= <- <-]; eexists; split; [done|]; by split_and!].
  destruct (fetch_metadata metadata "name") as [i1|];
    [|intros [= <- <-]; eexists; split; [done|]; by split_and!].
  destruct (fetch_metadata metadata "description") as [i2|];
    [|intros [= <- <-]; eexists; split; [done|]; by split_and!].
  destruct (xstrdup (value i2)) as [text|]; [|done].
  destruct (add_translations _ _) as [d|]; [|done].
  destruct (fetch_metadata metadata "shortname") as [i3|];
    [|intros [= <- <-]; eexists; split; [done|]; by split_and!].
  destruct (fetch_metadata metadata "version") as [i4|];
    [|intros [= <- <-]; eexists; split; [done|]; by split_and!].
  destruct (read_fallback metadata) as [fb|]; [|done].
  apply fill_files_check. by split_and!.
Qed.

(** The steps that a call that returns [true] has gone through. *)
Lemma FillSetDetails_success
    (Tnum_files : nat) (file_names : nat -> string)
    (CheckMD5 : MD5File -> ChecksumResult) (atoi : string -> Z)
    (ini : IniFile) (path full_filename : string) (allow_empty_filename : bool)
    (s : BaseSet) :
  FillSetDetails Tnum_files file_names CheckMD5 atoi ini path full_filename
    allow_empty_filename = Some (true, s) ->
  exists metadata i_name i_desc text d i_short i_ver fb,
    ini_find ini "metadata" = Some metadata
    /\ fetch_metadata metadata "name" = Some i_name
    /\ fetch_metadata metadata "description" = Some i_desc
    /\ value i_desc = Some text
    /\ add_translations (items metadata) [(EmptyString, text)] = Some d
    /\ fetch_metadata metadata "shortname" = Some i_short
    /\ fetch_metadata metadata "version" = Some i_ver
    /\ read_fallback metadata = Some fb
    /\ fill_files file_names CheckMD5 (get_group ini "files") (get_group ini "md5s")
         (get_group ini "origin") path allow_empty_filename Tnum_files 0
         (mkBaseSet (value i_name) d
            (shortname_loop 4 0 (default EmptyString (value i_short)) 0)
            (wrap32 (atoi (default EmptyString (value i_ver))))
            fb (replicate Tnum_files blank_file) 0 0 None)
       = Some (true, s).
Proof.
  unfold FillSetDetails.
  destruct (ini_find ini "metadata") as [metadata|] eqn:H0; [|done].
  destruct (fetch_metadata metadata "name") as [i1|] eqn:H1; [|done].
  destruct (fetch_metadata metadata "description") as [i2|] eqn:H2; [|done].
  destruct (fetch_metadata_value _ _ _ H2) as [text Hv]. rewrite Hv. cbn [xstrdup].
  destruct (add_translations _ _) as [d|] eqn:Hd; [|done].
  destruct (fetch_metadata metadata "shortname") as [i3|] eqn:H3; [|done].
  destruct (fetch_metadata metadata "version") as [i4|] eqn:H4; [|done].
  destruct (read_fallback metadata) as [fb|] eqn:H5; [|done].
  intros Hr. exists metadata, i1, i2, text, d, i3, i4, fb. by split_and!.
Qed.

(** C6.  When no null value reaches [xstrdup] (lines 78, 151) or [strcmp]
    (line 92), [FillSetDetails] returns, and it returns [true] exactly
    when the manifest has no hard failure: the metadata group, the four
    fields that may not be empty, and for each file its entry and, if it is
    named, a checksum that starts with thirty-two characters of
    [0-9a-fA-F].  What the integrity check finds on disk plays no part in
    the returned value, and in the set that the call leaves it plays a part
    in the two counters only: with any other check the call returns the
    same value and leaves a set with the same name, descriptions, short
    name, version, fallback flag, files and link. *)
Theorem FillSetDetails_true_iff_no_hard_failure
    (Tnum_files : nat) (file_names : nat -> string)
    (CheckMD5 : MD5File -> ChecksumResult) (atoi : string -> Z)
    (ini : IniFile) (path full_filename : string) (allow_empty_filename : bool) :
  fallback_defined ini -> texts_defined ini ->
  exists b s,
    FillSetDetails Tnum_files file_names CheckMD5 atoi ini path full_filename
      allow_empty_filename = Some (b, s)
    /\ (b = true <->
        no_hard_failure Tnum_files file_names ini allow_empty_filename = true)
    /\ forall CheckMD5' : MD5File -> ChecksumResult,
         exists s',
           FillSetDetails Tnum_files file_names CheckMD5' atoi ini path
             full_filename allow_empty_filename = Some (b, s')
           /\ name s' = name s /\ description s' = description s
           /\ shortname s' = shortname s /\ version s' = version s
           /\ fallback s' = fallback s /\ files s' = files s /\ next s' = next s.
Proof.
  intros Hd Ht.
  pose proof (FillSetDetails_fst Tnum_files file_names CheckMD5 atoi ini path
                full_filename allow_empty_filename Hd Ht) as Hf.
  destruct (FillSetDetails Tnum_files file_names CheckMD5 atoi ini path
              full_filename allow_empty_filename) as [[b s]|] eqn:Hfill; [|done].
  injection Hf as Hf. exists b, s. split; [done|]. split; [by rewrite Hf|].
  intros CheckMD5'. by eapply FillSetDetails_check.
Qed.

Lemma sample_fallback_defined nm short ver :
  fallback_defined (Sample.manifest_missing nm short ver).
Proof.
  intros metadata item Hm. vm_compute in Hm.
  injection Hm as <-. intros Hi. vm_compute in Hi. discriminate Hi.
Defined.

(** Proves the items of a sample manifest to have values. *)
Ltac all_items_valued Hin :=
  repeat (apply elem_of_cons in Hin as [-> | Hin]; [discriminate|]);
  by apply elem_of_nil in Hin.

Lemma sample_texts_defined nm short ver :
  texts_defined (Sample.manifest_missing nm short ver).
Proof.
  split.
  - intros metadata item lang Hm Hin _. injection Hm as <-.
    cbn [items Sample.metadata] in Hin. all_items_valued Hin.
  - intros item Hin. cbn in Hin. by apply elem_of_nil in Hin.
Defined.

(** On a manifest whose second file is not on disk: the set is loaded all
    the same, and with a check that finds every file it is the same set
    but for the counters. *)
Lemma FillSetDetails_true_iff_no_hard_failure_witness :
  exists s s',
    Sample.fill (Sample.manifest_missing "B" "BBBB" "1") EmptyString "b.obg" true
    = Some (true, s)
    /\ FillSetDetails Sample.Tnum_files Sample.file_names (fun _ => CR_MATCH)
         Sample.atoi (Sample.manifest_missing "B" "BBBB" "1") EmptyString "b.obg" true
       = Some (true, s')
    /\ files s' = files s.
Proof.
  destruct (FillSetDetails_true_iff_no_hard_failure Sample.Tnum_files Sample.file_names
              Sample.CheckMD5 Sample.atoi (Sample.manifest_missing "B" "BBBB" "1")
              EmptyString "b.obg" true (sample_fallback_defined "B" "BBBB" "1")
              (sample_texts_defined "B" "BBBB" "1"))
    as (b & s & Hfill & Hiff & Hcheck).
  assert (Hb : b = true) by (apply Hiff; vm_compute; reflexivity).
  subst b. destruct (Hcheck (fun _ => CR_MATCH)) as (s' & Hfill' & H).
  exists s, s'. split; [exact Hfill|]. split; [exact Hfill'|]. apply H.
Defined.

(** C10.  For a set type of fewer than [2 ^ 32] files, the counters that
    [FillSetDetails] leaves satisfy
    [0 <= valid_files <= found_files <= Tnum_files]: each of the
    [Tnum_files] turns adds at most one to each, and adds to [valid_files]
    only together with [found_files]. *)
Theorem FillSetDetails_counters
    (Tnum_files : nat) (file_names : nat -> string)
    (CheckMD5 : MD5File -> ChecksumResult) (atoi : string -> Z)
    (ini : IniFile) (path full_filename : string) (allow_empty_filename : bool)
    (s : BaseSet) :
  Z.of_nat Tnum_files < 2 ^ 32 ->
  FillSetDetails Tnum_files file_names CheckMD5 atoi ini path full_filename
    allow_empty_filename = Some (true, s) ->
  0 <= valid_files s <= found_files s
  /\ found_files s <= Z.of_nat Tnum_files.
Proof.
  intros Hn Hfill.
  destruct (FillSetDetails_success _ _ _ _ _ _ _ _ _ Hfill)
    as (metadata & i1 & i2 & text & d & i3 & i4 & fb
        & _ & _ & _ & _ & _ & _ & _ & _ & Hloop).
  eapply (fill_files_counters file_names CheckMD5 _ _ _ _ _ Tnum_files 0%nat _ true s);
    [exact Hn | | | exact Hloop]; cbn; lia.
Qed.

Lemma FillSetDetails_counters_witness :
  exists s,
    Sample.fill (Sample.manifest_missing "B" "BBBB" "1") EmptyString "b.obg" true = Some (true, s)
    /\ 0 <= valid_files s <= found_files s
    /\ found_files s <= Z.of_nat Sample.Tnum_files.
Proof.
  eexists. split; [vm_compute; reflexivity|].
  apply (FillSetDetails_counters Sample.Tnum_files Sample.file_names
           Sample.CheckMD5 Sample.atoi (Sample.manifest_missing "B" "BBBB" "1")
           EmptyString "b.obg" true).
  - vm_compute. reflexivity.
  - vm_compute. reflexivity.
Defined.

(** C5 as stated fails: without a [fallback] key the flag is [false]. *)
Lemma fallback_absent_gives_false :
  group_find (Sample.metadata "A" "AAAA" "3") "fallback" = None
  /\ exists s,
       Sample.fill (Sample.manifest "A" "AAAA" "3") EmptyString "a.obg" true = Some (true, s)
       /\ fallback s = false.
Proof.
  split; [reflexivity|].
  eexists. split; [vm_compute; reflexivity | reflexivity].
Qed.

(** C5 as the code has it.  The flag of a loaded set is [false] when the
    metadata has no [fallback] key, and when the value of the key is the
    string ["0"] or the string ["false"]; it is [true] for a key with any
    other value. *)
Theorem FillSetDetails_fallback
    (Tnum_files : nat) (file_names : nat -> string)
    (CheckMD5 : MD5File -> ChecksumResult) (atoi : string -> Z)
    (ini : IniFile) (path full_filename : string) (allow_empty_filename : bool)
    (metadata : IniGroup) (s : BaseSet) :
  FillSetDetails Tnum_files file_names CheckMD5 atoi ini path full_filename
    allow_empty_filename = Some (true, s) ->
  ini_find ini "metadata" = Some metadata ->
  (group_find metadata "fallback" = None -> fallback s = false)
  /\ (forall item, group_find metadata "fallback" = Some item ->
        (fallback s = false <->
         value item = Some "0" \/ value item = Some "false")).
Proof.
  intros Hfill Hm.
  destruct (FillSetDetails_success _ _ _ _ _ _ _ _ _ Hfill)
    as (metadata' & i1 & i2 & text & d & i3 & i4 & fb
        & Hm' & _ & _ & _ & _ & _ & _ & Hfb & Hloop).
  rewrite Hm in Hm'. injection Hm' as <-.
  destruct (fill_files_fallback _ _ _ _ _ _ _ _ _ _ _ _ Hloop) as (Hf & _).
  cbn in Hf.
  unfold read_fallback in Hfb.
  destruct (group_find metadata "fallback") as [item|].
  - split; [done|]. intros ? [= <-].
    destruct (value item) as [v|]; [|done]. cbn in Hfb.
    destruct (bool_decide (v = "0")) eqn:E0.
    + apply bool_decide_eq_true_1 in E0. subst v.
      injection Hfb as <-. rewrite Hf. split; [by left | done].
    + apply bool_decide_eq_false_1 in E0.
      injection Hfb as <-. rewrite Hf.
      destruct (bool_decide (v = "false")) eqn:E1.
      * apply bool_decide_eq_true_1 in E1. subst v. split; [by right | done].
      * apply bool_decide_eq_false_1 in E1. cbn.
        split; [done | intros [[=] | [=]]; congruence].
  - injection Hfb as <-. split; [by intros _ | done].
Qed.

Lemma FillSetDetails_fallback_witness :
  exists s,
    Sample.fill (Sample.manifest "A" "AAAA" "3") EmptyString "a.obg" true = Some (true, s)
    /\ (group_find (Sample.metadata "A" "AAAA" "3") "fallback" = None ->
        fallback s = false)
    /\ (forall item,
          group_find (Sample.metadata "A" "AAAA" "3") "fallback" = Some item ->
          (fallback s = false <->
           value item = Some "0" \/ value item = Some "false")).
Proof.
  eexists. split; [vm_compute; reflexivity|].
  apply (FillSetDetails_fallback Sample.Tnum_files Sample.file_names
           Sample.CheckMD5 Sample.atoi (Sample.manifest "A" "AAAA" "3")
           EmptyString "a.obg" true (Sample.metadata "A" "AAAA" "3")).
  - vm_compute. reflexivity.
  - vm_compute. reflexivity.
Defined.

(** A file whose listed checksum does not start with the digits of a
    digest makes the call return [false]. *)
Lemma FillSetDetails_bad_slot
    (Tnum_files : nat) (file_names : nat -> string)
    (CheckMD5 : MD5File -> ChecksumResult) (atoi : string -> Z)
    (ini : IniFile) (path full_filename : string) (allow_empty_filename : bool)
    (i : nat) :
  fallback_defined ini -> texts_defined ini -> (i < Tnum_files)%nat ->
  slot_ok file_names ini allow_empty_filename i = false ->
  fst <$> FillSetDetails Tnum_files file_names CheckMD5 atoi ini path full_filename
            allow_empty_filename = Some false.
Proof.
  intros Hd Ht Hi Hslot. rewrite FillSetDetails_fst by done. f_equal.
  unfold no_hard_failure. destruct (ini_find ini "metadata"); [|done].
  destruct (forallb _ (seq 0 Tnum_files)) eqn:Hall; [|by rewrite andb_false_r].
  rewrite forallb_forall in Hall. rewrite Hall in Hslot; [done|].
  apply in_seq. lia.
Qed.

(** C4 as the code has it.  The decoder reads the first [2 n] characters
    and nothing after them: it succeeds exactly when the string starts with
    [2 n] characters of the alphabet [0-9a-fA-F], and the digest then has
    one byte for each pair, the high nibble first, each digit with its
    place among [0123456789abcdef] or [0123456789ABCDEF] for its value; it
    fails when one of these characters is outside the alphabet or the
    string ends before them.  A manifest that lists such a string as the
    checksum of one of its files is rejected, when no null value reaches
    [xstrdup] or [strcmp] on the way. *)
Theorem decode_hash_reads_prefix (n : nat) (c : string) :
  (fst (decode_hash n c) = true <->
   exists pre rest, c = (pre +:+ rest) /\ String.length pre = (2 * n)%nat
                    /\ all_hex pre = true)
  /\ match hex_pairs n c with
     | Some bytes => decode_hash n c = (true, bytes) /\ length bytes = n
     | None => fst (decode_hash n c) = false
     end
  /\ (forall (Tnum_files : nat) (file_names : nat -> string)
        (CheckMD5 : MD5File -> ChecksumResult) (atoi : string -> Z)
        (ini : IniFile) (path full_filename : string) (allow_empty_filename : bool)
        (i : nat) (item : IniItem) (fname : string) (item' : IniItem),
        n = MD5_HASH_BYTES -> (i < Tnum_files)%nat ->
        fallback_defined ini -> texts_defined ini ->
        group_find (get_group ini "files") (file_names i) = Some item ->
        value item = Some fname ->
        group_find (get_group ini "md5s") fname = Some item' ->
        value item' = Some c ->
        ~ (exists pre rest, c = (pre +:+ rest) /\ String.length pre = (2 * n)%nat
                            /\ all_hex pre = true) ->
        fst <$> FillSetDetails Tnum_files file_names CheckMD5 atoi ini path
                  full_filename allow_empty_filename = Some false).
Proof.
  pose proof (decode_hash_pairs n c) as H.
  pose proof (hex_pairs_Some n c) as HS.
  pose proof (hex_pairs_length n c) as HL.
  split; [|split].
  - destruct (hex_pairs n c) as [bytes|].
    + rewrite H. cbn. split; [intros _; apply HS; by eexists | done].
    + rewrite H. split; [done|]. intros Hp. apply HS in Hp. by destruct Hp.
  - destruct (hex_pairs n c) as [bytes|]; [|done]. split; [done | by apply HL].
  - intros Tnum_files file_names CheckMD5 atoi ini path full_filename allow i
      item fname item' -> Hi Hd Ht Hitem Hfname Hitem' Hc Hdec.
    apply (FillSetDetails_bad_slot _ _ _ _ _ _ _ _ i); [done | done | done |].
    unfold slot_ok. rewrite Hitem, Hfname, Hitem', Hc.
    destruct (hex_prefix (2 * MD5_HASH_BYTES) c) eqn:Hp; [|done].
    exfalso. apply Hdec. by apply hex_prefix_all_hex.
Qed.

(** The example of the specification: ["FF00"] gives the bytes [0xFF],
    [0x00]. *)
Example decode_hash_FF00 : decode_hash 2 "FF00" = (true, [255; 0]).
Proof. reflexivity. Qed.

(** Proves a sample manifest to have no [fallback] item. *)
Ltac no_fallback_item :=
  let Hm := fresh in
  let Hi := fresh in
  intros ? ? Hm; vm_compute in Hm; injection Hm as <-;
  intros Hi; vm_compute in Hi; discriminate Hi.

Lemma sample_short_md5_fallback_defined : fallback_defined Sample.manifest_short_md5.
Proof. no_fallback_item. Defined.

Lemma sample_short_md5_texts_defined : texts_defined Sample.manifest_short_md5.
Proof.
  split.
  - intros metadata item lang Hm Hin _. injection Hm as <-.
    cbn [items Sample.metadata] in Hin. all_items_valued Hin.
  - intros item Hin. cbn in Hin. by apply elem_of_nil in Hin.
Defined.

(** Eight digits where thirty-two are read: the decoder fails and the
    manifest is rejected. *)
Lemma decode_hash_reads_prefix_witness :
  fst (decode_hash MD5_HASH_BYTES "00112233") = false
  /\ (fst <$> Sample.fill Sample.manifest_short_md5 EmptyString "short.obg" true)
     = Some false.
Proof.
  destruct (decode_hash_reads_prefix MD5_HASH_BYTES "00112233") as (_ & Hfail & Hrej).
  split; [exact Hfail|].
  apply (Hrej Sample.Tnum_files Sample.file_names Sample.CheckMD5 Sample.atoi
           Sample.manifest_short_md5 EmptyString "short.obg" true 0%nat
           (Sample.item "base" "a.grf") "a.grf" (Sample.item "a.grf" "00112233"));
    [reflexivity | vm_compute; lia | apply sample_short_md5_fallback_defined
     | apply sample_short_md5_texts_defined
     | reflexivity | reflexivity | reflexivity | reflexivity |].
  intros Hp. apply hex_prefix_all_hex in Hp. vm_compute in Hp. discriminate Hp.
Defined.

(** C4 as stated fails: a string longer than [2 N] characters is decoded,
    and the manifest that holds it is accepted. *)
Lemma decode_hash_accepts_longer :
  String.length (Sample.md5_a +:+ "zz") <> (2 * MD5_HASH_BYTES)%nat
  /\ fst (decode_hash MD5_HASH_BYTES (Sample.md5_a +:+ "zz")) = true
  /\ (fst <$> Sample.fill Sample.manifest_long_md5 EmptyString "long.obg" true) = Some true.
Proof. vm_compute. repeat split; congruence. Qed.

(** ** Chains of sets in the heap *)

Section Chains.

Implicit Types (h : gmap addr BaseSet) (L : list (addr * BaseSet)) (p q : ptr).

Lemma lseg_app h L1 : forall p L2 q,
  lseg h p (L1 ++ L2) q <-> exists m, lseg h p L1 m /\ lseg h m L2 q.
Proof.
  induction L1 as [|e L1 IH]; intros p L2 q; cbn [lseg app].
  - split; [intros H; by exists p | by intros (m & -> & H)].
  - split.
    + intros (Hp & s & Hs & He & Ht). apply IH in Ht as (m & H1 & H2).
      exists m. split; [|done]. split; [done|]. by exists s.
    + intros (m & (Hp & s & Hs & He & H1) & H2).
      split; [done|]. exists s. repeat split; [done..|]. apply IH. by exists m.
Qed.

Lemma lseg_allocated h L : forall p q a,
  lseg h p L q -> a ∈ L.*1 -> is_Some (h !! a).
Proof.
  induction L as [|e L IH]; intros p q a; cbn [lseg fmap list_fmap].
  - intros _ Ha. by apply elem_of_nil in Ha.
  - intros (_ & s & Hs & _ & Ht) Ha. apply elem_of_cons in Ha as [-> | Ha]; [by eexists|].
    by eapply IH.
Qed.

(** A chain only depends on the sets it goes through. *)
Lemma lseg_ext h h' L : forall p q,
  (forall a, a ∈ L.*1 -> h' !! a = h !! a) ->
  lseg h p L q -> lseg h' p L q.
Proof.
  induction L as [|e L IH]; intros p q Hext; cbn [lseg]; [done|].
  intros (Hp & s & Hs & He & Ht). split; [done|]. exists s.
  split; [rewrite Hext; [done | cbn; apply elem_of_cons; by left]|].
  split; [done|]. apply IH; [|done].
  intros a Ha. apply Hext. cbn. apply elem_of_cons. by right.
Qed.

Lemma lseg_functional h L : forall p q L' q',
  lseg h p L q -> lseg h p L' q' -> length L = length L' -> L = L' /\ q = q'.
Proof.
  induction L as [|e L IH]; intros p q [|e' L'] q'; cbn [lseg length]; try done.
  - intros -> ->. done.
  - intros (Hp & s & Hs & He & Ht) (Hp' & s' & Hs' & He' & Ht') [= Hlen].
    rewrite Hp in Hp'. injection Hp' as Hp'.
    rewrite Hp', Hs' in Hs. injection Hs as ->.
    destruct (IH _ _ _ _ Ht Ht' Hlen) as [-> ->].
    split; [|done]. f_equal. destruct e, e'; cbn in *; congruence.
Qed.

(** No chain that fits into the heap is as long as the fuel. *)
Lemma chain_fuel h L p q :
  lseg h p L q -> NoDup L.*1 -> (length L < S (size h))%nat.
Proof.
  intros Hl Hnd.
  assert (Hsub : L.*1 ⊆+ (map_to_list h).*1).
  { apply NoDup_submseteq; [done|]. intros a Ha.
    destruct (lseg_allocated _ _ _ _ _ Hl Ha) as [s Hs].
    apply list_elem_of_fmap. exists (a, s). split; [done|].
    by apply elem_of_map_to_list. }
  apply submseteq_length in Hsub.
  rewrite !length_fmap, length_map_to_list in Hsub. lia.
Qed.

Lemma registry_fuel st La Ld :
  registry st La Ld ->
  (length La < fuel_of st)%nat /\ (length Ld < fuel_of st)%nat.
Proof.
  intros [Ha Hd Hnd _]. apply list.NoDup_app in Hnd as (Hna & _ & Hnd).
  unfold fuel_of. split; eapply chain_fuel; eauto.
Qed.

Lemma last_loc_snoc prev L e : last_loc prev (L ++ [e]) = NextOf e.1.
Proof. unfold last_loc. by rewrite fold_left_app. Qed.

Lemma erase_next_with_next s p : erase_next (with_next s p) = erase_next s.
Proof. reflexivity. Qed.

Lemma erase_next_id s : next s = None -> erase_next s = s.
Proof. destruct s. cbn. by intros ->. Qed.

End Chains.

(** ** Walks that only read: the matcher, the enumeration, [SetSet] *)

Section Walks.

Variable Tnum_files : nat.

Implicit Types (h : gmap addr BaseSet) (L : list (addr * BaseSet)) (p q : ptr).

Lemma md5_loop_erase_next n : forall i s md5,
  md5_loop n i (erase_next s) md5 = md5_loop n i s md5.
Proof. induction n as [|n IH]; intros i s md5; cbn [md5_loop]; [done | apply IH]. Qed.

Lemma qualifies_erase_next ci md5 s :
  qualifies Tnum_files ci md5 (erase_next s) = qualifies Tnum_files ci md5 s.
Proof. unfold qualifies, combined_md5. by rewrite md5_loop_erase_next. Qed.

Lemma TryGetBaseSetFile_chain ci md5 h L : forall fuel p,
  lseg h p L None -> (length L < fuel)%nat ->
  TryGetBaseSetFile Tnum_files fuel h ci md5 p
  = Some (first_match Tnum_files ci md5 L).
Proof.
  induction L as [|e L IH]; intros [|fuel] p; cbn [lseg length]; try lia.
  - by intros -> _.
  - intros (-> & s & Hs & He & Ht) Hf. cbn [TryGetBaseSetFile]. rewrite Hs.
    specialize (IH fuel (next s) Ht ltac:(lia)).
    unfold first_match in *. cbn [find]. rewrite <- He, qualifies_erase_next.
    unfold qualifies.
    destruct (GetNumMissing Tnum_files s =? 0); cbn [negb andb]; [|exact IH].
    destruct (shortname s =? unique_id ci); cbn [negb andb]; [|exact IH].
    destruct md5; cbn [negb orb]; [|by rewrite <- He].
    destruct (memcmp16_eq _ _); [by rewrite <- He | exact IH].
Qed.

Lemma GetNumSets_loop_chain st L : forall fuel p n,
  lseg (heap st) p L None -> (length L < fuel)%nat ->
  GetNumSets_loop Tnum_files fuel st p n
  = Some (n + Z.of_nat (length (List.filter (visible Tnum_files (used_set st)) L))).
Proof.
  induction L as [|e L IH]; intros [|fuel] p n; cbn [lseg length]; try lia.
  - intros -> _. cbn. f_equal. lia.
  - intros (-> & s & Hs & He & Ht) Hf. cbn [GetNumSets_loop]. rewrite Hs.
    cbn [List.filter]. unfold visible at 1. rewrite <- He.
    change (GetNumMissing Tnum_files (erase_next s)) with (GetNumMissing Tnum_files s).
    rewrite (bool_decide_ext (Some e.1 = used_set st) (used_set st = Some e.1))
      by (split; congruence).
    destruct (bool_decide (used_set st = Some e.1)), (GetNumMissing Tnum_files s =? 0);
      cbn [negb andb orb length]; rewrite (IH fuel) by (done || lia); f_equal; lia.
Qed.

(** Up to the set in use the walk counts the sets without a missing
    file. *)
Lemma GetIndexOfUsedSet_loop_found st L1 u du L2 q : forall fuel p n,
  lseg (heap st) p (L1 ++ (u, du) :: L2) q ->
  u ∉ L1.*1 -> used_set st = Some u -> (length L1 < fuel)%nat ->
  GetIndexOfUsedSet_loop Tnum_files fuel st p n
  = Some (n + Z.of_nat (length (List.filter (visible Tnum_files (used_set st)) L1))).
Proof.
  intros fuel p n Hl Hu Hused. revert fuel p n Hl Hu.
  induction L1 as [|e L1 IH]; intros [|fuel] p n; cbn [lseg length app]; try lia.
  - intros (-> & _) _ _. cbn [GetIndexOfUsedSet_loop fst].
    rewrite bool_decide_eq_true_2 by done. cbn. f_equal. lia.
  - intros (-> & s & Hs & He & Ht) Hu Hf. cbn [GetIndexOfUsedSet_loop].
    cbn [fmap list_fmap] in Hu. apply not_elem_of_cons in Hu as [Hne Hu].
    rewrite bool_decide_eq_false_2 by (rewrite Hused; congruence).
    rewrite Hs. cbn [List.filter]. unfold visible at 1. rewrite <- He.
    change (GetNumMissing Tnum_files (erase_next s)) with (GetNumMissing Tnum_files s).
    rewrite (bool_decide_eq_false_2 (used_set st = Some e.1)) by congruence.
    destruct (GetNumMissing Tnum_files s =? 0);
      cbn [negb orb length]; rewrite (IH fuel) by (done || lia); f_equal; lia.
Qed.

Lemma GetIndexOfUsedSet_loop_absent st L : forall fuel p n,
  lseg (heap st) p L None ->
  (forall a, a ∈ L.*1 -> used_set st <> Some a) -> (length L < fuel)%nat ->
  GetIndexOfUsedSet_loop Tnum_files fuel st p n = Some (-1).
Proof.
  induction L as [|e L IH]; intros [|fuel] p n; cbn [lseg length]; try lia.
  - by intros -> _ _.
  - intros (-> & s & Hs & He & Ht) Hu Hf. cbn [GetIndexOfUsedSet_loop].
    rewrite bool_decide_eq_false_2
      by (intros Heq; apply (Hu e.1); [cbn; apply elem_of_cons; by left | done]).
    rewrite Hs.
    assert (Hu' : forall a, a ∈ L.*1 -> used_set st <> Some a).
    { intros a Ha. apply Hu. cbn. apply elem_of_cons. by right. }
    destruct (GetNumMissing Tnum_files s =? 0); cbn [negb];
      apply (IH fuel); (done || lia).
Qed.

Lemma SetSet_loop_chain st nm L : forall fuel p,
  lseg (heap st) p L None -> Forall (fun e => name e.2 <> None) L ->
  (length L < fuel)%nat ->
  SetSet_loop fuel st p (Some nm)
  = Some match find (fun e => bool_decide (name e.2 = Some nm)) L with
         | Some e => (true, with_used_set st (Some e.1))
         | None => (false, st)
         end.
Proof.
  induction L as [|e L IH]; intros [|fuel] p; cbn [lseg length]; try lia.
  - by intros -> _ _.
  - intros (-> & s & Hs & He & Ht) Hn Hf. cbn [SetSet_loop]. rewrite Hs.
    inversion Hn as [|? ? Hne Hn']; subst. cbn [find]. rewrite <- He in Hne |- *.
    change (name (erase_next s)) with (name s) in *.
    destruct (name s) as [x|]; [|done]. cbn [strcmp_eq].
    rewrite (bool_decide_ext (Some x = Some nm) (nm = x)) by (split; congruence).
    destruct (bool_decide (nm = x)); [done|].
    apply IH; (done || lia).
Qed.

End Walks.

Section CombinedDigest.

Lemma xor_into_length n : forall j md5 h, length (xor_into n j md5 h) = length md5.
Proof.
  induction n as [|n IH]; intros j md5 h; cbn [xor_into]; [done|].
  by rewrite IH, length_insert.
Qed.

Lemma xor_into_nth n : forall j0 md5 h j,
  (j0 + n <= length md5)%nat ->
  nth j (xor_into n j0 md5 h) 0
  = if decide (j0 <= j < j0 + n)%nat
    then Z.lxor (nth j md5 0) (nth j h 0) else nth j md5 0.
Proof.
  induction n as [|n IH]; intros j0 md5 h j Hlen; cbn [xor_into].
  - case_decide; [lia | done].
  - rewrite IH by (rewrite length_insert; lia).
    rewrite !(nth_lookup (<[_ := _]> md5)).
    destruct (decide (j = j0)) as [-> | Hne].
    + rewrite list_lookup_insert_eq by lia. cbn [default].
      rewrite decide_False by lia. by rewrite decide_True by lia.
    + rewrite list_lookup_insert_ne by done. rewrite <- nth_lookup.
      repeat case_decide; (done || lia).
Qed.

Lemma md5_loop_length n : forall i s md5, length (md5_loop n i s md5) = length md5.
Proof.
  induction n as [|n IH]; intros i s md5; cbn [md5_loop]; [done|].
  by rewrite IH, xor_into_length.
Qed.

(** Byte [j] of the combined digest is the exclusive or of byte [j] of the
    digest of each file, in the order of the files. *)
Lemma md5_loop_nth n : forall i s md5 j,
  length md5 = 16%nat -> (j < 16)%nat ->
  nth j (md5_loop n i s md5) 0
  = fold_left (fun acc k => Z.lxor acc (nth j (hash (get_file s k)) 0))
      (seq i n) (nth j md5 0).
Proof.
  induction n as [|n IH]; intros i s md5 j Hlen Hj; cbn [md5_loop seq fold_left]; [done|].
  rewrite IH by (rewrite ?xor_into_length; done).
  rewrite xor_into_nth by lia. by rewrite decide_True by lia.
Qed.

Lemma combined_md5_nth Tnum_files s j :
  (j < 16)%nat ->
  nth j (combined_md5 Tnum_files s) 0
  = fold_left (fun acc k => Z.lxor acc (nth j (hash (get_file s k)) 0))
      (seq 0 Tnum_files) 0.
Proof.
  intros Hj. unfold combined_md5. rewrite md5_loop_nth by done.
  f_equal. rewrite nth_lookup, lookup_replicate_2 by done. done.
Qed.

End CombinedDigest.

(** C3.  On a registry whose two chains are in order, the matcher returns
    for each chain the path of the first file of the first set that has no
    missing file, has the requested short name and, when the digest is to be
    checked, whose combined digest has the sixteen requested bytes; [NULL]
    when no set of the chain does.  [HasSet] asks the available sets first
    and the duplicates after them.  A set with a missing file never passes;
    byte [j] of the combined digest is the exclusive or of byte [j] of the
    digests of the files [0 .. Tnum_files - 1], in this order. *)
Theorem content_matcher_first_qualifying
    (Tnum_files : nat) (st : BaseMedia) (La Ld : list (addr * BaseSet))
    (ci : ContentInfo) (md5 : bool) :
  registry st La Ld ->
  TryGetBaseSetFile Tnum_files (fuel_of st) (heap st) ci md5 (available_sets st)
    = Some (first_match Tnum_files ci md5 La)
  /\ TryGetBaseSetFile Tnum_files (fuel_of st) (heap st) ci md5 (duplicate_sets st)
     = Some (first_match Tnum_files ci md5 Ld)
  /\ HasSet Tnum_files st ci md5
     = Some (bool_decide (first_match Tnum_files ci md5 La <> None)
             || bool_decide (first_match Tnum_files ci md5 Ld <> None))
  /\ (forall d, qualifies Tnum_files ci md5 d = true <->
        GetNumMissing Tnum_files d = 0 /\ shortname d = unique_id ci
        /\ (md5 = true ->
            forall j, (j < 16)%nat ->
              nth j (combined_md5 Tnum_files d) 0 = nth j (md5sum ci) 0))
  /\ (forall d j, (j < 16)%nat ->
        nth j (combined_md5 Tnum_files d) 0
        = fold_left (fun acc k => Z.lxor acc (nth j (hash (get_file d k)) 0))
            (seq 0 Tnum_files) 0).
Proof.
  intros Hreg. destruct (registry_fuel _ _ _ Hreg) as [Hfa Hfd].
  destruct Hreg as [Ha Hd _ _].
  pose proof (TryGetBaseSetFile_chain Tnum_files ci md5 _ _ _ _ Ha Hfa) as Hta.
  pose proof (TryGetBaseSetFile_chain Tnum_files ci md5 _ _ _ _ Hd Hfd) as Htd.
  split; [done|]. split; [done|]. split; [|split].
  - unfold HasSet. rewrite Hta, Htd.
    destruct (first_match Tnum_files ci md5 La); [done|].
    by rewrite (bool_decide_eq_false_2 (None <> None)) by (by intros H).
  - intros d. unfold qualifies, memcmp16_eq.
    rewrite !andb_true_iff, orb_true_iff, negb_true_iff, !Z.eqb_eq, forallb_forall.
    split.
    + intros [[H1 H2] H3]. repeat split; [done..|].
      intros -> j Hj. destruct H3 as [H3 | H3]; [done|].
      apply Z.eqb_eq, H3, in_seq. lia.
    + intros (H1 & H2 & H3). repeat split; [done..|].
      destruct md5; [right | by left].
      intros j Hj%in_seq. apply Z.eqb_eq, H3; [done | lia].
  - intros d j Hj. by apply combined_md5_nth.
Qed.

(** C8.  On a registry in order whose [used_set] is null or linked,
    [GetNumSets] is the number of available sets that are in use or have no
    missing file; [GetIndexOfUsedSet] is [-1] exactly when no set is in
    use, and otherwise the number of such sets before the one in use. *)
Theorem enumeration_counts_visible_sets
    (Tnum_files : nat) (st : BaseMedia) (La Ld : list (addr * BaseSet)) :
  registry st La Ld -> used_linked st La ->
  GetNumSets Tnum_files st
    = Some (Z.of_nat (length (List.filter (visible Tnum_files (used_set st)) La)))
  /\ exists n,
       GetIndexOfUsedSet Tnum_files st = Some n
       /\ (n = -1 <-> used_set st = None)
       /\ forall L1 u du L2,
            used_set st = Some u -> La = L1 ++ (u, du) :: L2 ->
            n = Z.of_nat (length (List.filter (visible Tnum_files (used_set st)) L1)).
Proof.
  intros Hreg Hused. destruct (registry_fuel _ _ _ Hreg) as [Hfa _].
  destruct Hreg as [Ha _ Hnd _].
  apply list.NoDup_app in Hnd as (Hnd & _ & _).
  split.
  - unfold GetNumSets. by rewrite (GetNumSets_loop_chain _ _ _ _ _ _ Ha Hfa).
  - unfold GetIndexOfUsedSet. destruct Hused as [Hnone | (u & Hu & Hin)].
    + exists (-1). split; [|split; [done|]].
      * apply (GetIndexOfUsedSet_loop_absent _ _ _ _ _ _ Ha); [|done].
        intros a _. by rewrite Hnone.
      * intros L1 u du L2 Hu. by rewrite Hnone in Hu.
    + apply list_elem_of_fmap in Hin as ([u' du] & Heq & Hin). cbn in Heq. subst u'.
      apply list_elem_of_split in Hin as (L1 & L2 & ->).
      assert (Hnot : u ∉ L1.*1).
      { rewrite fmap_app in Hnd. apply list.NoDup_app in Hnd as (_ & Hd & _).
        intros Hin. apply (Hd u Hin). cbn. apply elem_of_cons. by left. }
      eexists. split; [|split].
      * apply (GetIndexOfUsedSet_loop_found _ _ _ _ _ _ _ _ _ _ Ha Hnot Hu).
        rewrite length_app in Hfa. cbn in Hfa. lia.
      * rewrite Hu. split; [lia | done].
      * intros L1' u' du' L2' Hu' Heq. rewrite Hu in Hu'. injection Hu' as <-.
        assert (HL : L1' = L1); [|by rewrite HL].
        assert (Hnot' : u ∉ L1'.*1).
        { rewrite Heq, fmap_app in Hnd. apply list.NoDup_app in Hnd as (_ & Hd & _).
          intros Hin. apply (Hd u Hin). cbn. apply elem_of_cons. by left. }
        clear -Heq Hnot Hnot'.
        revert L1' Heq Hnot'. induction L1 as [|e L1 IH]; intros [|e' L1'] Heq Hnot'.
        -- done.
        -- injection Heq as <- _. exfalso. apply Hnot'. cbn. apply elem_of_cons. by left.
        -- injection Heq as -> _. exfalso. apply Hnot. cbn. apply elem_of_cons. by left.
        -- injection Heq as -> Heq. f_equal. apply IH.
           ++ intros Hin. apply Hnot. cbn. apply elem_of_cons. by right.
           ++ done.
           ++ intros Hin. apply Hnot'. cbn. apply elem_of_cons. by right.
Qed.

(** C9.  On a registry in order, [SetSet] with a name that is not empty
    returns [true] when an available set has that name, and [used_set] is
    then the address of the first such set, while the heap and the heads
    of both chains are as before; without such a set it returns [false] and
    leaves the registry, [used_set] with it, as it is. *)
Theorem SetSet_selects_first_named
    (DetermineBestSet : BaseMedia -> bool * BaseMedia)
    (st : BaseMedia) (La Ld : list (addr * BaseSet)) (nm : string) :
  registry st La Ld -> StrEmpty (Some nm) = false ->
  (forall e, find (fun e => bool_decide (name e.2 = Some nm)) La = Some e ->
     exists st',
       SetSet DetermineBestSet st (Some nm) = Some (true, st')
       /\ used_set st' = Some e.1
       /\ heap st' = heap st
       /\ available_sets st' = available_sets st
       /\ duplicate_sets st' = duplicate_sets st
       /\ registry st' La Ld)
  /\ (find (fun e => bool_decide (name e.2 = Some nm)) La = None ->
      exists st',
        SetSet DetermineBestSet st (Some nm) = Some (false, st')
        /\ used_set st' = used_set st
        /\ heap st' = heap st
        /\ available_sets st' = available_sets st
        /\ duplicate_sets st' = duplicate_sets st).
Proof.
  intros Hreg Hne. destruct (registry_fuel _ _ _ Hreg) as [Hfa _].
  pose proof Hreg as [Ha Hd Hnd Hnamed].
  unfold SetSet. rewrite Hne.
  rewrite (SetSet_loop_chain _ _ _ _ _ Ha Hnamed Hfa).
  split; [intros e -> | intros ->]; eexists; (split; [reflexivity|]).
  - split_and!; [done..|]. by split.
  - by split_and!.
Qed.

(** ** [AddFile]: the walks that it makes *)

Section AddFileWalks.

Implicit Types (h : gmap addr BaseSet) (L : list (addr * BaseSet)) (p q : ptr).

(** The loop of lines 194-199 stops at the first set that collides. *)
Lemma find_duplicate_chain h set L : forall fuel p,
  lseg h p L None -> Forall (fun e => name e.2 <> None) L -> name set <> None ->
  (length L < fuel)%nat ->
  find_duplicate fuel h p set = Some (fst <$> find (fun e => collides set e.2) L).
Proof.
  induction L as [|e L IH]; intros [|fuel] p; cbn [lseg length]; try lia.
  - by intros -> _ _ _.
  - intros (-> & s & Hs & He & Ht) Hn Hset Hf. cbn [find_duplicate]. rewrite Hs.
    inversion Hn as [|? ? Hne Hn']; subst. cbn [find].
    unfold collides at 1. rewrite <- He in Hne |- *.
    change (name (erase_next s)) with (name s) in *.
    change (shortname (erase_next s)) with (shortname s).
    destruct (name s) as [x|]; [|done]. destruct (name set) as [y|]; [|done].
    cbn [strcmp_eq].
    rewrite (bool_decide_ext (Some x = Some y) (x = y)) by (split; congruence).
    destruct (bool_decide (x = y) || (shortname s =? shortname set)); [done|].
    apply IH; (done || lia).
Qed.

(** The loop of line 211 stops at the location that holds [duplicate]. *)
Lemma find_prev_chain st d dd L2 q : forall L1 fuel prev p,
  load st prev = Some p ->
  lseg (heap st) p (L1 ++ (d, dd) :: L2) q ->
  d ∉ L1.*1 -> (length L1 < fuel)%nat ->
  find_prev fuel st prev d = Some (last_loc prev L1).
Proof.
  induction L1 as [|e L1 IH]; intros [|fuel] prev p Hload; cbn [lseg length app];
    try lia.
  - intros (-> & _) _ _. cbn [find_prev]. rewrite Hload.
    by rewrite bool_decide_eq_true_2.
  - intros (-> & s & Hs & He & Ht) Hd Hf. cbn [find_prev]. rewrite Hload.
    cbn [fmap list_fmap] in Hd. apply not_elem_of_cons in Hd as [Hne Hd].
    rewrite bool_decide_eq_false_2 by congruence.
    apply (IH fuel (NextOf e.1) (next s)); [| done | done | lia].
    cbn [load]. by rewrite Hs.
Qed.

(** The loop of line 230 stops at the link that ends the chain. *)
Lemma find_last_chain st : forall L fuel last p,
  load st last = Some p ->
  lseg (heap st) p L None -> (length L < fuel)%nat ->
  find_last fuel st last = Some (last_loc last L).
Proof.
  induction L as [|e L IH]; intros [|fuel] last p Hload; cbn [lseg length]; try lia.
  - intros -> _. cbn [find_last]. by rewrite Hload.
  - intros (-> & s & Hs & He & Ht) Hf. cbn [find_last]. rewrite Hload.
    apply (IH fuel (NextOf e.1) (next s)); [| done | lia].
    cbn [load]. by rewrite Hs.
Qed.

(** Storing [v] at the end of the chain of the available sets makes the
    chain lead to [v], and changes no set outside the chain. *)
Lemma store_at_end st L q v :
  lseg (heap st) (available_sets st) L q -> NoDup L.*1 ->
  exists st',
    store st (last_loc AvailableSets L) v = Some st'
    /\ lseg (heap st') (available_sets st') L v
    /\ (forall a, a ∉ L.*1 -> heap st' !! a = heap st !! a)
    /\ used_set st' = used_set st
    /\ duplicate_sets st' = duplicate_sets st.
Proof.
  destruct L as [|e L _] using rev_ind; intros Hl Hnd.
  - exists (with_available_sets st v). by repeat split.
  - rewrite last_loc_snoc. cbn [store]. unfold set_next.
    apply lseg_app in Hl as (m & Hl & -> & s & Hs & He & Hq).
    rewrite Hs. eexists. split; [done|]. cbn [heap available_sets with_heap].
    rewrite fmap_app in Hnd. apply list.NoDup_app in Hnd as (_ & Hdisj & _).
    assert (Hne : e.1 ∉ L.*1).
    { intros Hin. apply (Hdisj _ Hin). cbn. apply elem_of_cons. by left. }
    split; [|split; [|done]].
    + apply lseg_app. exists (Some e.1). split.
      * apply (lseg_ext (heap st)); [|done].
        intros a Ha. apply lookup_insert_ne. congruence.
      * cbn [lseg]. split; [done|]. eexists. split; [apply lookup_insert_eq|].
        by split.
    + intros a Ha. apply lookup_insert_ne. intros <-. apply Ha.
      rewrite fmap_app. apply elem_of_app. right. cbn. apply elem_of_cons. by left.
Qed.

End AddFileWalks.

(** ** [AddFile]: its three outcomes on a manifest that loads *)

Section AddFileOutcomes.

Variable Tnum_files : nat.
Variable file_names : nat -> string.
Variable CheckMD5 : MD5File -> ChecksumResult.
Variable atoi : string -> Z.
Variable PATHSEPCHAR : ascii.
Variable allow_empty_default : bool.

Local Abbreviation Fill := (FillSetDetails Tnum_files file_names CheckMD5 atoi).
Local Abbreviation Add :=
  (AddFile Tnum_files file_names CheckMD5 atoi PATHSEPCHAR allow_empty_default).

(** A set that [FillSetDetails] leaves has no link, and a name when the
    call returned [true]. *)
Lemma FillSetDetails_shape ini path full allow b s :
  Fill ini path full allow = Some (b, s) ->
  next s = None /\ (b = true -> name s <> None).
Proof.
  unfold FillSetDetails.
  destruct (ini_find ini "metadata") as [metadata|]; [|by intros [= <- <-]].
  destruct (fetch_metadata metadata "name") as [i1|] eqn:H1; [|by intros [= <- <-]].
  destruct (fetch_metadata metadata "description") as [i2|]; [|by intros [= <- <-]].
  destruct (xstrdup (value i2)) as [text|]; [|done].
  destruct (add_translations _ _) as [d|]; [|done].
  destruct (fetch_metadata metadata "shortname") as [i3|]; [|by intros [= <- <-]].
  destruct (fetch_metadata metadata "version") as [i4|]; [|by intros [= <- <-]].
  destruct (read_fallback metadata) as [fb|]; [|done].
  intros Hr.
  destruct (fill_files_fallback _ _ _ _ _ _ _ _ _ _ _ _ Hr) as (_ & Hn & Hx).
  cbn in Hn, Hx. split; [done|]. intros _. rewrite Hn.
  destruct (fetch_metadata_value _ _ _ H1) as [v ->]. done.
Qed.

(** The address that [new] gives is in neither chain, and the chains are
    as they were once the new set is in the heap. *)
Lemma registry_alloc st La Ld set :
  registry st La Ld ->
  (fresh (dom (heap st)) ∉ La.*1) /\ (fresh (dom (heap st)) ∉ Ld.*1)
  /\ registry (with_heap st (<[fresh (dom (heap st)) := set]> (heap st))) La Ld.
Proof.
  intros [Ha Hd Hnd Hn].
  assert (Hfresh : heap st !! fresh (dom (heap st)) = None).
  { apply not_elem_of_dom, is_fresh. }
  assert (Hna : fresh (dom (heap st)) ∉ La.*1).
  { intros Hin. destruct (lseg_allocated _ _ _ _ _ Ha Hin) as [s Hs]. congruence. }
  assert (Hnd' : fresh (dom (heap st)) ∉ Ld.*1).
  { intros Hin. destruct (lseg_allocated _ _ _ _ _ Hd Hin) as [s Hs]. congruence. }
  split; [done|]. split; [done|].
  split; cbn [heap available_sets duplicate_sets with_heap]; [| |done..].
  - apply (lseg_ext (heap st)); [|done]. intros a Hin. apply lookup_insert_ne.
    by intros <-.
  - apply (lseg_ext (heap st)); [|done]. intros a Hin. apply lookup_insert_ne.
    by intros <-.
Qed.

Lemma fuel_of_alloc st set :
  fuel_of (with_heap st (<[fresh (dom (heap st)) := set]> (heap st)))
  = S (fuel_of st).
Proof.
  unfold fuel_of. cbn [heap with_heap]. f_equal.
  apply map_size_insert_None, not_elem_of_dom, is_fresh.
Qed.

(** Step 3 of the specification: without a collision the new set goes to
    the end of the available sets. *)
Lemma AddFile_appends st La Ld ini filename basepath_length set :
  registry st La Ld ->
  Fill ini (set_path PATHSEPCHAR filename basepath_length) filename
    allow_empty_default = Some (true, set) ->
  find (fun e => collides set e.2) La = None ->
  exists st',
    Add st ini filename basepath_length = Some (true, st')
    /\ registry st' (La ++ [(fresh (dom (heap st)), set)]) Ld
    /\ used_set st' = used_set st.
Proof.
  intros Hreg Hfill Hfind.
  destruct (FillSetDetails_shape _ _ _ _ _ _ Hfill) as [Hnext Hname].
  specialize (Hname eq_refl).
  destruct (registry_alloc st La Ld set Hreg) as (Hpa & Hpd & Hreg0).
  destruct (registry_fuel _ _ _ Hreg0) as [Hfa _].
  unfold AddFile. rewrite Hfill.
  set (pset := fresh (dom (heap st))) in *.
  set (st0 := with_heap st (<[pset := set]> (heap st))) in *.
  destruct Hreg0 as [Ha0 Hd0 Hnd Hn].
  rewrite (find_duplicate_chain _ _ _ _ _ Ha0 Hn Hname Hfa), Hfind.
  cbn [fmap option_fmap option_map].
  rewrite (find_last_chain st0 La _ AvailableSets _ eq_refl Ha0 Hfa).
  pose proof Hnd as Hnd'. apply list.NoDup_app in Hnd' as (Hnda & Hdisj & Hndd).
  destruct (store_at_end st0 La None (Some pset) Ha0 Hnda)
    as (st1 & -> & Ha1 & Hframe & Hu1 & Hd1).
  exists st1. split; [done|]. split; [|by rewrite Hu1].
  split.
  - apply lseg_app. exists (Some pset). split; [done|].
    cbn [lseg fst snd]. split; [done|]. exists set.
    split; [|by split; [apply erase_next_id|]].
    rewrite Hframe by done. apply lookup_insert_eq.
  - rewrite Hd1. apply (lseg_ext (heap st0)); [|done].
    intros a Hin. apply Hframe. intros Hin'. by apply (Hdisj a).
  - rewrite fmap_app. cbn [fmap list_fmap fst].
    rewrite <- app_assoc. cbn [app].
    apply list.NoDup_app. split; [done|]. split.
    + intros a Hin Hin'. apply elem_of_cons in Hin' as [-> | Hin']; [done|].
      by apply (Hdisj a).
    + apply list.NoDup_cons. by split.
  - apply Forall_app. split; [done|]. by repeat constructor.
Qed.

Lemma lseg_lookup h L : forall p q a d,
  lseg h p L q -> (a, d) ∈ L -> exists s, h !! a = Some s /\ erase_next s = d.
Proof.
  induction L as [|e L IH]; intros p q a d; cbn [lseg].
  - intros _ Hin. by apply elem_of_nil in Hin.
  - intros (_ & s & Hs & He & Ht) Hin. apply elem_of_cons in Hin as [<- | Hin].
    + by exists s.
    + by eapply IH.
Qed.

(** Step 4, first case: the incumbent stays, the new set goes to the head
    of the duplicates. *)
Lemma AddFile_supersedes_new st La Ld ini filename basepath_length set d dd :
  registry st La Ld ->
  Fill ini (set_path PATHSEPCHAR filename basepath_length) filename
    allow_empty_default = Some (true, set) ->
  find (fun e => collides set e.2) La = Some (d, dd) ->
  keeps_incumbent dd set = true ->
  exists st',
    Add st ini filename basepath_length = Some (false, st')
    /\ registry st' La ((fresh (dom (heap st)), set) :: Ld)
    /\ used_set st' = used_set st.
Proof.
  intros Hreg Hfill Hfind Hkeep.
  destruct (FillSetDetails_shape _ _ _ _ _ _ Hfill) as [Hnext Hname].
  specialize (Hname eq_refl).
  destruct (registry_alloc st La Ld set Hreg) as (Hpa & Hpd & Hreg0).
  destruct (registry_fuel _ _ _ Hreg0) as [Hfa _].
  unfold AddFile. rewrite Hfill.
  set (pset := fresh (dom (heap st))) in *.
  set (st0 := with_heap st (<[pset := set]> (heap st))) in *.
  destruct Hreg0 as [Ha0 Hd0 Hnd Hn].
  rewrite (find_duplicate_chain _ _ _ _ _ Ha0 Hn Hname Hfa), Hfind.
  cbn [fmap option_fmap option_map fst].
  apply find_some in Hfind as [Hin _]. apply list_elem_of_In in Hin.
  destruct (lseg_lookup _ _ _ _ _ _ Ha0 Hin) as (sd & Hsd & Hdd).
  rewrite Hsd.
  change (keeps_incumbent sd set) with (keeps_incumbent (erase_next sd) set).
  rewrite Hdd, Hkeep.
  unfold set_next. subst st0. cbn [heap with_heap duplicate_sets]. rewrite lookup_insert_eq.
  eexists. split; [done|]. split; [|done].
  split; cbn [heap available_sets duplicate_sets with_heap with_duplicate_sets].
  - apply (lseg_ext (<[pset:=set]> (heap st))); [|done].
    intros a Ha. apply lookup_insert_ne. by intros <-.
  - cbn [lseg fst snd]. split; [done|]. eexists.
    split; [apply lookup_insert_eq|]. split.
    + rewrite erase_next_with_next. by apply erase_next_id.
    + cbn [next with_next]. apply (lseg_ext (<[pset:=set]> (heap st))); [|done].
      intros a Ha. apply lookup_insert_ne. by intros <-.
  - cbn [fmap list_fmap fst].
    assert (Hp : La.*1 ++ pset :: Ld.*1 ≡ₚ pset :: La.*1 ++ Ld.*1) by solve_Permutation.
    rewrite Hp. apply list.NoDup_cons. split; [|done].
    rewrite elem_of_app. tauto.
  - done.
Qed.

(** Step 4, second case: the new set takes the place of the incumbent in
    the chain, the incumbent goes to the head of the duplicates, and
    [used_set] follows when it was the incumbent. *)
Lemma AddFile_replaces st L1 L2 Ld ini filename basepath_length set d dd :
  registry st (L1 ++ (d, dd) :: L2) Ld ->
  Fill ini (set_path PATHSEPCHAR filename basepath_length) filename
    allow_empty_default = Some (true, set) ->
  find (fun e => collides set e.2) (L1 ++ (d, dd) :: L2) = Some (d, dd) ->
  keeps_incumbent dd set = false ->
  exists st',
    Add st ini filename basepath_length = Some (true, st')
    /\ registry st' (L1 ++ (fresh (dom (heap st)), set) :: L2) ((d, dd) :: Ld)
    /\ used_set st'
       = if bool_decide (used_set st = Some d)
         then Some (fresh (dom (heap st))) else used_set st.
Proof.
  intros Hreg Hfill Hfind Hkeep.
  destruct (FillSetDetails_shape _ _ _ _ _ _ Hfill) as [Hnext Hname].
  specialize (Hname eq_refl).
  destruct (registry_alloc st _ Ld set Hreg) as (Hpa & Hpd & Hreg0).
  destruct (registry_fuel _ _ _ Hreg0) as [Hfa _].
  unfold AddFile. rewrite Hfill.
  set (pset := fresh (dom (heap st))) in *.
  set (st0 := with_heap st (<[pset := set]> (heap st))) in *.
  destruct Hreg0 as [Ha0 Hd0 Hnd Hn].
  rewrite (find_duplicate_chain _ _ _ _ _ Ha0 Hn Hname Hfa), Hfind.
  cbn [fmap option_fmap option_map fst].
  (* what the addresses are not *)
  rewrite fmap_app in Hnd, Hpa. cbn [fmap list_fmap fst] in Hnd, Hpa.
  apply list.NoDup_app in Hnd as (Hnda & Hdisj & Hndd).
  apply list.NoDup_app in Hnda as (Hnd1 & Hdisj1 & Hnd2).
  apply list.NoDup_cons in Hnd2 as [Hd2 Hnd2].
  apply not_elem_of_app in Hpa as [Hp1 Hp2].
  apply not_elem_of_cons in Hp2 as [Hpd' Hp2].
  assert (Hd1 : d ∉ L1.*1).
  { intros Hin. apply (Hdisj1 d Hin). apply elem_of_cons. by left. }
  assert (Hdd : d ∉ Ld.*1).
  { apply Hdisj. apply elem_of_app. right. apply elem_of_cons. by left. }
  assert (H12 : forall a, a ∈ L1.*1 -> a ∉ L2.*1).
  { intros a Hin Hin2. apply (Hdisj1 a Hin). apply elem_of_cons. by right. }
  assert (H1d : forall a, a ∈ L1.*1 -> a ∉ Ld.*1).
  { intros a Hin. apply Hdisj. apply elem_of_app. by left. }
  assert (H2d : forall a, a ∈ L2.*1 -> a ∉ Ld.*1).
  { intros a Hin. apply Hdisj. apply elem_of_app. right. apply elem_of_cons. by right. }
  (* the chain of the available sets, in three parts *)
  pose proof Ha0 as Ha0'.
  apply lseg_app in Ha0' as (m & Hseg1 & Hm & sd & Hsd & Hsdd & Hseg2).
  cbn [fst snd] in Hm, Hsd, Hsdd. subst m.
  rewrite Hsd.
  change (keeps_incumbent sd set) with (keeps_incumbent (erase_next sd) set).
  rewrite Hsdd, Hkeep.
  rewrite (find_prev_chain st0 d dd L2 None L1 _ AvailableSets _ eq_refl Ha0 Hd1)
    by (rewrite length_app in Hfa; lia).
  destruct (store_at_end st0 L1 (Some d) (Some pset) Hseg1 Hnd1)
    as (st1 & -> & Hseg1' & Hframe & Hu1 & Hdup1).
  rewrite (Hframe d Hd1), Hsd.
  unfold set_next at 1. rewrite (Hframe pset Hp1).
  subst st0. cbn [heap with_heap] in *. rewrite lookup_insert_eq.
  cbn [used_set with_heap heap duplicate_sets].
  set (h2 := <[pset := with_next set (next sd)]> (heap st1)).
  assert (Hd2' : h2 !! d = Some sd).
  { unfold h2. rewrite lookup_insert_ne by done. by rewrite (Hframe d Hd1). }
  assert (Hstep : forall u,
    set_next (mkBaseMedia h2 u (available_sets st1) (duplicate_sets st1)) d
      (duplicate_sets st1)
    = Some (mkBaseMedia (<[d := with_next sd (duplicate_sets st1)]> h2) u
              (available_sets st1) (duplicate_sets st1))).
  { intros u. unfold set_next. cbn [heap]. by rewrite Hd2'. }
  assert (Hfinal : forall u,
    registry (with_duplicate_sets
                (mkBaseMedia (<[d := with_next sd (duplicate_sets st1)]> h2) u
                   (available_sets st1) (duplicate_sets st1)) (Some d))
      (L1 ++ (pset, set) :: L2) ((d, dd) :: Ld)).
  { intros u.
    split; cbn [heap available_sets duplicate_sets with_duplicate_sets].
    - apply lseg_app. exists (Some pset). split.
      + apply (lseg_ext (heap st1)); [|done]. intros a Hin.
        rewrite lookup_insert_ne by (intros <-; by apply Hd1).
        unfold h2. apply lookup_insert_ne. intros <-. by apply Hp1.
      + cbn [lseg fst snd]. split; [done|]. exists (with_next set (next sd)).
        split; [|split].
        * rewrite lookup_insert_ne by done. unfold h2. apply lookup_insert_eq.
        * rewrite erase_next_with_next. by apply erase_next_id.
        * cbn [next with_next].
          apply (lseg_ext (<[pset:=set]> (heap st))); [|done]. intros a Hin.
          rewrite lookup_insert_ne by (intros <-; by apply Hd2).
          unfold h2. rewrite lookup_insert_ne by (intros <-; by apply Hp2).
          apply Hframe. intros Hin1. by apply (H12 a).
    - cbn [lseg fst snd]. split; [done|]. exists (with_next sd (duplicate_sets st1)).
      split; [apply lookup_insert_eq|]. split; [by rewrite erase_next_with_next|].
      cbn [next with_next]. rewrite Hdup1.
      apply (lseg_ext (<[pset:=set]> (heap st))); [|done]. intros a Hin.
      rewrite lookup_insert_ne by (intros <-; by apply Hdd).
      unfold h2. rewrite lookup_insert_ne by (intros <-; by apply Hpd).
      apply Hframe. intros Hin1. by apply (H1d a).
    - rewrite fmap_app. cbn [fmap list_fmap fst].
      assert (Hp : (L1.*1 ++ pset :: L2.*1) ++ d :: Ld.*1
                   ≡ₚ pset :: (L1.*1 ++ d :: L2.*1) ++ Ld.*1) by solve_Permutation.
      rewrite Hp. apply list.NoDup_cons. split.
      + rewrite !elem_of_app, elem_of_cons. intros [[? | [? | ?]] | ?]; done.
      + apply list.NoDup_app. split; [|split; [done|done]].
        apply list.NoDup_app. split; [done|]. split; [done|].
        by apply list.NoDup_cons.
    - apply Forall_app in Hn as [Hn1 Hn2]. inversion Hn2; subst.
      apply Forall_app. split; [done|]. by constructor. }
  rewrite Hu1. cbn [used_set with_heap].
  destruct (bool_decide (used_set st = Some d)).
  - unfold with_used_set. cbn [heap used_set available_sets duplicate_sets].
    rewrite Hstep. eexists. split; [done|]. split; [apply Hfinal | done].
  - unfold with_heap. rewrite Hu1. cbn [used_set]. rewrite Hstep.
    eexists. split; [done|]. split; [apply Hfinal | done].
Qed.

End AddFileOutcomes.

(** ** [AddFile]: the reconciliation *)

Section Reconciliation.

Variable Tnum_files : nat.
Variable file_names : nat -> string.
Variable CheckMD5 : MD5File -> ChecksumResult.
Variable atoi : string -> Z.
Variable PATHSEPCHAR : ascii.
Variable allow_empty_default : bool.
Variable DetermineBestSet : BaseMedia -> bool * BaseMedia.

Local Abbreviation Fill := (FillSetDetails Tnum_files file_names CheckMD5 atoi).
Local Abbreviation Add :=
  (AddFile Tnum_files file_names CheckMD5 atoi PATHSEPCHAR allow_empty_default).

Lemma keeps_incumbent_true dup set :
  keeps_incumbent dup set = true <->
  (valid_files dup = valid_files set /\ version dup >= version set)
  \/ valid_files dup > valid_files set.
Proof.
  unfold keeps_incumbent.
  rewrite orb_true_iff, andb_true_iff, Z.eqb_eq, Z.geb_le, Z.gtb_lt. lia.
Qed.

Lemma keeps_incumbent_same set : keeps_incumbent set set = true.
Proof. apply keeps_incumbent_true. left. lia. Qed.

Lemma collides_same set : collides set set = true.
Proof. unfold collides. by rewrite bool_decide_eq_true_2. Qed.

(** When the walk stops at a set, no set before it collides. *)
Lemma find_stops_at {A} (f : A -> bool) (L1 L2 : list A) x :
  find f (L1 ++ x :: L2) = Some x -> x ∉ L1 -> find f L1 = None /\ f x = true.
Proof.
  induction L1 as [|y L1 IH]; cbn [find app].
  - intros H _. split; [done|]. destruct (f x) eqn:E; [done|].
    apply find_some in H as [_ H]. congruence.
  - intros H Hx. apply not_elem_of_cons in Hx as [Hne Hx].
    destruct (f y); [congruence|]. by apply IH.
Qed.

Lemma find_at {A} (f : A -> bool) (L1 L2 : list A) x :
  find f L1 = None -> f x = true -> find f (L1 ++ x :: L2) = Some x.
Proof.
  induction L1 as [|y L1 IH]; cbn [find app].
  - by intros _ ->.
  - destruct (f y); [done | apply IH].
Qed.

Lemma registry_entry_once st L1 L2 Ld e :
  registry st (L1 ++ e :: L2) Ld -> e ∉ L1.
Proof.
  intros [_ _ Hnd _]. rewrite fmap_app in Hnd.
  apply list.NoDup_app in Hnd as (Hnd & _ & _).
  apply list.NoDup_app in Hnd as (_ & Hdisj & _).
  intros Hin. apply (Hdisj e.1).
  - apply list_elem_of_fmap. by exists e.
  - cbn. apply elem_of_cons. by left.
Qed.

(** A manifest that does not load leaves the registry as it was. *)
Lemma AddFile_discards st ini filename basepath_length s :
  Fill ini (set_path PATHSEPCHAR filename basepath_length) filename
    allow_empty_default = Some (false, s) ->
  Add st ini filename basepath_length = Some (false, st).
Proof.
  intros Hfill. unfold AddFile. rewrite Hfill. cbn [heap with_heap].
  rewrite delete_insert_id by apply not_elem_of_dom, is_fresh.
  by destruct st.
Qed.

(** Every outcome of [AddFile] leaves the two chains in order. *)
Lemma AddFile_outcomes st La Ld ini filename basepath_length r st' :
  registry st La Ld ->
  Add st ini filename basepath_length = Some (r, st') ->
  (r = false /\ st' = st)
  \/ (exists set,
        Fill ini (set_path PATHSEPCHAR filename basepath_length) filename
          allow_empty_default = Some (true, set)
        /\ ((r = true /\ find (fun e => collides set e.2) La = None
             /\ registry st' (La ++ [(fresh (dom (heap st)), set)]) Ld
             /\ used_set st' = used_set st)
            \/ (r = false
                /\ (exists e, find (fun e => collides set e.2) La = Some e
                              /\ keeps_incumbent e.2 set = true)
                /\ registry st' La ((fresh (dom (heap st)), set) :: Ld)
                /\ used_set st' = used_set st)
            \/ (r = true
                /\ exists L1 d dd L2,
                     La = L1 ++ (d, dd) :: L2
                     /\ find (fun e => collides set e.2) L1 = None
                     /\ collides set dd = true
                     /\ keeps_incumbent dd set = false
                     /\ registry st' (L1 ++ (fresh (dom (heap st)), set) :: L2)
                          ((d, dd) :: Ld)
                     /\ used_set st'
                        = if bool_decide (used_set st = Some d)
                          then Some (fresh (dom (heap st))) else used_set st))).
Proof.
  intros Hreg Hadd.
  destruct (Fill ini (set_path PATHSEPCHAR filename basepath_length) filename
              allow_empty_default) as [[[|] set]|] eqn:Hfill.
  - right. exists set. split; [done|].
    destruct (find (fun e => collides set e.2) La) as [[d dd]|] eqn:Hfind.
    + destruct (keeps_incumbent dd set) eqn:Hkeep.
      * right. left.
        destruct (AddFile_supersedes_new Tnum_files file_names CheckMD5 atoi PATHSEPCHAR
                    allow_empty_default st La Ld ini filename
                    basepath_length set d dd Hreg Hfill Hfind Hkeep) as (st2 & Hadd2 & Hreg2 & Hu2).
        rewrite Hadd2 in Hadd. injection Hadd as <- <-.
        split; [done|]. split; [by exists (d, dd)|]. done.
      * right. right.
        pose proof Hfind as Hin. apply find_some in Hin as [Hin _].
        apply list_elem_of_In, list_elem_of_split in Hin as (L1 & L2 & ->).
        destruct (AddFile_replaces Tnum_files file_names CheckMD5 atoi PATHSEPCHAR
                    allow_empty_default st L1 L2 Ld ini filename
                    basepath_length set d dd Hreg Hfill Hfind Hkeep) as (st2 & Hadd2 & Hreg2 & Hu2).
        rewrite Hadd2 in Hadd. injection Hadd as <- <-.
        split; [done|]. exists L1, d, dd, L2.
        destruct (find_stops_at _ _ _ _ Hfind (registry_entry_once _ _ _ _ _ Hreg))
          as [Hnone Hcol].
        by split_and!.
    + left.
      destruct (AddFile_appends Tnum_files file_names CheckMD5 atoi PATHSEPCHAR
                    allow_empty_default st La Ld ini filename
                  basepath_length set Hreg Hfill Hfind) as (st2 & Hadd2 & Hreg2 & Hu2).
      rewrite Hadd2 in Hadd. injection Hadd as <- <-. by split_and!.
  - left. rewrite (AddFile_discards _ _ _ _ _ Hfill) in Hadd.
    by injection Hadd as <- <-.
  - unfold AddFile in Hadd. by rewrite Hfill in Hadd.
Qed.

(** When no null value reaches [xstrdup] or [strcmp], [AddFile] returns on
    every registry in order. *)
Lemma AddFile_returns st La Ld ini filename basepath_length :
  registry st La Ld -> fallback_defined ini -> texts_defined ini ->
  is_Some (Add st ini filename basepath_length).
Proof.
  intros Hreg Hd Ht.
  pose proof (FillSetDetails_fst Tnum_files file_names CheckMD5 atoi ini
                (set_path PATHSEPCHAR filename basepath_length) filename
                allow_empty_default Hd Ht) as Hf.
  destruct (Fill ini (set_path PATHSEPCHAR filename basepath_length) filename
              allow_empty_default) as [[[|] set]|] eqn:Hfill; [| |done].
  - destruct (find (fun e => collides set e.2) La) as [[d dd]|] eqn:Hfind.
    + destruct (keeps_incumbent dd set) eqn:Hkeep.
      * destruct (AddFile_supersedes_new Tnum_files file_names CheckMD5 atoi PATHSEPCHAR
                    allow_empty_default st La Ld ini filename
                    basepath_length set d dd Hreg Hfill Hfind Hkeep) as (st2 & -> & _). by eexists.
      * pose proof Hfind as Hin. apply find_some in Hin as [Hin _].
        apply list_elem_of_In, list_elem_of_split in Hin as (L1 & L2 & ->).
        destruct (AddFile_replaces Tnum_files file_names CheckMD5 atoi PATHSEPCHAR
                    allow_empty_default st L1 L2 Ld ini filename
                    basepath_length set d dd Hreg Hfill Hfind Hkeep) as (st2 & -> & _). by eexists.
    + destruct (AddFile_appends Tnum_files file_names CheckMD5 atoi PATHSEPCHAR
                    allow_empty_default st La Ld ini filename
                  basepath_length set Hreg Hfill Hfind) as (st2 & -> & _). by eexists.
  - rewrite (AddFile_discards _ _ _ _ _ Hfill). by eexists.
Qed.

Lemma AddFile_used_linked st La Ld ini filename basepath_length r st' :
  registry st La Ld -> used_linked st La ->
  Add st ini filename basepath_length = Some (r, st') ->
  exists La' Ld', registry st' La' Ld' /\ used_linked st' La'.
Proof.
  intros Hreg Hused Hadd.
  destruct (AddFile_outcomes _ _ _ _ _ _ _ _ Hreg Hadd)
    as [[_ ->] | (set & _ & [H | [H | H]])].
  - by exists La, Ld.
  - destruct H as (_ & _ & Hreg' & Hu'). eexists _, _. split; [done|].
    unfold used_linked. rewrite Hu'. destruct Hused as [? | (a & ? & Hin)]; [by left|].
    right. exists a. split; [done|]. rewrite fmap_app. apply elem_of_app. by left.
  - destruct H as (_ & _ & Hreg' & Hu'). eexists _, _. split; [done|].
    unfold used_linked. by rewrite Hu'.
  - destruct H as (_ & L1 & d & dd & L2 & -> & _ & _ & _ & Hreg' & Hu').
    eexists _, _. split; [done|]. unfold used_linked. rewrite Hu'.
    case_bool_decide as Hd.
    + right. eexists. split; [done|]. rewrite fmap_app. apply elem_of_app. right.
      cbn. apply elem_of_cons. by left.
    + destruct Hused as [? | (a & Ha & Hin)]; [by left|].
      right. exists a. split; [done|].
      rewrite fmap_app in Hin |- *. cbn [fmap list_fmap fst] in Hin |- *.
      rewrite elem_of_app, elem_of_cons in Hin |- *.
      destruct Hin as [? | [-> | ?]]; [by left | congruence | right; by right].
Qed.

(** Selecting a set by name keeps the chains and links [used_set]. *)
Lemma SetSet_used_linked st La Ld nm r st' :
  registry st La Ld -> used_linked st La -> StrEmpty (Some nm) = false ->
  SetSet DetermineBestSet st (Some nm) = Some (r, st') ->
  registry st' La Ld /\ used_linked st' La.
Proof.
  intros Hreg Hused Hne. destruct (registry_fuel _ _ _ Hreg) as [Hfa _].
  pose proof Hreg as [Ha Hd Hnd Hnamed].
  unfold SetSet. rewrite Hne.
  rewrite (SetSet_loop_chain _ _ _ _ _ Ha Hnamed Hfa).
  destruct (find _ La) as [e|] eqn:Hfind; intros [= <- <-]; [|done].
  split; [by split|].
  right. exists e.1. split; [done|].
  apply find_some in Hfind as [Hin _]. apply list_elem_of_In in Hin.
  apply list_elem_of_fmap. by exists e.
Qed.

(** Every registry that the calls lead to from the empty one has its two
    chains in order and a [used_set] that is null or linked. *)
Lemma reachable_registry st :
  reachable Tnum_files file_names CheckMD5 atoi PATHSEPCHAR allow_empty_default
    DetermineBestSet st ->
  exists La Ld, registry st La Ld /\ used_linked st La.
Proof.
  induction 1 as [| st ini filename basepath_length r st' _ IH Hadd
                  | st nm r st' _ IH Hne Hset].
  - exists [], []. split; [|by left].
    split; [reflexivity | reflexivity | constructor | constructor].
  - destruct IH as (La & Ld & Hreg & Hused). by eapply AddFile_used_linked.
  - destruct IH as (La & Ld & Hreg & Hused). exists La, Ld.
    by eapply SetSet_used_linked.
Qed.

(** C1.  On a registry in order and a manifest that loads as [set]: when
    [set] collides with the available set [D], [AddFile] returns [false]
    exactly when [D] has as many valid files as [set] and a version not
    below it, or more valid files; the available sets are then as they
    were, [set] is the head of the duplicates and [used_set] is untouched;
    in the other case [set] stands where [D] stood.  And when the same
    manifest is added once more after any outcome, that second call
    returns [false], leaves the available sets as the first call left them
    and puts the second copy at the head of the duplicates. *)
Theorem AddFile_keeps_incumbent_iff
    (st : BaseMedia) (La Ld : list (addr * BaseSet)) (ini : IniFile)
    (filename : string) (basepath_length : nat) (set : BaseSet) :
  registry st La Ld ->
  Fill ini (set_path PATHSEPCHAR filename basepath_length) filename
    allow_empty_default = Some (true, set) ->
  (forall d dd,
     find (fun e => collides set e.2) La = Some (d, dd) ->
     exists ret st',
       Add st ini filename basepath_length = Some (ret, st')
       /\ (ret = false <->
           (valid_files set = valid_files dd /\ version dd >= version set)
           \/ valid_files dd > valid_files set)
       /\ (ret = false ->
           registry st' La ((fresh (dom (heap st)), set) :: Ld)
           /\ used_set st' = used_set st)
       /\ (ret = true ->
           exists L1 L2,
             La = L1 ++ (d, dd) :: L2
             /\ registry st' (L1 ++ (fresh (dom (heap st)), set) :: L2)
                  ((d, dd) :: Ld)))
  /\ (forall r1 st1,
        Add st ini filename basepath_length = Some (r1, st1) ->
        exists La1 Ld1 st2,
          registry st1 La1 Ld1
          /\ Add st1 ini filename basepath_length = Some (false, st2)
          /\ registry st2 La1 ((fresh (dom (heap st1)), set) :: Ld1)).
Proof.
  intros Hreg Hfill. split.
  - intros d dd Hfind.
    destruct (keeps_incumbent dd set) eqn:Hkeep.
    + destruct (AddFile_supersedes_new Tnum_files file_names CheckMD5 atoi PATHSEPCHAR
                  allow_empty_default st La Ld ini filename basepath_length set d dd
                  Hreg Hfill Hfind Hkeep) as (st' & Hadd & Hreg' & Hu').
      exists false, st'. split; [done|]. split; [|split; [done | done]].
      split; [intros _ | done].
      apply keeps_incumbent_true in Hkeep. lia.
    + pose proof Hfind as Hin. apply find_some in Hin as [Hin _].
      apply list_elem_of_In, list_elem_of_split in Hin as (L1 & L2 & ->).
      destruct (AddFile_replaces Tnum_files file_names CheckMD5 atoi PATHSEPCHAR
                  allow_empty_default st L1 L2 Ld ini filename basepath_length set d dd
                  Hreg Hfill Hfind Hkeep) as (st' & Hadd & Hreg' & Hu').
      exists true, st'. split; [done|]. split; [|split; [done|]].
      * split; [done|]. intros Hc.
        assert (Hk : keeps_incumbent dd set = true)
          by (apply keeps_incumbent_true; lia).
        congruence.
      * intros _. by exists L1, L2.
  - intros r1 st1 Hadd.
    destruct (find (fun e => collides set e.2) La) as [[d dd]|] eqn:Hfind.
    + destruct (keeps_incumbent dd set) eqn:Hkeep.
      * destruct (AddFile_supersedes_new Tnum_files file_names CheckMD5 atoi PATHSEPCHAR
                    allow_empty_default st La Ld ini filename basepath_length set d dd
                    Hreg Hfill Hfind Hkeep) as (st' & Hadd' & Hreg' & _).
        rewrite Hadd' in Hadd. injection Hadd as <- <-.
        destruct (AddFile_supersedes_new Tnum_files file_names CheckMD5 atoi PATHSEPCHAR
                    allow_empty_default st' La _ ini filename basepath_length set d dd
                    Hreg' Hfill Hfind Hkeep) as (st2 & Hadd2 & Hreg2 & _).
        by eexists _, _, st2.
      * pose proof Hfind as Hin. apply find_some in Hin as [Hin _].
        apply list_elem_of_In, list_elem_of_split in Hin as (L1 & L2 & ->).
        destruct (find_stops_at _ _ _ _ Hfind (registry_entry_once _ _ _ _ _ Hreg))
          as [Hnone _].
        destruct (AddFile_replaces Tnum_files file_names CheckMD5 atoi PATHSEPCHAR
                    allow_empty_default st L1 L2 Ld ini filename basepath_length set d dd
                    Hreg Hfill Hfind Hkeep) as (st' & Hadd' & Hreg' & _).
        rewrite Hadd' in Hadd. injection Hadd as <- <-.
        destruct (AddFile_supersedes_new Tnum_files file_names CheckMD5 atoi PATHSEPCHAR
                    allow_empty_default st' _ _ ini filename basepath_length set _ set
                    Hreg' Hfill
                    (find_at (fun e => collides set e.2) L1 L2
                       (fresh (dom (heap st)), set) Hnone (collides_same set))
                    (keeps_incumbent_same set)) as (st2 & Hadd2 & Hreg2 & _).
        by eexists _, _, st2.
    + destruct (AddFile_appends Tnum_files file_names CheckMD5 atoi PATHSEPCHAR
                  allow_empty_default st La Ld ini filename basepath_length set
                  Hreg Hfill Hfind) as (st' & Hadd' & Hreg' & _).
      rewrite Hadd' in Hadd. injection Hadd as <- <-.
      destruct (AddFile_supersedes_new Tnum_files file_names CheckMD5 atoi PATHSEPCHAR
                  allow_empty_default st' _ _ ini filename basepath_length set _ set
                  Hreg' Hfill
                  (find_at (fun e => collides set e.2) La []
                     (fresh (dom (heap st)), set) Hfind (collides_same set))
                  (keeps_incumbent_same set)) as (st2 & Hadd2 & Hreg2 & _).
      by eexists _, _, st2.
Qed.

(** C2.  On a registry in order whose [used_set] is null or linked: when
    the new set wins against the available set [D], it stands in the chain
    where [D] stood, between the same sets in the same order, [D] is the
    head of the duplicates, and [used_set] points to the new set if it
    pointed to [D] and is as before otherwise.  After every call that
    returns, the two chains are in order and [used_set] is null or points
    to an available set; the call returns whenever no null value reaches
    [strcmp] (line 92) or [xstrdup] (lines 78 and 151): the [fallback]
    item, the items [description.] with a language and the items of the
    [origin] group have values. *)
Theorem AddFile_replaces_in_place
    (st : BaseMedia) (La Ld : list (addr * BaseSet)) (ini : IniFile)
    (filename : string) (basepath_length : nat) :
  registry st La Ld -> used_linked st La ->
  (forall set L1 d dd L2,
     Fill ini (set_path PATHSEPCHAR filename basepath_length) filename
       allow_empty_default = Some (true, set) ->
     La = L1 ++ (d, dd) :: L2 ->
     find (fun e => collides set e.2) La = Some (d, dd) ->
     keeps_incumbent dd set = false ->
     exists st',
       Add st ini filename basepath_length = Some (true, st')
       /\ registry st' (L1 ++ (fresh (dom (heap st)), set) :: L2) ((d, dd) :: Ld)
       /\ used_set st'
          = (if bool_decide (used_set st = Some d)
             then Some (fresh (dom (heap st))) else used_set st)
       /\ used_linked st' (L1 ++ (fresh (dom (heap st)), set) :: L2))
  /\ (forall r st',
        Add st ini filename basepath_length = Some (r, st') ->
        exists La' Ld', registry st' La' Ld' /\ used_linked st' La')
  /\ (fallback_defined ini -> texts_defined ini ->
      is_Some (Add st ini filename basepath_length)).
Proof.
  intros Hreg Hused. split; [|split].
  - intros set L1 d dd L2 Hfill -> Hfind Hkeep.
    destruct (AddFile_replaces Tnum_files file_names CheckMD5 atoi PATHSEPCHAR
                allow_empty_default st L1 L2 Ld ini filename basepath_length set d dd
                Hreg Hfill Hfind Hkeep) as (st' & Hadd & Hreg' & Hu').
    exists st'. split; [done|]. split; [done|]. split; [done|].
    unfold used_linked. rewrite Hu'. case_bool_decide as Hd.
    + right. eexists. split; [done|]. rewrite fmap_app. apply elem_of_app. right.
      cbn. apply elem_of_cons. by left.
    + destruct Hused as [? | (a & Ha & Hin)]; [by left|].
      right. exists a. split; [done|].
      rewrite fmap_app in Hin |- *. cbn [fmap list_fmap fst] in Hin |- *.
      rewrite elem_of_app, elem_of_cons in Hin |- *.
      destruct Hin as [? | [-> | ?]]; [by left | congruence | right; by right].
  - intros r st' Hadd. by eapply AddFile_used_linked.
  - by eapply AddFile_returns.
Qed.

(** C7.  On every registry, a manifest without [shortname] in its
    metadata whose items [description.] with a language have values (line
    78 comes before the test of [shortname]), and any manifest with a hard
    failure in which no null value reaches [xstrdup] or [strcmp], makes
    [AddFile] return [false] with the registry, heap, [used_set] and both
    chains, exactly as it was. *)
Theorem AddFile_rejects_malformed
    (st : BaseMedia) (ini : IniFile) (filename : string) (basepath_length : nat) :
  (lacks_shortname ini /\ translations_defined ini)
  \/ (fallback_defined ini /\ texts_defined ini
      /\ no_hard_failure Tnum_files file_names ini allow_empty_default = false) ->
  Add st ini filename basepath_length = Some (false, st)
  /\ forall st',
       Add st ini filename basepath_length = Some (false, st') ->
       heap st' = heap st /\ used_set st' = used_set st
       /\ available_sets st' = available_sets st
       /\ duplicate_sets st' = duplicate_sets st.
Proof.
  intros H.
  assert (Hadd : Add st ini filename basepath_length = Some (false, st));
    [|split; [exact Hadd | intros st' Hadd'; rewrite Hadd in Hadd';
                           by injection Hadd' as <-]].
  destruct H as [[Hl Htr] | (Hd & Ht & Hf)].
  - destruct (FillSetDetails_lacks_shortname Tnum_files file_names CheckMD5 atoi ini
                (set_path PATHSEPCHAR filename basepath_length) filename
                allow_empty_default Hl Htr) as [s Hs].
    by eapply AddFile_discards.
  - pose proof (FillSetDetails_fst Tnum_files file_names CheckMD5 atoi ini
                  (set_path PATHSEPCHAR filename basepath_length) filename
                  allow_empty_default Hd Ht) as Hfst.
    rewrite Hf in Hfst.
    destruct (Fill ini (set_path PATHSEPCHAR filename basepath_length) filename
                allow_empty_default) as [[b s]|] eqn:Hfill; [|done].
    injection Hfst as ->. by eapply AddFile_discards.
Qed.

End Reconciliation.

(** ** The sample registries *)

(** Solves a chain, and what comes with it, on a registry that is
    given in full. *)
Ltac by_computation :=
  vm_compute; repeat first [ reflexivity | split | eexists ].

(** Decides a statement on addresses that are given. *)
Ltac by_decision := apply (bool_decide_unpack _); vm_compute; exact I.

Lemma sample_registry_empty : registry empty_media [] [].
Proof. split; [reflexivity | reflexivity | constructor | constructor]. Defined.

Lemma sample_registry_AB :
  registry Sample.st_AB [(1%positive, Sample.set_A); (2%positive, Sample.set_B_missing)] [].
Proof.
  split.
  - by_computation.
  - by_computation.
  - change (NoDup [1%positive; 2%positive]). by_decision.
  - vm_compute. repeat constructor; discriminate.
Defined.

Lemma sample_registry_AB_used :
  registry Sample.st_AB_used
    [(1%positive, Sample.set_A); (2%positive, Sample.set_B_missing)] [].
Proof.
  split.
  - by_computation.
  - by_computation.
  - change (NoDup [1%positive; 2%positive]). by_decision.
  - vm_compute. repeat constructor; discriminate.
Defined.

Lemma sample_registry_win :
  registry Sample.st_win
    [(1%positive, Sample.set_A); (3%positive, Sample.set_B)]
    [(2%positive, Sample.set_B_missing)].
Proof.
  split.
  - by_computation.
  - by_computation.
  - change (NoDup [1%positive; 3%positive; 2%positive]). by_decision.
  - vm_compute. repeat constructor; discriminate.
Defined.

Lemma sample_used_linked :
  used_linked Sample.st_AB_used
    [(1%positive, Sample.set_A); (2%positive, Sample.set_B_missing)].
Proof.
  right. exists 2%positive. split; [reflexivity|].
  change (2%positive ∈ [1%positive; 2%positive]). by_decision.
Defined.

(** The round trip of the specification: [A] is added to the empty
    registry and added again; the second copy is superseded and the
    available sets stay as they are. *)
Lemma AddFile_keeps_incumbent_iff_witness :
  exists st1 st2 La1 Ld1,
    Sample.add empty_media (Sample.manifest "A" "AAAA" "3") "a.obg" 0 = Some (true, st1)
    /\ registry st1 La1 Ld1
    /\ Sample.add st1 (Sample.manifest "A" "AAAA" "3") "a.obg" 0 = Some (false, st2)
    /\ registry st2 La1 ((fresh (dom (heap st1)), Sample.set_A) :: Ld1).
Proof.
  destruct (AddFile_keeps_incumbent_iff Sample.Tnum_files Sample.file_names
              Sample.CheckMD5 Sample.atoi Sample.PATHSEPCHAR true
              empty_media [] [] (Sample.manifest "A" "AAAA" "3") "a.obg" 0
              Sample.set_A sample_registry_empty) as [_ Htwice].
  { vm_compute. reflexivity. }
  destruct (Htwice true Sample.st_A) as (La1 & Ld1 & st2 & H1 & H2 & H3).
  { vm_compute. reflexivity. }
  exists Sample.st_A, st2, La1, Ld1. split; [vm_compute; reflexivity|].
  split; [exact H1|]. split; [exact H2 | exact H3].
Defined.

(** The complete [B] wins against the [B] with a missing file that is in
    use: it stands second as that one did, and is in use. *)
Lemma AddFile_replaces_in_place_witness :
  exists st',
    Sample.add Sample.st_AB_used (Sample.manifest "B" "BBBB" "1") "b.obg" 0
      = Some (true, st')
    /\ registry st'
         ([(1%positive, Sample.set_A)]
          ++ (fresh (dom (heap Sample.st_AB_used)), Sample.set_B) :: [])
         [(2%positive, Sample.set_B_missing)]
    /\ used_set st' = Some 3%positive
    /\ used_linked st'
         ([(1%positive, Sample.set_A)]
          ++ (fresh (dom (heap Sample.st_AB_used)), Sample.set_B) :: []).
Proof.
  destruct (AddFile_replaces_in_place Sample.Tnum_files Sample.file_names
              Sample.CheckMD5 Sample.atoi Sample.PATHSEPCHAR true
              Sample.st_AB_used _ _ (Sample.manifest "B" "BBBB" "1") "b.obg" 0
              sample_registry_AB_used sample_used_linked) as [Hwin _].
  destruct (Hwin Sample.set_B [(1%positive, Sample.set_A)] 2%positive
              Sample.set_B_missing []) as (st' & H1 & H2 & H3 & H4).
  - vm_compute. reflexivity.
  - reflexivity.
  - vm_compute. reflexivity.
  - vm_compute. reflexivity.
  - exists st'. split; [exact H1|]. split; [exact H2|]. split; [|exact H4].
    rewrite H3. vm_compute. reflexivity.
Defined.

Lemma sample_lacks_shortname : lacks_shortname Sample.manifest_no_shortname.
Proof.
  intros metadata Hm. vm_compute in Hm. injection Hm as <-. vm_compute. reflexivity.
Defined.

(** The manifest without [shortname] leaves the registry of [A] and [B]
    as it is. *)
Lemma sample_no_shortname_translations :
  translations_defined Sample.manifest_no_shortname.
Proof.
  intros metadata item lang Hm Hin _. injection Hm as <-.
  cbn [items] in Hin. all_items_valued Hin.
Defined.

Lemma AddFile_rejects_malformed_witness :
  Sample.add Sample.st_AB Sample.manifest_no_shortname "orphan.obg" 0
  = Some (false, Sample.st_AB).
Proof.
  apply (AddFile_rejects_malformed Sample.Tnum_files Sample.file_names
           Sample.CheckMD5 Sample.atoi Sample.PATHSEPCHAR true
           Sample.st_AB Sample.manifest_no_shortname "orphan.obg" 0).
  left. split; [apply sample_lacks_shortname | apply sample_no_shortname_translations].
Defined.

(** The query for [BBBB] with the digest of the complete [B] is answered
    with the first file of that set; the [B] with a missing file is not
    offered. *)
Lemma content_matcher_first_qualifying_witness :
  TryGetBaseSetFile Sample.Tnum_files (fuel_of Sample.st_win) (heap Sample.st_win)
    Sample.query_B true (available_sets Sample.st_win) = Some (Some "a.grf")
  /\ TryGetBaseSetFile Sample.Tnum_files (fuel_of Sample.st_win) (heap Sample.st_win)
       Sample.query_B true (duplicate_sets Sample.st_win) = Some None
  /\ HasSet Sample.Tnum_files Sample.st_win Sample.query_B true = Some true.
Proof.
  destruct (content_matcher_first_qualifying Sample.Tnum_files Sample.st_win _ _
              Sample.query_B true sample_registry_win) as (H1 & H2 & H3 & _).
  rewrite H1, H2, H3. vm_compute. repeat split; reflexivity.
Defined.

(** With [B] in use although a file of it is missing, two sets are shown
    and [B] is the second. *)
Lemma enumeration_counts_visible_sets_witness :
  GetNumSets Sample.Tnum_files Sample.st_AB_used = Some 2
  /\ GetIndexOfUsedSet Sample.Tnum_files Sample.st_AB_used = Some 1.
Proof.
  destruct (enumeration_counts_visible_sets Sample.Tnum_files Sample.st_AB_used _ _
              sample_registry_AB_used sample_used_linked)
    as (Hnum & n & Hidx & _ & Hrank).
  split; [rewrite Hnum; vm_compute; reflexivity|].
  rewrite Hidx. f_equal.
  apply (Hrank [(1%positive, Sample.set_A)] 2%positive Sample.set_B_missing []);
    reflexivity.
Defined.

(** Selecting [B] by name on the registry of [A] and [B]. *)
Lemma SetSet_selects_first_named_witness :
  exists st',
    SetSet Sample.DetermineBestSet Sample.st_AB (Some "B") = Some (true, st')
    /\ used_set st' = Some 2%positive
    /\ heap st' = heap Sample.st_AB.
Proof.
  destruct (SetSet_selects_first_named Sample.DetermineBestSet Sample.st_AB _ _ "B"
              sample_registry_AB eq_refl) as [Hfound _].
  destruct (Hfound (2%positive, Sample.set_B_missing)) as (st' & H1 & H2 & H3 & _).
  - vm_compute. reflexivity.
  - exists st'. split; [exact H1|]. split; [exact H2 | exact H3].
Defined.

(** * Further properties *)

(** ** [GetSet] *)

Section LookupProofs.

Variable Tnum_files : nat.

Implicit Types (L : list (addr * BaseSet)) (p q : ptr).

(** For an index that is not negative the walk returns the set of that
    rank among the sets shown, and ends in [error] when there are not so
    many. *)
Lemma GetSet_loop_chain st L : forall fuel p index,
  lseg (heap st) p L None -> (length L < fuel)%nat -> 0 <= index ->
  GetSet_loop Tnum_files fuel st p index
  = Some match List.filter (visible Tnum_files (used_set st)) L !! Z.to_nat index with
         | Some e => GS_set e.1
         | None => GS_error
         end.
Proof.
  induction L as [|e L IH]; intros [|fuel] p index; cbn [lseg length]; try lia.
  - by intros -> _ _.
  - intros (-> & s & Hs & He & Ht) Hf Hi. cbn [GetSet_loop]. rewrite Hs.
    cbn [List.filter]. unfold visible at 1. rewrite <- He.
    change (GetNumMissing Tnum_files (erase_next s)) with (GetNumMissing Tnum_files s).
    rewrite (bool_decide_ext (Some e.1 = used_set st) (used_set st = Some e.1))
      by (split; congruence).
    destruct (bool_decide (used_set st = Some e.1) || (GetNumMissing Tnum_files s =? 0))
      eqn:Hvis.
    + replace (negb (bool_decide (used_set st = Some e.1))
               && negb (GetNumMissing Tnum_files s =? 0)) with false
        by (destruct (bool_decide _), (_ =? 0); done).
      destruct (index =? 0) eqn:H0.
      * apply Z.eqb_eq in H0. by subst index.
      * apply Z.eqb_neq in H0.
        rewrite (proj2 (Z.eqb_neq index INT_MIN)) by (unfold INT_MIN; lia).
        rewrite (IH fuel) by (done || lia).
        replace (Z.to_nat index) with (S (Z.to_nat (index - 1))) by lia. done.
    + replace (negb (bool_decide (used_set st = Some e.1))
               && negb (GetNumMissing Tnum_files s =? 0)) with true
        by (destruct (bool_decide _), (_ =? 0); done).
      by apply IH; [|lia|].
Qed.

Lemma filter_length_lookup {A} (f : A -> bool) (l : list A) (i : nat) :
  is_Some (List.filter f l !! i) <-> (i < length (List.filter f l))%nat.
Proof. apply lookup_lt_is_Some. Qed.

(** X1.  On a registry in order, [GetSet] with an index from [0] up to
    [GetNumSets () - 1] returns the set of that rank among the sets that
    the enumeration shows, in the order of the chain; with an index from
    [GetNumSets ()] on it ends in [error]. *)
Theorem GetSet_returns_ranked_set
    (st : BaseMedia) (La Ld : list (addr * BaseSet)) (index : Z) :
  registry st La Ld -> 0 <= index ->
  exists n,
    GetNumSets Tnum_files st = Some n
    /\ (index < n ->
        exists e,
          List.filter (visible Tnum_files (used_set st)) La !! Z.to_nat index = Some e
          /\ GetSet Tnum_files st index = Some (GS_set e.1))
    /\ (n <= index -> GetSet Tnum_files st index = Some GS_error).
Proof.
  intros Hreg Hi. destruct (registry_fuel _ _ _ Hreg) as [Hfa _].
  destruct Hreg as [Ha _ _ _].
  eexists. split; [apply (GetNumSets_loop_chain _ _ _ _ _ _ Ha Hfa)|].
  unfold GetSet. rewrite (GetSet_loop_chain _ _ _ _ _ Ha Hfa Hi).
  split.
  - intros Hlt.
    destruct (List.filter _ La !! Z.to_nat index) as [e|] eqn:He; [by exists e|].
    apply lookup_ge_None in He. lia.
  - intros Hge. rewrite (proj2 (lookup_ge_None _ _)); [done | lia].
Qed.

End LookupProofs.

(** ** [HasSet] *)

Section MatcherProofs.

Variable Tnum_files : nat.

Implicit Types (L : list (addr * BaseSet)).

Lemma first_match_exists ci md5 L :
  primary_named L ->
  bool_decide (first_match Tnum_files ci md5 L <> None)
  = existsb (fun e => qualifies Tnum_files ci md5 e.2) L.
Proof.
  unfold first_match. induction 1 as [|e L Hname _ IH]; cbn [find existsb].
  - by rewrite bool_decide_eq_false_2 by (by intros H).
  - destruct (qualifies Tnum_files ci md5 e.2); [|exact IH].
    by rewrite bool_decide_eq_true_2.
Qed.

Lemma memcmp16_eq_refl a : memcmp16_eq a a = true.
Proof. unfold memcmp16_eq. apply forallb_forall. intros j _. apply Z.eqb_refl. Qed.

Lemma qualifies_without_digest ci d :
  qualifies Tnum_files ci true d = true -> qualifies Tnum_files ci false d = true.
Proof.
  unfold qualifies. rewrite !andb_true_iff. intros [[H1 H2] _]. by repeat split.
Qed.

(** With a name for every first file, [HasSet] finds a set exactly when
    one of the two chains holds a set that passes the test. *)
Lemma HasSet_chains st La Ld ci md5 :
  registry st La Ld -> primary_named (La ++ Ld) ->
  HasSet Tnum_files st ci md5
  = Some (existsb (fun e => qualifies Tnum_files ci md5 e.2) (La ++ Ld)).
Proof.
  intros Hreg Hnamed. destruct (registry_fuel _ _ _ Hreg) as [Hfa Hfd].
  destruct Hreg as [Ha Hd _ _].
  apply Forall_app in Hnamed as [Hna Hnd].
  unfold HasSet.
  rewrite (TryGetBaseSetFile_chain Tnum_files ci md5 _ _ _ _ Ha Hfa).
  rewrite (TryGetBaseSetFile_chain Tnum_files ci md5 _ _ _ _ Hd Hfd).
  rewrite existsb_app, <- !first_match_exists by done.
  destruct (first_match Tnum_files ci md5 La); [|done].
  by rewrite bool_decide_eq_true_2.
Qed.

(** X2.  On a registry in order whose sets all have a first file with a
    name, [HasSet] returns, and it returns [true] exactly when some set of
    the available sets or of the duplicates has no missing file, the short
    name of the query and, if the digest is to be checked, the digest of
    the query. *)
Theorem HasSet_iff_some_set_qualifies
    (st : BaseMedia) (La Ld : list (addr * BaseSet)) (ci : ContentInfo) (md5 : bool) :
  registry st La Ld -> primary_named (La ++ Ld) ->
  exists b,
    HasSet Tnum_files st ci md5 = Some b
    /\ (b = true <->
        exists e, e ∈ La ++ Ld
                  /\ GetNumMissing Tnum_files e.2 = 0
                  /\ shortname e.2 = unique_id ci
                  /\ (md5 = true ->
                      memcmp16_eq (combined_md5 Tnum_files e.2) (md5sum ci) = true)).
Proof.
  intros Hreg Hnamed. eexists. split; [by apply HasSet_chains|].
  rewrite existsb_exists. unfold qualifies. split.
  - intros (e & Hin & Hq). exists e. apply list_elem_of_In in Hin.
    apply andb_true_iff in Hq as [Hq H3]. apply andb_true_iff in Hq as [H1 H2].
    apply Z.eqb_eq in H1, H2. split_and!; [done..|].
    intros ->. apply orb_true_iff in H3 as [H3|H3]; done.
  - intros (e & Hin & H1 & H2 & H3). exists e. apply list_elem_of_In in Hin.
    split; [done|]. rewrite H1, H2, !Z.eqb_refl. cbn [andb].
    destruct md5; [by rewrite H3 | done].
Qed.

(** X3.  On a registry in order whose sets all have a first file with a
    name, a query that [HasSet] answers with [true] when the digest is
    checked is answered with [true] as well when it is not. *)
Theorem HasSet_without_digest
    (st : BaseMedia) (La Ld : list (addr * BaseSet)) (ci : ContentInfo) :
  registry st La Ld -> primary_named (La ++ Ld) ->
  HasSet Tnum_files st ci true = Some true ->
  HasSet Tnum_files st ci false = Some true.
Proof.
  intros Hreg Hnamed. rewrite !(HasSet_chains st La Ld) by done.
  intros [= H]. f_equal. apply existsb_exists in H as (e & Hin & Hq).
  apply existsb_exists. exists e. split; [done|]. by apply qualifies_without_digest.
Qed.

End MatcherProofs.

(** ** [AddFile]: what a manifest that loads does to the registry *)

Section AddFileMore.

Variable Tnum_files : nat.
Variable file_names : nat -> string.
Variable CheckMD5 : MD5File -> ChecksumResult.
Variable atoi : string -> Z.
Variable PATHSEPCHAR : ascii.
Variable allow_empty_default : bool.

Local Abbreviation Fill := (FillSetDetails Tnum_files file_names CheckMD5 atoi).
Local Abbreviation Add :=
  (AddFile Tnum_files file_names CheckMD5 atoi PATHSEPCHAR allow_empty_default).

Implicit Types (L : list (addr * BaseSet)).

(** The three outcomes, with the chains that each leaves. *)
Lemma AddFile_loads st La Ld ini filename basepath_length set :
  registry st La Ld ->
  Fill ini (set_path PATHSEPCHAR filename basepath_length) filename
    allow_empty_default = Some (true, set) ->
  exists r st' La' Ld',
    Add st ini filename basepath_length = Some (r, st')
    /\ registry st' La' Ld'
    /\ ((find (fun e => collides set e.2) La = None
         /\ r = true /\ La' = La ++ [(fresh (dom (heap st)), set)] /\ Ld' = Ld
         /\ used_set st' = used_set st)
        \/ ((exists e, find (fun e => collides set e.2) La = Some e
                       /\ keeps_incumbent e.2 set = true)
            /\ r = false /\ La' = La /\ Ld' = (fresh (dom (heap st)), set) :: Ld
            /\ used_set st' = used_set st)
        \/ (exists L1 d dd L2,
              La = L1 ++ (d, dd) :: L2
              /\ find (fun e => collides set e.2) L1 = None
              /\ collides set dd = true
              /\ keeps_incumbent dd set = false
              /\ r = true
              /\ La' = L1 ++ (fresh (dom (heap st)), set) :: L2
              /\ Ld' = (d, dd) :: Ld
              /\ used_set st'
                 = if bool_decide (used_set st = Some d)
                   then Some (fresh (dom (heap st))) else used_set st)).
Proof.
  intros Hreg Hfill.
  destruct (find (fun e => collides set e.2) La) as [[d dd]|] eqn:Hfind.
  - destruct (keeps_incumbent dd set) eqn:Hkeep.
    + destruct (AddFile_supersedes_new Tnum_files file_names CheckMD5 atoi PATHSEPCHAR
                  allow_empty_default st La Ld ini filename basepath_length set d dd
                  Hreg Hfill Hfind Hkeep) as (st' & Hadd & Hreg' & Hu').
      eexists _, st', _, _. split; [done|]. split; [done|].
      right. left. split; [by exists (d, dd)|]. done.
    + pose proof Hfind as Hin. apply find_some in Hin as [Hin _].
      apply list_elem_of_In, list_elem_of_split in Hin as (L1 & L2 & ->).
      destruct (AddFile_replaces Tnum_files file_names CheckMD5 atoi PATHSEPCHAR
                  allow_empty_default st L1 L2 Ld ini filename basepath_length set d dd
                  Hreg Hfill Hfind Hkeep) as (st' & Hadd & Hreg' & Hu').
      destruct (find_stops_at _ _ _ _ Hfind (registry_entry_once _ _ _ _ _ Hreg))
        as [Hnone Hcol].
      eexists _, st', _, _. split; [done|]. split; [done|].
      right. right. exists L1, d, dd, L2. by split_and!.
  - destruct (AddFile_appends Tnum_files file_names CheckMD5 atoi PATHSEPCHAR
                allow_empty_default st La Ld ini filename basepath_length set
                Hreg Hfill Hfind) as (st' & Hadd & Hreg' & Hu').
    eexists _, st', _, _. split; [done|]. split; [done|]. left. by split_and!.
Qed.

Lemma find_none_all {A} (f : A -> bool) (l : list A) :
  find f l = None <-> forall x, x ∈ l -> f x = false.
Proof.
  induction l as [|y l IH]; cbn [find].
  - split; [|done]. intros _ x Hx. by apply elem_of_nil in Hx.
  - destruct (f y) eqn:Hy.
    + split; [done|]. intros H. rewrite H in Hy; [done|]. apply elem_of_cons. by left.
    + rewrite IH. split.
      * intros H x [-> | Hx]%elem_of_cons; [done | by apply H].
      * intros H x Hx. apply H. apply elem_of_cons. by right.
Qed.

Lemma collides_false set d :
  collides set d = false <-> name d <> name set /\ shortname d <> shortname set.
Proof.
  unfold collides. rewrite orb_false_iff, bool_decide_eq_false, Z.eqb_neq. done.
Qed.

Lemma collides_sym a b : collides a b = collides b a.
Proof.
  unfold collides. rewrite (Z.eqb_sym (shortname b)).
  by rewrite (bool_decide_ext (name b = name a) (name a = name b)) by (split; congruence).
Qed.

(** A chain in order is the only one that starts where it starts. *)
Lemma lseg_unique h L : forall p L',
  lseg h p L None -> lseg h p L' None -> L = L'.
Proof.
  induction L as [|e L IH]; intros p [|e' L']; cbn [lseg]; try done.
  - intros -> (? & _). done.
  - intros (-> & _) ?. done.
  - intros (Hp & s & Hs & He & Ht) (Hp' & s' & Hs' & He' & Ht').
    rewrite Hp in Hp'. injection Hp' as Hp'.
    rewrite Hp', Hs' in Hs. injection Hs as ->.
    rewrite (IH _ _ Ht Ht'). f_equal. destruct e, e'; cbn in *; congruence.
Qed.

Lemma registry_unique st La Ld La' Ld' :
  registry st La Ld -> registry st La' Ld' -> La = La' /\ Ld = Ld'.
Proof.
  intros [Ha Hd _ _] [Ha' Hd' _ _]. split; by eapply lseg_unique.
Qed.

Lemma collision_free_app L1 L2 :
  collision_free (L1 ++ L2) <->
  collision_free L1 /\ collision_free L2
  /\ forall x y, x ∈ L1 -> y ∈ L2 -> collides x.2 y.2 = false.
Proof.
  induction L1 as [|e L1 IH]; cbn [collision_free app].
  - split; [intros H | tauto]. split; [done|]. split; [done|].
    intros x y Hx. by apply elem_of_nil in Hx.
  - rewrite IH, Forall_app, !list.Forall_forall. split.
    + intros ((H1 & H2) & H3 & H4 & H5). split_and!; [done..|].
      intros x y [-> | Hx]%elem_of_cons Hy; [by apply H2 | by apply H5].
    + intros ((H1 & H2) & H3 & H4). split_and!; [done | | done | done |].
      * intros y Hy. apply H4; [apply elem_of_cons; by left | done].
      * intros x y Hx Hy. apply H4; [apply elem_of_cons; by right | done].
Qed.

Lemma filter_nil_all {A} (f : A -> bool) (l : list A) :
  List.filter f l = [] <-> forall x, x ∈ l -> f x = false.
Proof.
  induction l as [|y l IH]; cbn [List.filter].
  - split; [|done]. intros _ x Hx. by apply elem_of_nil in Hx.
  - destruct (f y) eqn:Hy.
    + split; [done|]. intros H. rewrite H in Hy; [done|]. apply elem_of_cons. by left.
    + rewrite IH. split.
      * intros H x [-> | Hx]%elem_of_cons; [done | by apply H].
      * intros H x Hx. apply H. apply elem_of_cons. by right.
Qed.

(** X4.  On a registry in order, a manifest that loads as a set whose name
    and short name no available set has is added at the end of the
    available sets: [AddFile] returns [true], the sets before it stay in
    their order, the duplicates and [used_set] stay as they are. *)
Theorem AddFile_appends_at_tail
    (st : BaseMedia) (La Ld : list (addr * BaseSet)) (ini : IniFile)
    (filename : string) (basepath_length : nat) (set : BaseSet) :
  registry st La Ld ->
  Fill ini (set_path PATHSEPCHAR filename basepath_length) filename
    allow_empty_default = Some (true, set) ->
  (forall e, e ∈ La -> name e.2 <> name set /\ shortname e.2 <> shortname set) ->
  exists st',
    Add st ini filename basepath_length = Some (true, st')
    /\ registry st' (La ++ [(fresh (dom (heap st)), set)]) Ld
    /\ used_set st' = used_set st.
Proof.
  intros Hreg Hfill Hnew.
  apply (AddFile_appends Tnum_files file_names CheckMD5 atoi PATHSEPCHAR
           allow_empty_default st La Ld ini filename basepath_length set Hreg Hfill).
  apply find_none_all. intros e He. apply collides_false. by apply Hnew.
Qed.

(** X5.  On a registry in order, a call of [AddFile] that returns drops no
    set and changes no field of a set but [next]: after a manifest that
    loads, the sets of the two chains are those of before and the new one,
    and the call returned [true] exactly when the new one is among the
    available sets; after any other manifest both chains are as before. *)
Theorem AddFile_conserves_sets
    (st : BaseMedia) (La Ld : list (addr * BaseSet)) (ini : IniFile)
    (filename : string) (basepath_length : nat) (r : bool) (st' : BaseMedia) :
  registry st La Ld ->
  Add st ini filename basepath_length = Some (r, st') ->
  exists La' Ld',
    registry st' La' Ld'
    /\ match Fill ini (set_path PATHSEPCHAR filename basepath_length) filename
               allow_empty_default with
       | Some (true, set) =>
         La' ++ Ld' ≡ₚ (fresh (dom (heap st)), set) :: La ++ Ld
         /\ (r = true <-> (fresh (dom (heap st)), set) ∈ La')
       | _ => r = false /\ La' = La /\ Ld' = Ld
       end.
Proof.
  intros Hreg Hadd.
  destruct (Fill ini (set_path PATHSEPCHAR filename basepath_length) filename
              allow_empty_default) as [[[|] set]|] eqn:Hfill.
  - destruct (registry_alloc st La Ld set Hreg) as (Hpa & Hpd & _).
    destruct (AddFile_loads st La Ld ini filename basepath_length set Hreg Hfill)
      as (r2 & st2 & La' & Ld' & Hadd2 & Hreg' & Hcases).
    rewrite Hadd2 in Hadd. injection Hadd as -> ->.
    exists La', Ld'. split; [done|].
    destruct Hcases as [H | [H | H]].
    + destruct H as (_ & -> & -> & -> & _). split; [solve_Permutation|].
      split; [intros _ | done]. apply elem_of_app. right. apply elem_of_cons. by left.
    + destruct H as (_ & -> & -> & -> & _). split; [solve_Permutation|].
      split; [done|]. intros Hin. exfalso. apply Hpa.
      apply list_elem_of_fmap. by eexists (_, _).
    + destruct H as (L1 & d & dd & L2 & -> & _ & _ & _ & -> & -> & -> & _).
      split; [solve_Permutation|].
      split; [intros _ | done]. apply elem_of_app. right. apply elem_of_cons. by left.
  - rewrite (AddFile_discards Tnum_files file_names CheckMD5 atoi PATHSEPCHAR
               allow_empty_default st ini filename basepath_length set Hfill) in Hadd.
    injection Hadd as <- <-. by exists La, Ld.
  - unfold AddFile in Hadd. by rewrite Hfill in Hadd.
Qed.

(** X6.  On a registry in order whose available sets differ pairwise in
    name and in short name, the available sets that a manifest that loads
    leaves differ pairwise again exactly when the new set was not added, or
    at most one available set had its name or its short name: a set that
    wins against one set while it shares a name or a short name with
    another stays in the chain with that other. *)
Theorem AddFile_keeps_sets_distinct
    (st : BaseMedia) (La Ld : list (addr * BaseSet)) (ini : IniFile)
    (filename : string) (basepath_length : nat) (set : BaseSet) :
  registry st La Ld -> collision_free La ->
  Fill ini (set_path PATHSEPCHAR filename basepath_length) filename
    allow_empty_default = Some (true, set) ->
  exists r st' La' Ld',
    Add st ini filename basepath_length = Some (r, st')
    /\ registry st' La' Ld'
    /\ (collision_free La' <->
        r = false
        \/ (length (List.filter (fun e => collides set e.2) La) <= 1)%nat).
Proof.
  intros Hreg Hfree Hfill.
  destruct (AddFile_loads st La Ld ini filename basepath_length set Hreg Hfill)
    as (r & st' & La' & Ld' & Hadd & Hreg' & Hcases).
  exists r, st', La', Ld'. split; [done|]. split; [done|].
  destruct Hcases as [H | [H | H]].
  - destruct H as (Hnone & -> & -> & -> & _).
    rewrite find_none_all in Hnone.
    rewrite (proj2 (filter_nil_all _ La)) by done. cbn [length].
    split; [intros _; right; lia | intros _].
    apply collision_free_app. split_and!; [done | by cbn |].
    intros x y Hx [-> | Hy%elem_of_nil]%elem_of_cons; [|done].
    cbn [snd]. rewrite collides_sym. by apply Hnone.
  - destruct H as (_ & -> & -> & -> & _). split; [by left | done].
  - destruct H as (L1 & d & dd & L2 & -> & Hnone & Hcol & _ & -> & -> & -> & _).
    rewrite find_none_all in Hnone.
    rewrite List.filter_app, (proj2 (filter_nil_all _ L1)) by done.
    cbn [app List.filter fst snd]. rewrite Hcol. cbn [length].
    apply collision_free_app in Hfree as (Hf1 & Hf2 & Hf12).
    cbn [collision_free] in Hf2. destruct Hf2 as [_ Hf2].
    rewrite collision_free_app. cbn [collision_free]. rewrite list.Forall_forall.
    split.
    + intros (_ & (Hset & _) & _). right.
      rewrite (proj2 (filter_nil_all _ L2)); [cbn; lia|]. exact Hset.
    + intros [? | Hlen]; [done|].
      assert (Hnil : List.filter (fun e => collides set e.2) L2 = [])
        by (destruct (List.filter _ L2); [done | cbn in Hlen; lia]).
      rewrite filter_nil_all in Hnil.
      split_and!; [done | done | done |].
      intros x y Hx [-> | Hy]%elem_of_cons.
      * cbn [snd]. rewrite collides_sym. by apply Hnone.
      * apply Hf12; [done|]. apply elem_of_cons. by right.
Qed.

(** X7.  On a registry in order whose sets all have a first file with a
    name, after [AddFile] has returned on a manifest that loads as a set
    with that too and with no missing file, [HasSet] answers the query for
    the short name and the combined digest of this set with [true],
    whether the set was added or superseded, and with or without the
    check of the digest. *)
Theorem AddFile_then_HasSet
    (st : BaseMedia) (La Ld : list (addr * BaseSet)) (ini : IniFile)
    (full_filename : string) (basepath_length : nat) (set : BaseSet)
    (r : bool) (st' : BaseMedia) (md5 : bool) :
  registry st La Ld -> primary_named (La ++ Ld) ->
  Fill ini (set_path PATHSEPCHAR full_filename basepath_length) full_filename
    allow_empty_default = Some (true, set) ->
  GetNumMissing Tnum_files set = 0 ->
  filename (get_file set 0) <> None ->
  Add st ini full_filename basepath_length = Some (r, st') ->
  HasSet Tnum_files st'
    (mkContentInfo (shortname set) (combined_md5 Tnum_files set)) md5 = Some true.
Proof.
  intros Hreg Hnamed Hfill Hmiss Hfirst Hadd.
  destruct (AddFile_loads st La Ld ini full_filename basepath_length set Hreg Hfill)
    as (r2 & st2 & La' & Ld' & Hadd2 & Hreg' & Hcases).
  rewrite Hadd2 in Hadd. injection Hadd as -> ->.
  assert (Hperm : La' ++ Ld' ≡ₚ (fresh (dom (heap st)), set) :: La ++ Ld).
  { destruct Hcases as [H | [H | H]].
    - destruct H as (_ & _ & -> & -> & _). solve_Permutation.
    - destruct H as (_ & _ & -> & -> & _). solve_Permutation.
    - destruct H as (L1 & d & dd & L2 & -> & _ & _ & _ & _ & -> & -> & _).
      solve_Permutation. }
  rewrite (HasSet_chains Tnum_files st' La' Ld') by
    (done || (unfold primary_named; rewrite Hperm; by constructor)).
  f_equal. apply existsb_exists. exists (fresh (dom (heap st)), set). split.
  - apply list_elem_of_In. rewrite Hperm. apply elem_of_cons. by left.
  - unfold qualifies. cbn [snd unique_id md5sum].
    rewrite Hmiss, memcmp16_eq_refl, !Z.eqb_refl. by destruct md5.
Qed.

End AddFileMore.

(** ** [FillSetDetails]: the files of a loaded set *)

Section LoadedFiles.

Variable file_names : nat -> string.
Variable CheckMD5 : MD5File -> ChecksumResult.

Lemma read_warning_origin ini fname :
  read_warning (get_group ini "origin") fname = origin_warning ini fname.
Proof.
  unfold read_warning, origin_warning, xstrdup.
  destruct (group_find (get_group ini "origin") fname); [done|].
  by destruct (group_find (get_group ini "origin") "default").
Qed.

(** A turn that goes on has written file [i], and nothing else but the
    counters. *)
Lemma fill_file_post ini path allow i this this' :
  files this !! i = Some blank_file ->
  fill_file file_names CheckMD5 (get_group ini "files") (get_group ini "md5s")
    (get_group ini "origin") path allow i this = Some (true, this') ->
  exists f,
    slot_loaded file_names ini path allow i f
    /\ files this' = <[i := f]> (files this)
    /\ valid_files this'
       = (if counts_valid CheckMD5 f then wrap32 (valid_files this + 1)
          else valid_files this)
    /\ found_files this'
       = (if counts_found CheckMD5 f then wrap32 (found_files this + 1)
          else found_files this)
    /\ shortname this' = shortname this
    /\ version this' = version this
    /\ description this' = description this.
Proof.
  intros Hblank. unfold fill_file, slot_loaded.
  assert (Hget : get_file this i = blank_file)
    by (unfold get_file; by apply nth_lookup_Some).
  rewrite Hget.
  destruct (group_find (get_group ini "files") (file_names i)) as [item|]; [|done].
  destruct (value item) as [fname|] eqn:Hv.
  - destruct (group_find (get_group ini "md5s") fname) as [item'|] eqn:Hm; [|done].
    destruct (value item') as [c|] eqn:Hc; [|done].
    cbn [hash filename missing_warning].
    change (decode_loop (MD5_HASH_BYTES * 2) 0 c (hash blank_file))
      with (decode_hash MD5_HASH_BYTES c).
    pose proof (decode_hash_pairs MD5_HASH_BYTES c) as Hdec.
    destruct (hex_pairs MD5_HASH_BYTES c) as [bytes|] eqn:Hp.
    + rewrite Hdec, read_warning_origin.
      destruct (origin_warning ini fname) as [w|] eqn:Hw; [|done].
      set (f := mkMD5File (Some (path +:+ fname)) bytes (Some w)).
      intros Hr. exists f. split.
      { exists item. rewrite Hv. split; [done|]. exists item', c, bytes.
        by rewrite Hw. }
      unfold counts_valid, counts_found. cbn [filename f].
      fold f in Hr |- *.
      destruct (CheckMD5 f); injection Hr as <-;
        cbn; rewrite !list_insert_insert_eq; done.
    + destruct (decode_hash MD5_HASH_BYTES c) as [[|] h]; [done | done].
  - destruct allow; [|done]. intros [= <-].
    exists (mkMD5File None (replicate MD5_HASH_BYTES 0) None). split.
    { exists item. by rewrite Hv. }
    done.
Qed.

(** The loop over the files: what it has written when it runs to its
    end. *)
Lemma fill_files_post ini path allow n : forall i this this',
  length (files this) = (i + n)%nat ->
  (forall k, (i <= k < i + n)%nat -> files this !! k = Some blank_file) ->
  fill_files file_names CheckMD5 (get_group ini "files") (get_group ini "md5s")
    (get_group ini "origin") path allow n i this = Some (true, this') ->
  length (files this') = (i + n)%nat
  /\ take i (files this') = take i (files this)
  /\ (forall k, (i <= k < i + n)%nat ->
        exists f, files this' !! k = Some f
                  /\ slot_loaded file_names ini path allow k f)
  /\ (Z.of_nat (i + n) < 2 ^ 32 ->
      0 <= valid_files this <= Z.of_nat i -> 0 <= found_files this <= Z.of_nat i ->
      valid_files this'
      = valid_files this
        + Z.of_nat (length (List.filter (counts_valid CheckMD5) (drop i (files this'))))
      /\ found_files this'
         = found_files this
           + Z.of_nat (length (List.filter (counts_found CheckMD5) (drop i (files this')))))
  /\ shortname this' = shortname this
  /\ version this' = version this
  /\ description this' = description this.
Proof.
  induction n as [|n IH]; intros i this this' Hlen Hblank; cbn [fill_files].
  - intros [= <-]. split; [done|]. split; [done|]. split; [intros k; lia|].
    split; [|done]. intros _ _ _. rewrite drop_ge by lia. cbn. lia.
  - destruct (fill_file file_names CheckMD5 _ _ _ path allow i this)
      as [[[|] this1]|] eqn:Hturn; [|done|done].
    intros Hrest.
    destruct (fill_file_post ini path allow i this this1 (Hblank i ltac:(lia)) Hturn)
      as (f & Hslot & Hfiles & Hv & Hf & Hs1 & Hs2 & Hs3).
    destruct (IH (S i) this1 this') as (Hlen' & Htake & Hslots & Hcount & Hm1 & Hm2 & Hm3).
    { rewrite Hfiles, length_insert. lia. }
    { intros k Hk. rewrite Hfiles, list_lookup_insert_ne by lia. apply Hblank. lia. }
    { done. }
    assert (Hi : files this' !! i = Some f).
    { rewrite <- (lookup_take_lt _ (S i)) by lia. rewrite Htake.
      rewrite lookup_take_lt by lia. rewrite Hfiles. apply list_lookup_insert_eq. lia. }
    split; [lia|]. split.
    { replace (take i (files this')) with (take i (take (S i) (files this')))
        by (rewrite take_take; f_equal; lia).
      rewrite Htake, take_take, Hfiles. replace (i `min` S i)%nat with i by lia.
      by apply take_insert_ge. }
    split.
    { intros k Hk. destruct (decide (k = i)) as [-> | Hne]; [by exists f|].
      apply Hslots. lia. }
    split; [|by rewrite Hm1, Hm2, Hm3].
    intros Hbound Hvb Hfb.
    rewrite (drop_S _ f i Hi). cbn [List.filter].
    assert (Hv1 : valid_files this1
                  = valid_files this + (if counts_valid CheckMD5 f then 1 else 0)).
    { rewrite Hv. unfold wrap32. destruct (counts_valid CheckMD5 f);
        [rewrite Z.mod_small by lia|]; lia. }
    assert (Hf1 : found_files this1
                  = found_files this + (if counts_found CheckMD5 f then 1 else 0)).
    { rewrite Hf. unfold wrap32. destruct (counts_found CheckMD5 f);
        [rewrite Z.mod_small by lia|]; lia. }
    destruct Hcount as [Hcv Hcf].
    { lia. }
    { destruct (counts_valid CheckMD5 f); lia. }
    { destruct (counts_found CheckMD5 f); lia. }
    rewrite Hcv, Hcf, Hv1, Hf1.
    destruct (counts_valid CheckMD5 f), (counts_found CheckMD5 f); cbn [length]; lia.
Qed.

End LoadedFiles.

Section LoadedSet.

Variable Tnum_files : nat.
Variable file_names : nat -> string.
Variable CheckMD5 : MD5File -> ChecksumResult.
Variable atoi : string -> Z.

Local Abbreviation Fill := (FillSetDetails Tnum_files file_names CheckMD5 atoi).

Lemma filter_complement_length {A} (f : A -> bool) (l : list A) :
  (length (List.filter f l) + length (List.filter (fun x => negb (f x)) l)
   = length l)%nat.
Proof.
  induction l as [|x l IH]; cbn [List.filter]; [done|].
  destruct (f x); cbn [negb length]; lia.
Qed.

(** X8.  A set that [FillSetDetails] has loaded has [Tnum_files] files,
    and file [k] is what the manifest says of the key [file_names k]: for
    a key without a value no name and a digest of zeros, and for a file
    name the path followed by that name, the sixteen bytes that the
    checksum listed for the name denotes, and the warning listed for the
    name or, failing that, the default one. *)
Theorem FillSetDetails_files
    (ini : IniFile) (path full_filename : string) (allow_empty_filename : bool)
    (s : BaseSet) :
  Fill ini path full_filename allow_empty_filename = Some (true, s) ->
  length (files s) = Tnum_files
  /\ forall k, (k < Tnum_files)%nat ->
       exists f, files s !! k = Some f
                 /\ slot_loaded file_names ini path allow_empty_filename k f.
Proof.
  intros Hfill.
  destruct (FillSetDetails_success _ _ _ _ _ _ _ _ _ Hfill)
    as (metadata & i1 & i2 & text & d & i3 & i4 & fb
        & _ & _ & _ & _ & _ & _ & _ & _ & Hloop).
  apply fill_files_post in Hloop as (Hlen & _ & Hslots & _).
  - split; [done|]. intros k Hk. apply Hslots. lia.
  - cbn [files]. by rewrite length_replicate.
  - intros k Hk. cbn [files]. apply lookup_replicate_2. lia.
Qed.

(** X9.  For a set type of fewer than [2 ^ 32] files, the counters of a
    loaded set count its files: [valid_files] those without a name and
    those that [CheckMD5] finds matching, [found_files] those without a
    name and those that [CheckMD5] finds on disk, so that the missing files
    are the files with a name that [CheckMD5] does not find. *)
Theorem FillSetDetails_counts_files
    (ini : IniFile) (path full_filename : string) (allow_empty_filename : bool)
    (s : BaseSet) :
  Z.of_nat Tnum_files < 2 ^ 32 ->
  Fill ini path full_filename allow_empty_filename = Some (true, s) ->
  valid_files s = Z.of_nat (length (List.filter (counts_valid CheckMD5) (files s)))
  /\ found_files s = Z.of_nat (length (List.filter (counts_found CheckMD5) (files s)))
  /\ GetNumMissing Tnum_files s
     = Z.of_nat (length (List.filter
                           (fun f => negb (counts_found CheckMD5 f)) (files s))).
Proof.
  intros Hbound Hfill.
  destruct (FillSetDetails_success _ _ _ _ _ _ _ _ _ Hfill)
    as (metadata & i1 & i2 & text & d & i3 & i4 & fb
        & _ & _ & _ & _ & _ & _ & _ & _ & Hloop).
  apply fill_files_post in Hloop as (Hlen & _ & _ & Hcount & _).
  - destruct Hcount as [Hv Hf]; [done | cbn; lia | cbn; lia |].
    cbn [valid_files found_files] in Hv, Hf. rewrite drop_0 in Hv, Hf.
    split; [lia|]. split; [lia|].
    unfold GetNumMissing. rewrite Hf.
    pose proof (filter_complement_length (counts_found CheckMD5) (files s)). lia.
  - cbn [files]. by rewrite length_replicate.
  - intros k Hk. cbn [files]. apply lookup_replicate_2. lia.
Qed.

End LoadedSet.

(** ** [FillSetDetails]: the short name *)

Section ShortName.

Lemma peek_range c : 0 <= peek c < 256.
Proof.
  destruct c as [|ch rest]; cbn [peek]; [lia|].
  pose proof (N_ascii_bounded ch). lia.
Qed.

Lemma lor_shiftl_add a b n :
  0 <= n -> 0 <= a < 2 ^ n -> Z.lor a (Z.shiftl b n) = a + b * 2 ^ n.
Proof.
  intros Hn Ha.
  assert (Hland : Z.land a (Z.shiftl b n) = 0).
  { apply Z.bits_inj'. intros k Hk. rewrite Z.land_spec, Z.bits_0.
    destruct (Z.lt_ge_cases k n) as [Hlt | Hge].
    - by rewrite Z.shiftl_spec_low, andb_false_r.
    - destruct (Z.eq_dec a 0) as [-> | Hnz]; [by rewrite Z.bits_0|].
      rewrite Z.bits_above_log2; [done | lia |].
      assert (Z.log2 a < n) by (apply Z.log2_lt_pow2; lia). lia. }
  pose proof (Z.add_lor_land a (Z.shiftl b n)) as Hadd.
  rewrite Hland, Z.shiftl_mul_pow2 in Hadd by done.
  rewrite Z.shiftl_mul_pow2 by done. lia.
Qed.

Lemma c_bytes_range s : Forall (fun b => 1 <= b < 256) (c_bytes s).
Proof.
  induction s as [|ch rest IH]; cbn [c_bytes]; [constructor|].
  destruct (peek (String ch rest) =? 0) eqn:H0; [constructor|].
  apply Z.eqb_neq in H0. pose proof (peek_range (String ch rest)).
  constructor; [lia | done].
Qed.

Lemma pack_bytes_cons b l : pack_bytes (b :: l) = b + 256 * pack_bytes l.
Proof. reflexivity. Qed.

Lemma pack_bytes_range l :
  Forall (fun b => 1 <= b < 256) l -> 0 <= pack_bytes l < 256 ^ Z.of_nat (length l).
Proof.
  induction 1 as [|b l Hb _ IH]; [cbn; lia|].
  rewrite pack_bytes_cons. cbn [length].
  rewrite Nat2Z.inj_succ, Z.pow_succ_r by lia. lia.
Qed.

(** Bytes that are not zero can be read back from the number. *)
Lemma pack_bytes_inj l1 : forall l2,
  Forall (fun b => 1 <= b < 256) l1 -> Forall (fun b => 1 <= b < 256) l2 ->
  pack_bytes l1 = pack_bytes l2 -> l1 = l2.
Proof.
  induction l1 as [|a l1 IH]; intros [|b l2] H1 H2; rewrite ?pack_bytes_cons;
    change (pack_bytes []) with 0.
  - done.
  - inversion H2; subst. pose proof (pack_bytes_range l2 ltac:(done)). lia.
  - inversion H1; subst. pose proof (pack_bytes_range l1 ltac:(done)). lia.
  - inversion H1; subst. inversion H2; subst. intros Heq.
    assert (a = b) by lia. subst b. f_equal. apply IH; [done | done | lia].
Qed.

(** The loop of lines 83-85 from byte [i] on, [n] bytes at most. *)
Lemma shortname_loop_pack n : forall i c acc,
  0 <= i -> i + Z.of_nat n <= 4 -> 0 <= acc < 2 ^ (8 * i) ->
  shortname_loop n i c acc
  = acc + 2 ^ (8 * i) * pack_bytes (take n (c_bytes c)).
Proof.
  induction n as [|n IH]; intros i c acc Hi Hn Hacc; cbn [shortname_loop].
  - rewrite take_0. change (pack_bytes []) with 0. lia.
  - destruct c as [|ch rest].
    { cbn [c_bytes peek]. rewrite take_nil. change (pack_bytes []) with 0.
      cbn [Z.eqb]. lia. }
    cbn [c_bytes]. destruct (peek (String ch rest) =? 0) eqn:H0.
    { rewrite take_nil. change (pack_bytes []) with 0. lia. }
    apply Z.eqb_neq in H0. cbn [advance]. rewrite firstn_cons, pack_bytes_cons.
    pose proof (peek_range (String ch rest)) as Hp.
    set (b := peek (String ch rest)) in *.
    assert (Hpow : 2 ^ (8 * (i + 1)) = 256 * 2 ^ (8 * i)).
    { replace (8 * (i + 1)) with (8 * i + 8) by lia.
      rewrite Z.pow_add_r by lia. lia. }
    assert (Hle : 2 ^ (8 * (i + 1)) <= 2 ^ 32)
      by (apply Z.pow_le_mono_r; lia).
    assert (Hstep : wrap32 (Z.lor acc (Z.shiftl b (i * 8))) = acc + b * 2 ^ (8 * i)).
    { replace (i * 8) with (8 * i) by lia.
      rewrite lor_shiftl_add by lia. unfold wrap32. apply Z.mod_small. nia. }
    rewrite Hstep, IH by (lia || nia). rewrite Hpow. ring.
Qed.

End ShortName.

Section LoadedMetadata.

Variable Tnum_files : nat.
Variable file_names : nat -> string.
Variable CheckMD5 : MD5File -> ChecksumResult.
Variable atoi : string -> Z.

Local Abbreviation Fill := (FillSetDetails Tnum_files file_names CheckMD5 atoi).

Lemma fetch_metadata_item metadata key item :
  fetch_metadata metadata key = Some item ->
  group_find metadata key = Some item /\ StrEmpty (value item) = false.
Proof.
  unfold fetch_metadata. destruct (group_find metadata key) as [it|]; [|done].
  destruct (StrEmpty (value it)) eqn:He; [done|]. by intros [= <-].
Qed.

(** The metadata of a loaded set, as the loop over the files leaves it. *)
Lemma FillSetDetails_metadata ini path full allow s :
  Fill ini path full allow = Some (true, s) ->
  exists metadata i_name i_desc text i_short i_ver,
    ini_find ini "metadata" = Some metadata
    /\ fetch_metadata metadata "name" = Some i_name
    /\ fetch_metadata metadata "description" = Some i_desc
    /\ value i_desc = Some text
    /\ fetch_metadata metadata "shortname" = Some i_short
    /\ fetch_metadata metadata "version" = Some i_ver
    /\ name s = value i_name
    /\ add_translations (items metadata) [(EmptyString, text)] = Some (description s)
    /\ shortname s = shortname_loop 4 0 (default EmptyString (value i_short)) 0
    /\ version s = wrap32 (atoi (default EmptyString (value i_ver))).
Proof.
  intros Hfill.
  destruct (FillSetDetails_success _ _ _ _ _ _ _ _ _ Hfill)
    as (metadata & i1 & i2 & text & d & i3 & i4 & fb
        & H0 & H1 & H2 & Hv & Hd & H3 & H4 & _ & Hloop).
  exists metadata, i1, i2, text, i3, i4.
  destruct (fill_files_fallback _ _ _ _ _ _ _ _ _ _ _ _ Hloop) as (_ & Hn & _).
  apply fill_files_post in Hloop as (_ & _ & _ & _ & Hs & Hver & Hdesc).
  - cbn in Hn, Hs, Hver, Hdesc. rewrite Hdesc. by split_and!.
  - cbn [files]. by rewrite length_replicate.
  - intros k Hk. cbn [files]. apply lookup_replicate_2. lia.
Qed.

(** X10.  The short name of a loaded set is the number whose bytes, the
    least significant first, are the first four bytes of the [shortname]
    of the manifest, or all of them when there are fewer; it is below
    [2 ^ 32], and a text gives the same number exactly when it has the same
    first four bytes. *)
Theorem FillSetDetails_shortname
    (ini : IniFile) (path full_filename : string) (allow_empty_filename : bool)
    (s : BaseSet) (metadata : IniGroup) (item : IniItem) (v : string) :
  Fill ini path full_filename allow_empty_filename = Some (true, s) ->
  ini_find ini "metadata" = Some metadata ->
  group_find metadata "shortname" = Some item ->
  value item = Some v ->
  shortname s = pack_bytes (take 4 (c_bytes v))
  /\ 0 <= shortname s < 2 ^ 32
  /\ forall w, pack_bytes (take 4 (c_bytes w)) = shortname s <->
               take 4 (c_bytes w) = take 4 (c_bytes v).
Proof.
  intros Hfill Hm Hitem Hv.
  destruct (FillSetDetails_metadata _ _ _ _ _ Hfill)
    as (metadata' & i1 & i2 & text & i3 & i4 & H0 & _ & _ & _ & H3 & _ & _ & _ & Hs & _).
  rewrite Hm in H0. injection H0 as <-.
  apply fetch_metadata_item in H3 as [H3 _]. rewrite Hitem in H3. injection H3 as <-.
  rewrite Hv in Hs. change (default EmptyString (Some v)) with v in Hs.
  rewrite shortname_loop_pack in Hs by (cbn; lia).
  change (2 ^ (8 * 0)) with 1 in Hs.
  assert (Hs' : shortname s = pack_bytes (take 4 (c_bytes v))) by (rewrite Hs; lia).
  assert (Hrange : forall x, Forall (fun b => 1 <= b < 256) (take 4 (c_bytes x))).
  { intros x. apply Forall_take, c_bytes_range. }
  split; [done|]. split.
  - rewrite Hs'. pose proof (pack_bytes_range _ (Hrange v)) as Hr.
    assert (256 ^ Z.of_nat (length (take 4 (c_bytes v))) <= 256 ^ 4).
    { apply Z.pow_le_mono_r; [lia|]. rewrite length_take. lia. }
    lia.
  - intros w. rewrite Hs'. split; [|by intros ->].
    by apply pack_bytes_inj.
Qed.

End LoadedMetadata.

(** ** [FillSetDetails]: the descriptions *)

Section Descriptions.




End Descriptions.


(** ** The decoder: a round trip *)

Section DecoderRoundTrip.

Lemma hex_digit_hex_char upper d rest :
  0 <= d < 16 -> hex_digit (peek (String (hex_char upper d) rest)) = Some d.
Proof.
  intros Hd.
  assert (Hc : Z.of_nat (Z.to_nat d) = d) by lia.
  assert (Hb : (Z.to_nat d < 16)%nat) by lia.
  rewrite <- Hc. revert Hb. generalize (Z.to_nat d). intros k Hk.
  do 16 (destruct k as [|k]; [by destruct upper|]). lia.
Qed.

Lemma hex_pairs_hex_of_bytes upper rest bytes :
  Forall (fun b => 0 <= b < 256) bytes ->
  hex_pairs (length bytes) (hex_of_bytes upper bytes +:+ rest) = Some bytes.
Proof.
  induction 1 as [|b bytes Hb _ IH]; [done|].
  change (hex_pairs (S (length bytes))
            (String (hex_char upper (b / 16))
               (String (hex_char upper (b mod 16))
                  (hex_of_bytes upper bytes +:+ rest))) = Some (b :: bytes)).
  cbn [hex_pairs]. rewrite !(hex_value_peek _ EmptyString), !hex_digit_hex_char, IH.
  - f_equal. f_equal. pose proof (Z.div_mod b 16). lia.
  - apply Z.mod_pos_bound. lia.
  - split; [apply Z.div_pos; lia | apply Z.div_lt_upper_bound; lia].
Qed.

Lemma hex_pairs_bytes n : forall c bytes,
  hex_pairs n c = Some bytes -> Forall (fun b => 0 <= b < 256) bytes.
Proof.
  induction n as [|n IH]; intros c bytes; cbn [hex_pairs].
  - intros [= <-]. constructor.
  - destruct c as [|a [|b rest]]; try done.
    rewrite (hex_value_peek a EmptyString), (hex_value_peek b EmptyString).
    destruct (hex_digit (peek (String a EmptyString))) as [x|] eqn:Hx; [|done].
    destruct (hex_digit (peek (String b EmptyString))) as [y|] eqn:Hy; [|done].
    destruct (hex_pairs n rest) as [l|] eqn:Hl; [|done].
    intros [= <-]. apply hex_digit_range in Hx, Hy.
    constructor; [lia | by eapply IH].
Qed.

End DecoderRoundTrip.

(** X12.  The digests that the decoder can give are the lists of bytes:
    written with two digits for each byte, in capitals or not, and with
    anything after them, a list of bytes is decoded to itself; and what is
    decoded is a list of bytes. *)
Theorem decode_hash_round_trip (upper : bool) (bytes : list Z) :
  (Forall (fun b => 0 <= b < 256) bytes ->
   forall rest,
     decode_hash (length bytes) (hex_of_bytes upper bytes +:+ rest) = (true, bytes))
  /\ (forall c,
        decode_hash (length bytes) c = (true, bytes) ->
        Forall (fun b => 0 <= b < 256) bytes).
Proof.
  split.
  - intros Hb rest.
    pose proof (decode_hash_pairs (length bytes) (hex_of_bytes upper bytes +:+ rest)) as H.
    by rewrite hex_pairs_hex_of_bytes in H.
  - intros c Hc. pose proof (decode_hash_pairs (length bytes) c) as H.
    destruct (hex_pairs (length bytes) c) as [out|] eqn:Hp.
    + rewrite H in Hc. injection Hc as <-. by eapply hex_pairs_bytes.
    + by rewrite Hc in H.
Qed.

(** ** [AddFile]: the path of a set *)

Section SetPath.

Variable PATHSEPCHAR : ascii.

Lemma upto_last_sep_split s :
  match upto_last_sep PATHSEPCHAR s with
  | Some d =>
    d <> EmptyString /\ closed_by PATHSEPCHAR d
    /\ exists base, s = d +:+ base /\ no_separator PATHSEPCHAR base
  | None => no_separator PATHSEPCHAR s
  end.
Proof.
  induction s as [|c s IH]; cbn [upto_last_sep]; [done|].
  destruct (upto_last_sep PATHSEPCHAR s) as [d|].
  - destruct IH as (Hne & Hclosed & base & -> & Hbase).
    split; [done|]. split; [by destruct d|]. by exists base.
  - case_bool_decide as Hc.
    + split; [done|]. split; [done|]. by exists s.
    + done.
Qed.

End SetPath.

(** X13.  The path that [AddFile] gives to the files of a set is the
    name of the manifest after the base path, up to and with its last
    separator: what follows it in that name holds no separator, and the
    path is empty when that name holds none. *)
Theorem set_path_splits (PATHSEPCHAR : ascii) (filename : string) (basepath_length : nat) :
  let relative := String.substring basepath_length
                    (String.length filename - basepath_length) filename in
  closed_by PATHSEPCHAR (set_path PATHSEPCHAR filename basepath_length)
  /\ (exists base,
        relative = set_path PATHSEPCHAR filename basepath_length +:+ base
        /\ no_separator PATHSEPCHAR base)
  /\ (no_separator PATHSEPCHAR relative ->
      set_path PATHSEPCHAR filename basepath_length = EmptyString).
Proof.
  intros relative. unfold set_path. fold relative.
  pose proof (upto_last_sep_split PATHSEPCHAR relative) as H.
  destruct (upto_last_sep PATHSEPCHAR relative) as [d|]; cbn [default].
  - destruct H as (Hne & Hclosed & base & Hrel & Hbase).
    split; [done|]. split; [by exists base|].
    intros Hno. exfalso. rewrite Hrel in Hno. clear -Hno Hne Hclosed.
    induction d as [|c d IH]; [done|]. cbn in Hno. destruct Hno as [Hc Hno].
    destruct d as [|c' d]; [by cbn in Hclosed|]. by apply IH.
  - split; [done|]. split; [by exists relative | done].
Qed.

(** ** [GetSet] with an index below zero, and after [SetSet] *)

Section LookupMore.

Variable Tnum_files : nat.
Variable DetermineBestSet : BaseMedia -> bool * BaseMedia.

Implicit Types (L : list (addr * BaseSet)) (p q : ptr).

Lemma GetSet_loop_negative st a : forall fuel p index,
  index < 0 -> GetSet_loop Tnum_files fuel st p index <> Some (GS_set a).
Proof.
  induction fuel as [|fuel IH]; intros p index Hi; cbn [GetSet_loop]; [done|].
  destruct p as [b|]; [|done]. destruct (heap st !! b) as [cs|]; [|done].
  destruct (negb _ && negb _); [by apply IH|].
  rewrite (proj2 (Z.eqb_neq index 0)) by lia.
  destruct (index =? INT_MIN); [done|]. apply IH. lia.
Qed.

(** The set in use stands at the index that [GetIndexOfUsedSet] gives. *)
Lemma GetSet_used st La Ld u :
  registry st La Ld -> used_linked st La -> used_set st = Some u ->
  exists n total,
    GetIndexOfUsedSet Tnum_files st = Some n
    /\ GetNumSets Tnum_files st = Some total
    /\ 0 <= n < total
    /\ GetSet Tnum_files st n = Some (GS_set u).
Proof.
  intros Hreg Hused Hu. destruct (registry_fuel _ _ _ Hreg) as [Hfa _].
  destruct Hreg as [Ha _ Hnd _].
  apply list.NoDup_app in Hnd as (Hnd & _ & _).
  destruct Hused as [Hnone | (u' & Hu' & Hin)]; [congruence|].
  rewrite Hu in Hu'. injection Hu' as <-.
  apply list_elem_of_fmap in Hin as ([u' du] & Heq & Hin). cbn in Heq. subst u'.
  apply list_elem_of_split in Hin as (L1 & L2 & ->).
  assert (Hnot : u ∉ L1.*1).
  { rewrite fmap_app in Hnd. apply list.NoDup_app in Hnd as (_ & Hd & _).
    intros Hin. apply (Hd u Hin). cbn. apply elem_of_cons. by left. }
  assert (Hvis : visible Tnum_files (used_set st) (u, du) = true).
  { unfold visible. by rewrite bool_decide_eq_true_2. }
  assert (Hfilter : List.filter (visible Tnum_files (used_set st)) (L1 ++ (u, du) :: L2)
                    = List.filter (visible Tnum_files (used_set st)) L1
                      ++ (u, du) :: List.filter (visible Tnum_files (used_set st)) L2).
  { rewrite List.filter_app. cbn [List.filter]. by rewrite Hvis. }
  eexists _, _. split.
  { unfold GetIndexOfUsedSet.
    apply (GetIndexOfUsedSet_loop_found _ _ _ _ _ _ _ _ _ _ Ha Hnot Hu).
    rewrite length_app in Hfa. cbn in Hfa. lia. }
  split; [apply (GetNumSets_loop_chain _ _ _ _ _ _ Ha Hfa)|].
  rewrite Hfilter, length_app. cbn [length]. split; [lia|].
  unfold GetSet. rewrite (GetSet_loop_chain _ _ _ _ _ _ Ha Hfa) by lia.
  rewrite Hfilter.
  replace (Z.to_nat _)
    with (length (List.filter (visible Tnum_files (used_set st)) L1)) by lia.
  by rewrite list_lookup_middle.
Qed.

(** X14.  On a registry in order with a set in use, the index that
    [GetIndexOfUsedSet] returns is below [GetNumSets ()], and [GetSet] at
    this index returns the set in use. *)
Theorem GetSet_at_index_of_used_set
    (st : BaseMedia) (La Ld : list (addr * BaseSet)) (u : addr) :
  registry st La Ld -> used_linked st La -> used_set st = Some u ->
  exists n total,
    GetIndexOfUsedSet Tnum_files st = Some n
    /\ GetNumSets Tnum_files st = Some total
    /\ 0 <= n < total
    /\ GetSet Tnum_files st n = Some (GS_set u).
Proof. apply GetSet_used. Qed.

(** X15.  With an index below zero [GetSet] returns no set, whatever the
    registry holds. *)
Theorem GetSet_negative_index (st : BaseMedia) (index : Z) (a : addr) :
  index < 0 -> GetSet Tnum_files st index <> Some (GS_set a).
Proof. intros Hi. by apply GetSet_loop_negative. Qed.

(** X16.  After [SetSet] has returned [true] for a name, the index of the
    set in use is one that [GetSet] accepts, and [GetSet] returns for it
    the set that [GetUsedSet] returns, which is a set of the chain with
    that name. *)
Theorem SetSet_then_GetSet
    (st st' : BaseMedia) (La Ld : list (addr * BaseSet)) (nm : string) :
  registry st La Ld -> StrEmpty (Some nm) = false ->
  SetSet DetermineBestSet st (Some nm) = Some (true, st') ->
  exists i u s,
    GetIndexOfUsedSet Tnum_files st' = Some i
    /\ GetSet Tnum_files st' i = Some (GS_set u)
    /\ GetUsedSet st' = Some u
    /\ heap st' !! u = Some s
    /\ name s = Some nm.
Proof.
  intros Hreg Hne Hset. destruct (registry_fuel _ _ _ Hreg) as [Hfa _].
  pose proof Hreg as [Ha Hd Hnd Hnamed].
  unfold SetSet in Hset. rewrite Hne in Hset.
  rewrite (SetSet_loop_chain _ _ _ _ _ Ha Hnamed Hfa) in Hset.
  destruct (find _ La) as [e|] eqn:Hfind; [|done]. injection Hset as <-.
  apply find_some in Hfind as [Hin Hname]. apply list_elem_of_In in Hin.
  apply bool_decide_eq_true in Hname.
  assert (Hreg' : registry (with_used_set st (Some e.1)) La Ld) by by split.
  assert (Hused' : used_linked (with_used_set st (Some e.1)) La).
  { right. exists e.1. split; [done|]. apply list_elem_of_fmap. by exists e. }
  destruct (GetSet_used _ _ _ e.1 Hreg' Hused' eq_refl) as (i & total & Hi & _ & _ & Hg).
  destruct e as [a d]. destruct (lseg_lookup _ _ _ _ _ _ Ha Hin) as (s & Hs & He).
  exists i, a, s. split_and!; [done..|].
  cbn in Hname. rewrite <- He in Hname. exact Hname.
Qed.

End LookupMore.

(** ** The registries that the calls lead to *)

Section ReachableProofs.

Variable Tnum_files : nat.
Variable file_names : nat -> string.
Variable CheckMD5 : MD5File -> ChecksumResult.
Variable atoi : string -> Z.
Variable PATHSEPCHAR : ascii.
Variable allow_empty_default : bool.
Variable DetermineBestSet : BaseMedia -> bool * BaseMedia.

Local Abbreviation Reach :=
  (reachable Tnum_files file_names CheckMD5 atoi PATHSEPCHAR allow_empty_default
     DetermineBestSet).
Local Abbreviation Reach_by :=
  (reachable_by Tnum_files file_names CheckMD5 atoi PATHSEPCHAR allow_empty_default
     DetermineBestSet).
Local Abbreviation Load_of :=
  (load_of Tnum_files file_names CheckMD5 atoi PATHSEPCHAR allow_empty_default).

(** X17.  A registry that calls of [AddFile] and of [SetSet] with a name
    lead to from the empty one has its two chains in order, with
    [used_set] null or a set of the available chain, and the sets of the
    two chains are, but for their links, the sets that [FillSetDetails]
    returned [true] for on the manifests that were given to [AddFile],
    each of them once: none is lost, none is changed, and no other is
    there. *)
Theorem reachable_sets_loaded
    (calls : list (IniFile * string * nat)) (st : BaseMedia) :
  Reach_by calls st ->
  exists La Ld,
    registry st La Ld /\ used_linked st La
    /\ (La ++ Ld).*2 ≡ₚ omap Load_of calls.
Proof.
  induction 1 as [| calls st ini filename basepath_length r st' _ IH Hadd
                  | calls st nm r st' _ IH Hne Hset].
  - exists [], []. split; [|split; [by left | done]].
    split; [reflexivity | reflexivity | constructor | constructor].
  - destruct IH as (La & Ld & Hreg & Hused & Hperm).
    destruct (AddFile_used_linked _ _ _ _ _ _ _ _ _ _ _ _ _ _ Hreg Hused Hadd)
      as (La' & Ld' & Hreg' & Hused').
    exists La', Ld'. split; [done|]. split; [done|].
    rewrite omap_app, <- Hperm. cbn [omap list_omap]. unfold load_of at 1.
    cbn [fst snd].
    destruct (FillSetDetails Tnum_files file_names CheckMD5 atoi ini
                (set_path PATHSEPCHAR filename basepath_length) filename
                allow_empty_default) as [[[|] set]|] eqn:Hfill.
    + destruct (AddFile_loads _ _ _ _ _ _ _ _ _ _ _ _ _ Hreg Hfill)
        as (r0 & st0 & La0 & Ld0 & Hadd0 & Hreg0 & Hcases).
      rewrite Hadd in Hadd0. injection Hadd0 as <- <-.
      destruct (registry_unique _ _ _ _ _ Hreg' Hreg0) as [-> ->].
      destruct Hcases as [(_ & _ & -> & -> & _)
                         | [(_ & _ & -> & -> & _)
                           | (L1 & d & dd & L2 & -> & _ & _ & _ & _ & -> & -> & _)]];
        rewrite !fmap_app; cbn [fmap list_fmap snd]; rewrite ?fmap_app;
        cbn [fmap list_fmap snd]; solve_Permutation.
    + rewrite (AddFile_discards _ _ _ _ _ _ _ _ _ _ _ Hfill) in Hadd.
      injection Hadd as <- <-.
      destruct (registry_unique _ _ _ _ _ Hreg' Hreg) as [-> ->].
      by rewrite app_nil_r.
    + unfold AddFile in Hadd. by rewrite Hfill in Hadd.
  - destruct IH as (La & Ld & Hreg & Hused & Hperm). exists La, Ld.
    destruct (SetSet_used_linked _ _ _ _ _ _ _ Hreg Hused Hne Hset) as [Hreg' Hused'].
    by split_and!.
Qed.

(** X18.  On a registry that the calls lead to every query returns: the
    count, the index of the set in use, which is [-1] or below the count,
    [GetSet] for an index that is not negative, the matcher, and [SetSet]
    with a name. *)
Theorem reachable_queries_return (st : BaseMedia) :
  Reach st ->
  exists n i,
    GetNumSets Tnum_files st = Some n
    /\ GetIndexOfUsedSet Tnum_files st = Some i
    /\ -1 <= i < n
    /\ (forall index, 0 <= index -> is_Some (GetSet Tnum_files st index))
    /\ (forall ci md5, is_Some (HasSet Tnum_files st ci md5))
    /\ (forall nm, StrEmpty (Some nm) = false ->
          is_Some (SetSet DetermineBestSet st (Some nm))).
Proof.
  intros Hreach.
  destruct (reachable_registry _ _ _ _ _ _ _ _ Hreach) as (La & Ld & Hreg & Hused).
  destruct (registry_fuel _ _ _ Hreg) as [Hfa Hfd].
  pose proof Hreg as [Ha Hd Hnd Hnamed].
  assert (Hcount : exists n i,
            GetNumSets Tnum_files st = Some n
            /\ GetIndexOfUsedSet Tnum_files st = Some i /\ -1 <= i < n).
  { destruct (used_set st) as [u|] eqn:Hu.
    - destruct (GetSet_used Tnum_files _ _ _ u Hreg Hused Hu)
        as (i & n & Hi & Hn & Hr & _).
      exists n, i. split_and!; (done || lia).
    - exists (0 + Z.of_nat (length (List.filter (visible Tnum_files (used_set st)) La))),
        (-1).
      split; [apply (GetNumSets_loop_chain _ _ _ _ _ _ Ha Hfa)|].
      split; [|lia]. unfold GetIndexOfUsedSet.
      apply (GetIndexOfUsedSet_loop_absent _ _ _ _ _ _ Ha); [|done].
      intros a _. by rewrite Hu. }
  destruct Hcount as (n & i & Hn & Hi & Hr). exists n, i.
  split; [done|]. split; [done|]. split; [done|]. split; [|split].
  - intros index Hindex. unfold GetSet.
    by rewrite (GetSet_loop_chain _ _ _ _ _ _ Ha Hfa Hindex).
  - intros ci md5. unfold HasSet.
    rewrite (TryGetBaseSetFile_chain _ _ _ _ _ _ _ Ha Hfa).
    destruct (first_match Tnum_files ci md5 La); [done|].
    by rewrite (TryGetBaseSetFile_chain _ _ _ _ _ _ _ Hd Hfd).
  - intros nm Hne. unfold SetSet. rewrite Hne.
    by rewrite (SetSet_loop_chain _ _ _ _ _ Ha Hnamed Hfa).
Qed.

End ReachableProofs.

(** ** The further properties on the sample registries *)

Lemma sample_registry_A : registry Sample.st_A [(1%positive, Sample.set_A)] [].
Proof.
  split.
  - by_computation.
  - by_computation.
  - change (NoDup [1%positive]). by_decision.
  - vm_compute. repeat constructor; discriminate.
Defined.

Lemma sample_primary_named :
  primary_named
    ([(1%positive, Sample.set_A); (2%positive, Sample.set_B_missing)] ++ []).
Proof.
  unfold primary_named.
  repeat (constructor; [intros H; vm_compute in H; discriminate H|]). constructor.
Defined.

Lemma sample_primary_named_win :
  primary_named
    ([(1%positive, Sample.set_A); (3%positive, Sample.set_B)]
     ++ [(2%positive, Sample.set_B_missing)]).
Proof.
  unfold primary_named.
  repeat (constructor; [intros H; vm_compute in H; discriminate H|]). constructor.
Defined.

Lemma sample_reachable :
  reachable Sample.Tnum_files Sample.file_names Sample.CheckMD5 Sample.atoi
    Sample.PATHSEPCHAR true Sample.DetermineBestSet Sample.st_AB_used.
Proof.
  apply (reachable_SetSet _ _ _ _ _ _ _ Sample.st_AB "B" true); [|reflexivity|].
  - apply (reachable_AddFile _ _ _ _ _ _ _ Sample.st_A
             (Sample.manifest_missing "B" "BBBB" "1") "b.obg" 0 true).
    + apply (reachable_AddFile _ _ _ _ _ _ _ empty_media
               (Sample.manifest "A" "AAAA" "3") "a.obg" 0 true).
      * apply reachable_empty.
      * vm_compute. reflexivity.
    + vm_compute. reflexivity.
  - vm_compute. reflexivity.
Defined.

(** With [B] in use, index [1] is [B] and index [2] is out of range. *)
Lemma GetSet_returns_ranked_set_witness :
  GetSet Sample.Tnum_files Sample.st_AB_used 1 = Some (GS_set 2%positive)
  /\ GetSet Sample.Tnum_files Sample.st_AB_used 2 = Some GS_error.
Proof.
  split.
  - destruct (GetSet_returns_ranked_set Sample.Tnum_files Sample.st_AB_used _ _ 1
                sample_registry_AB_used ltac:(lia)) as (n & Hn & Hlt & _).
    vm_compute in Hn. injection Hn as <-.
    destruct Hlt as (e & He & Hg); [reflexivity|].
    vm_compute in He. injection He as <-. exact Hg.
  - destruct (GetSet_returns_ranked_set Sample.Tnum_files Sample.st_AB_used _ _ 2
                sample_registry_AB_used ltac:(lia)) as (n & Hn & _ & Hge).
    vm_compute in Hn. injection Hn as <-. apply Hge. lia.
Defined.

Lemma GetSet_at_index_of_used_set_witness :
  exists n,
    GetIndexOfUsedSet Sample.Tnum_files Sample.st_AB_used = Some n
    /\ GetSet Sample.Tnum_files Sample.st_AB_used n = Some (GS_set 2%positive).
Proof.
  destruct (GetSet_at_index_of_used_set Sample.Tnum_files Sample.st_AB_used _ _
              2%positive sample_registry_AB_used sample_used_linked eq_refl)
    as (n & total & Hi & _ & _ & Hg).
  exists n. split; [exact Hi | exact Hg].
Defined.

(** The complete [B] answers the query for its short name and digest. *)
Lemma HasSet_iff_some_set_qualifies_witness :
  HasSet Sample.Tnum_files Sample.st_win Sample.query_B true = Some true.
Proof.
  destruct (HasSet_iff_some_set_qualifies Sample.Tnum_files Sample.st_win _ _
              Sample.query_B true sample_registry_win sample_primary_named_win)
    as (b & Hb & Hiff).
  rewrite Hb. f_equal. apply Hiff. exists (3%positive, Sample.set_B).
  split; [|split; [|split]].
  - apply elem_of_app. left. apply elem_of_cons. right. apply elem_of_cons. by left.
  - vm_compute. reflexivity.
  - vm_compute. reflexivity.
  - intros _. vm_compute. reflexivity.
Defined.

Lemma HasSet_without_digest_witness :
  HasSet Sample.Tnum_files Sample.st_win Sample.query_B false = Some true.
Proof.
  apply (HasSet_without_digest Sample.Tnum_files Sample.st_win _ _ Sample.query_B
           sample_registry_win sample_primary_named_win).
  vm_compute. reflexivity.
Defined.

(** [B] after [A]: no set has its name or its short name. *)
Lemma AddFile_appends_at_tail_witness :
  exists st',
    Sample.add Sample.st_A (Sample.manifest_missing "B" "BBBB" "1") "b.obg" 0
      = Some (true, st')
    /\ registry st'
         ([(1%positive, Sample.set_A)]
          ++ [(fresh (dom (heap Sample.st_A)), Sample.set_B_missing)]) []
    /\ used_set st' = used_set Sample.st_A.
Proof.
  apply (AddFile_appends_at_tail Sample.Tnum_files Sample.file_names Sample.CheckMD5
           Sample.atoi Sample.PATHSEPCHAR true Sample.st_A _ _
           (Sample.manifest_missing "B" "BBBB" "1") "b.obg" 0 Sample.set_B_missing
           sample_registry_A).
  - vm_compute. reflexivity.
  - intros e He. apply list_elem_of_singleton in He. subst e.
    split; intros H; vm_compute in H; discriminate H.
Defined.

(** The complete [B] takes the place of the [B] with a missing file: the
    three sets are all there. *)
Lemma AddFile_conserves_sets_witness :
  exists La' Ld',
    registry Sample.st_win La' Ld'
    /\ La' ++ Ld'
       ≡ₚ (fresh (dom (heap Sample.st_AB_used)), Sample.set_B)
          :: [(1%positive, Sample.set_A); (2%positive, Sample.set_B_missing)] ++ [].
Proof.
  destruct (AddFile_conserves_sets Sample.Tnum_files Sample.file_names Sample.CheckMD5
              Sample.atoi Sample.PATHSEPCHAR true Sample.st_AB_used _ _
              (Sample.manifest "B" "BBBB" "1") "b.obg" 0 true Sample.st_win
              sample_registry_AB_used ltac:(vm_compute; reflexivity))
    as (La' & Ld' & Hreg & Hm).
  assert (Hfill : FillSetDetails Sample.Tnum_files Sample.file_names Sample.CheckMD5
                    Sample.atoi (Sample.manifest "B" "BBBB" "1")
                    (set_path Sample.PATHSEPCHAR "b.obg" 0) "b.obg" true
                  = Some (true, Sample.set_B)) by (vm_compute; reflexivity).
  rewrite Hfill in Hm. destruct Hm as [Hperm _].
  exists La', Ld'. split; [exact Hreg | exact Hperm].
Defined.

Lemma sample_collision_free :
  collision_free [(1%positive, Sample.set_A); (2%positive, Sample.set_B_missing)].
Proof.
  split; [|split; [constructor | exact I]].
  constructor; [vm_compute; reflexivity | constructor].
Defined.

Lemma AddFile_keeps_sets_distinct_witness :
  exists r st' La' Ld',
    Sample.add Sample.st_AB_used (Sample.manifest "B" "BBBB" "1") "b.obg" 0
      = Some (r, st')
    /\ registry st' La' Ld'
    /\ collision_free La'.
Proof.
  destruct (AddFile_keeps_sets_distinct Sample.Tnum_files Sample.file_names
              Sample.CheckMD5 Sample.atoi Sample.PATHSEPCHAR true Sample.st_AB_used _ _
              (Sample.manifest "B" "BBBB" "1") "b.obg" 0 Sample.set_B
              sample_registry_AB_used sample_collision_free
              ltac:(vm_compute; reflexivity))
    as (r & st' & La' & Ld' & Hadd & Hreg & Hiff).
  exists r, st', La', Ld'. split; [exact Hadd|]. split; [exact Hreg|].
  apply Hiff. right. vm_compute. lia.
Defined.

Lemma AddFile_then_HasSet_witness :
  HasSet Sample.Tnum_files Sample.st_win
    (mkContentInfo (shortname Sample.set_B)
       (combined_md5 Sample.Tnum_files Sample.set_B)) true
  = Some true.
Proof.
  apply (AddFile_then_HasSet Sample.Tnum_files Sample.file_names Sample.CheckMD5
           Sample.atoi Sample.PATHSEPCHAR true Sample.st_AB_used _ _
           (Sample.manifest "B" "BBBB" "1") "b.obg" 0 Sample.set_B true Sample.st_win
           true sample_registry_AB_used sample_primary_named).
  - vm_compute. reflexivity.
  - vm_compute. reflexivity.
  - intros H. vm_compute in H. discriminate H.
  - vm_compute. reflexivity.
Defined.

(** The second file of [B] is not on disk: two files, one found. *)
Lemma FillSetDetails_files_witness :
  length (files Sample.set_B_missing) = Sample.Tnum_files
  /\ exists f, files Sample.set_B_missing !! 1%nat = Some f
               /\ filename f = Some "c.grf".
Proof.
  destruct (FillSetDetails_files Sample.Tnum_files Sample.file_names Sample.CheckMD5
              Sample.atoi (Sample.manifest_missing "B" "BBBB" "1") EmptyString "b.obg"
              true Sample.set_B_missing ltac:(vm_compute; reflexivity)) as [Hlen Hslot].
  split; [exact Hlen|].
  destruct (Hslot 1%nat ltac:(vm_compute; lia)) as (f & Hf & _).
  exists f. split; [exact Hf|].
  vm_compute in Hf. injection Hf as <-. reflexivity.
Defined.

Lemma FillSetDetails_counts_files_witness :
  GetNumMissing Sample.Tnum_files Sample.set_B_missing
  = Z.of_nat (length (List.filter (fun f => negb (counts_found Sample.CheckMD5 f))
                        (files Sample.set_B_missing))).
Proof.
  apply (FillSetDetails_counts_files Sample.Tnum_files Sample.file_names
           Sample.CheckMD5 Sample.atoi (Sample.manifest_missing "B" "BBBB" "1")
           EmptyString "b.obg" true Sample.set_B_missing).
  - vm_compute. reflexivity.
  - vm_compute. reflexivity.
Defined.

Lemma FillSetDetails_shortname_witness :
  shortname Sample.set_A = pack_bytes [65; 65; 65; 65]
  /\ pack_bytes (take 4 (c_bytes "AAAAB")) = shortname Sample.set_A.
Proof.
  destruct (FillSetDetails_shortname Sample.Tnum_files Sample.file_names
              Sample.CheckMD5 Sample.atoi (Sample.manifest "A" "AAAA" "3") EmptyString
              "a.obg" true Sample.set_A (Sample.metadata "A" "AAAA" "3")
              (Sample.item "shortname" "AAAA") "AAAA"
              ltac:(vm_compute; reflexivity) eq_refl eq_refl eq_refl)
    as (Hs & _ & Hsame).
  split; [exact Hs|]. apply Hsame. reflexivity.
Defined.


Lemma decode_hash_round_trip_witness :
  decode_hash 2 "ff00zz" = (true, [255; 0])
  /\ decode_hash 2 "FF00" = (true, [255; 0]).
Proof.
  assert (Hb : Forall (fun b => 0 <= b < 256) [255; 0])
    by (repeat constructor; lia).
  split.
  - apply (proj1 (decode_hash_round_trip false [255; 0]) Hb "zz").
  - apply (proj1 (decode_hash_round_trip true [255; 0]) Hb EmptyString).
Defined.

Lemma set_path_splits_witness :
  set_path "/" "dir/sub/x.obg" 4 = "sub/"
  /\ exists base, "sub/x.obg" = "sub/" +:+ base /\ no_separator "/" base.
Proof.
  split; [reflexivity|].
  exact (proj1 (proj2 (set_path_splits "/" "dir/sub/x.obg" 4))).
Defined.

Lemma GetSet_negative_index_witness :
  GetSet Sample.Tnum_files Sample.st_AB_used (-1) <> Some (GS_set 1%positive).
Proof. apply GetSet_negative_index. lia. Defined.

Lemma SetSet_then_GetSet_witness :
  exists i u s,
    GetIndexOfUsedSet Sample.Tnum_files Sample.st_AB_used = Some i
    /\ GetSet Sample.Tnum_files Sample.st_AB_used i = Some (GS_set u)
    /\ GetUsedSet Sample.st_AB_used = Some u
    /\ heap Sample.st_AB_used !! u = Some s
    /\ name s = Some "B".
Proof.
  apply (SetSet_then_GetSet Sample.Tnum_files Sample.DetermineBestSet Sample.st_AB
           Sample.st_AB_used _ _ "B" sample_registry_AB eq_refl).
  vm_compute. reflexivity.
Defined.

Lemma sample_reachable_by :
  reachable_by Sample.Tnum_files Sample.file_names Sample.CheckMD5 Sample.atoi
    Sample.PATHSEPCHAR true Sample.DetermineBestSet
    [(Sample.manifest "A" "AAAA" "3", "a.obg", 0%nat);
     (Sample.manifest_missing "B" "BBBB" "1", "b.obg", 0%nat)]
    Sample.st_AB_used.
Proof.
  apply (reachable_by_SetSet _ _ _ _ _ _ _ _ Sample.st_AB "B" true); [|reflexivity|].
  - apply (reachable_by_AddFile _ _ _ _ _ _ _
             [(Sample.manifest "A" "AAAA" "3", "a.obg", 0%nat)] Sample.st_A
             (Sample.manifest_missing "B" "BBBB" "1") "b.obg" 0 true).
    + apply (reachable_by_AddFile _ _ _ _ _ _ _ [] empty_media
               (Sample.manifest "A" "AAAA" "3") "a.obg" 0 true).
      * apply reachable_by_empty.
      * vm_compute. reflexivity.
    + vm_compute. reflexivity.
  - vm_compute. reflexivity.
Defined.

(** After [A] and the [B] with a missing file were added, these two are
    the sets of the registry. *)
Lemma reachable_sets_loaded_witness :
  exists La Ld,
    registry Sample.st_AB_used La Ld /\ used_linked Sample.st_AB_used La
    /\ (La ++ Ld).*2 ≡ₚ [Sample.set_A; Sample.set_B_missing].
Proof.
  destruct (reachable_sets_loaded Sample.Tnum_files Sample.file_names Sample.CheckMD5
              Sample.atoi Sample.PATHSEPCHAR true Sample.DetermineBestSet
              _ Sample.st_AB_used sample_reachable_by)
    as (La & Ld & Hreg & Hused & Hperm).
  exists La, Ld. split; [exact Hreg|]. split; [exact Hused|].
  rewrite Hperm. vm_compute. reflexivity.
Defined.

Lemma reachable_queries_return_witness :
  exists n i,
    GetNumSets Sample.Tnum_files Sample.st_AB_used = Some n
    /\ GetIndexOfUsedSet Sample.Tnum_files Sample.st_AB_used = Some i
    /\ -1 <= i < n.
Proof.
  destruct (reachable_queries_return Sample.Tnum_files Sample.file_names
              Sample.CheckMD5 Sample.atoi Sample.PATHSEPCHAR true
              Sample.DetermineBestSet Sample.st_AB_used sample_reachable)
    as (n & i & Hn & Hi & Hr & _).
  exists n, i. split; [exact Hn|]. split; [exact Hi | exact Hr].
Defined.
